(** * Report persistence and export pipeline of [app.py]

    A shallow embedding of the Flask handlers [submit_report],
    [get_reports] and [export_reports_excel] together with the storage
    helpers [load_reports], [save_reports] and [ensure_image_folders],
    and of the markers of [index], [uploaded_file], [translate] with
    [english_to_urdu], and the start-up code under [__main__].

    Modelling conventions.
    - A Python [str] is a Rocq [string]; one character stands for one code
      point, and case mapping is the ASCII one.
    - The values that travel through [json.load]/[json.dump] are the
      inductive [pyval].  The reports file is described by what [open]
      and [json.load] make of it: absent, unreadable, unparsable, or a
      document.
    - Handlers run in a state-and-exception monad over [world] (files,
      directories, captured standard output).
    - An operation raises in the model when Python itself raises on the
      data at hand (attribute and type errors, tuple unpacking), when
      openpyxl refuses the data (a cell it does not take, a column index
      out of range, a workbook without a sheet), when [open] fails on a
      reports file that exists, or when the source wraps that very call
      in its own [try]/[except] ([json.load], [float], [img.save]).
      Writing a file, creating a directory, pandas on a list of dicts and
      werkzeug are taken to succeed.
    - Builtins whose behaviour the source does not determine ([float],
      [secure_filename]) and the text of openpyxl's exceptions are fields
      of the class [Runtime]. *)

From Stdlib Require Import String Ascii List ZArith Lia Bool DecimalString.
From stdpp Require Import gmap strings list fin_maps.

Local Open Scope string_scope.
Local Set Warnings "-register-all,-clear-no-such-hyp".  (* nested inductives; set_solver *)

(** ** Python string operations used by the source *)

Module Py.

(** [bool(s)] for a string. *)
Definition truthy (s : string) : bool :=
  match s with EmptyString => false | _ => true end.

(** [bool(o)] for a value that is [None] or a string. *)
Definition truthy_opt (o : option string) : bool :=
  match o with Some s => truthy s | None => false end.

(** [a or b] on values that are [None] or strings. *)
Definition or_ (a b : option string) : option string :=
  if truthy_opt a then a else b.

(** [s.replace(old, new)]: non-overlapping occurrences, left to right.
    [skip] counts the characters of a match still to be dropped. *)
Fixpoint replace_from (old new : string) (skip : nat) (s : string) : string :=
  match s with
  | EmptyString => match old with EmptyString => new | _ => EmptyString end
  | String c rest =>
      match skip with
      | S k => replace_from old new k rest
      | O =>
          match old with
          | EmptyString => new +:+ String c (replace_from old new 0 rest)
          | _ =>
              if String.prefix old s
              then new +:+ replace_from old new (String.length old - 1) rest
              else String c (replace_from old new 0 rest)
          end
      end
  end.

Definition replace (s old new : string) : string := replace_from old new 0 s.

(** [s.split(sep)] for a non-empty separator; [cur] is the piece being
    read. *)
Fixpoint split_from (sep : string) (skip : nat) (cur s : string) : list string :=
  match s with
  | EmptyString => [cur]
  | String c rest =>
      match skip with
      | S k => split_from sep k cur rest
      | O =>
          if String.prefix sep s
          then cur :: split_from sep (String.length sep - 1) EmptyString rest
          else split_from sep 0 (cur +:+ String c EmptyString) rest
      end
  end.

Definition split (s sep : string) : list string := split_from sep 0 EmptyString s.

Definition lower_char (c : ascii) : ascii :=
  let n := nat_of_ascii c in
  if (65 <=? n)%nat && (n <=? 90)%nat then ascii_of_nat (n + 32) else c.

Definition upper_char (c : ascii) : ascii :=
  let n := nat_of_ascii c in
  if (97 <=? n)%nat && (n <=? 122)%nat then ascii_of_nat (n - 32) else c.

(** [s.lower()] *)
Fixpoint lower (s : string) : string :=
  match s with
  | EmptyString => EmptyString
  | String c rest => String (lower_char c) (lower rest)
  end.

(** [s.capitalize()] *)
Definition capitalize (s : string) : string :=
  match s with
  | EmptyString => EmptyString
  | String c rest => String (upper_char c) (lower rest)
  end.

(** [sep.join(l)] on a list of strings. *)
Definition join (sep : string) (l : list string) : string := String.concat sep l.

(** [str(n)] for a natural number. *)
Definition str_nat (n : nat) : string := NilEmpty.string_of_uint (Nat.to_uint n).

(** [s.rfind(c)] for a single character, [-1] when absent. *)
Fixpoint rfind_from (c : ascii) (i : Z) (found : Z) (s : string) : Z :=
  match s with
  | EmptyString => found
  | String d rest =>
      rfind_from c (i + 1) (if Ascii.eqb c d then i else found) rest
  end.

Definition rfind (s : string) (c : ascii) : Z := rfind_from c 0 (-1) s.

(** [s[i:]] and [s[:i]] for [0 <= i]. *)
Definition drop (i : Z) (s : string) : string :=
  String.substring (Z.to_nat i) (String.length s - Z.to_nat i) s.
Definition take (i : Z) (s : string) : string :=
  String.substring 0 (Z.to_nat i) s.

(** The [while] loop of [genericpath._splitext]: is there a character
    other than the dot in [p[filenameIndex:dotIndex]]? *)
Fixpoint has_stem (fuel : nat) (p : string) (filenameIndex dotIndex : Z) : bool :=
  match fuel with
  | O => false
  | S fuel' =>
      if (filenameIndex <? dotIndex)%Z then
        match String.get (Z.to_nat filenameIndex) p with
        | Some "."%char => has_stem fuel' p (filenameIndex + 1) dotIndex
        | _ => true
        end
      else false
  end.

(** [os.path.splitext(p)] on POSIX (separator [/], no alternative
    separator). *)
Definition splitext (p : string) : string * string :=
  let sepIndex := rfind p "/"%char in
  let dotIndex := rfind p "."%char in
  if (sepIndex <? dotIndex)%Z && has_stem (String.length p) p (sepIndex + 1) dotIndex
  then (take dotIndex p, drop dotIndex p)
  else (p, EmptyString).

(** [s.endswith("/")] *)
Fixpoint ends_with_sep (s : string) : bool :=
  match s with
  | EmptyString => false
  | String c EmptyString => Ascii.eqb c "/"
  | String _ rest => ends_with_sep rest
  end.

(** [os.path.join(a, b)] on POSIX. *)
Definition path_join (a b : string) : string :=
  if String.prefix "/" b then b
  else if negb (truthy a) || ends_with_sep a then a +:+ b
  else a +:+ "/" +:+ b.

(** [c not in s] *)
Fixpoint lacks (c : ascii) (s : string) : bool :=
  match s with
  | EmptyString => true
  | String d rest => negb (Ascii.eqb c d) && lacks c rest
  end.

(** A piece of text that holds neither an [L] nor a comma, as every
    number does. *)
Definition plain (s : string) : bool := lacks "L" s && lacks "," s.

End Py.

(** ** Values, exceptions and the runtime *)

(** A Python exception: its class and [str(e)]. *)
Record exn := Exn { exn_class : string; exn_msg : string }.

Inductive outcome (A : Type) : Type :=
| Val (a : A)
| Exc (e : exn).
Arguments Val {A} a.
Arguments Exc {A} e.

(** The Python values that JSON carries, over the type [F] of floats.  A
    [dict] keeps its insertion order, so it is an association list. *)
Inductive pyval (F : Type) : Type :=
| PNone
| PBool (b : bool)
| PInt (z : Z)
| PFloat (f : F)
| PStr (s : string)
| PList (l : list (pyval F))
| PDict (kv : list (string * pyval F)).
Arguments PNone {F}.
Arguments PBool {F} b.
Arguments PInt {F} z.
Arguments PFloat {F} f.
Arguments PStr {F} s.
Arguments PList {F} l.
Arguments PDict {F} kv.

(** What the source takes from the interpreter, werkzeug, pandas and
    openpyxl. *)
Class Runtime := {
  (** Python [float] values *)
  pyfloat : Type;
  (** the builtin [float(s)], raising [ValueError] on a string that is
      not a number *)
  float_of_str : string -> outcome pyfloat;
  (** [bool(x)] of a float: false for a zero, true otherwise *)
  float_truthy : pyfloat -> bool;
  (** [werkzeug.utils.secure_filename] *)
  secure_filename : string -> string;
  (** the header and rows [pandas.DataFrame(v).to_excel(..., index=False)]
      writes for a [v] that is not a list of dicts *)
  frame_irregular : pyval pyfloat -> outcome (list (list (pyval pyfloat)));
  (** the exception openpyxl's [ws.append] raises on a cell value it does
      not take: [IllegalCharacterError] for a text, [ValueError] for a
      list or a dict *)
  cell_error : pyval pyfloat -> exn
}.

Section App.

Context {RT : Runtime}.

Abbreviation value := (pyval pyfloat).

(** [type(v).__name__] *)
Definition type_name (v : value) : string :=
  match v with
  | PNone => "NoneType"
  | PBool _ => "bool"
  | PInt _ => "int"
  | PFloat _ => "float"
  | PStr _ => "str"
  | PList _ => "list"
  | PDict _ => "dict"
  end.

Definition AttributeError (v : value) (attr : string) : exn :=
  Exn "AttributeError"
      ("'" +:+ type_name v +:+ "' object has no attribute '" +:+ attr +:+ "'").

(** [d.get(k)] on the items of a dict. *)
Fixpoint dict_get (kv : list (string * value)) (k : string) : option value :=
  match kv with
  | [] => None
  | (k', v) :: rest => if String.eqb k k' then Some v else dict_get rest k
  end.

(** [d.keys()] *)
Definition dict_keys (kv : list (string * value)) : list string := map fst kv.

(** [bool(v)] *)
Definition truthy_val (v : value) : bool :=
  match v with
  | PNone => false
  | PBool b => b
  | PInt z => negb (z =? 0)%Z
  | PFloat f => float_truthy f
  | PStr s => Py.truthy s
  | PList l => match l with [] => false | _ => true end
  | PDict kv => match kv with [] => false | _ => true end
  end.

(** ** Requests and responses *)

(** A werkzeug [FileStorage]: the client's file name (empty when the part
    carries none) and the uploaded bytes. *)
Record FileStorage := { filename : string; stream : string }.

(** A multipart request: [request.form] and [request.files], both in
    arrival order. *)
Record request := {
  form : list (string * string);
  files : list (string * FileStorage)
}.

(** [request.form.get(k)]: the first value sent under [k]. *)
Fixpoint form_get (f : list (string * string)) (k : string) : option string :=
  match f with
  | [] => None
  | (k', v) :: rest => if String.eqb k k' then Some v else form_get rest k
  end.

(** [request.files.getlist(k)] *)
Definition files_getlist (fs : list (string * FileStorage)) (k : string) : list FileStorage :=
  map snd (filter (fun kf => String.eqb k (fst kf) = true) fs).

(** A worksheet: its title and the rows of cell values appended to it
    (of a text openpyxl keeps the first 32767 characters). *)
Record sheet := { title : string; rows : list (list value) }.

Inductive body : Type :=
| Json (v : value)                                   (* [jsonify(v)] *)
| Attachment (directory name : string) (wb : list sheet). (* [send_from_directory] *)

Definition response : Type := body * Z.

(** ** The world the handlers act on *)

Inductive file_state : Type :=
| Absent
| Unreadable (e : exn)     (* the file exists and [open] raises [e] *)
| Unparsable (e : exn)     (* [json.load] raises [e] on the content *)
| Document (v : value).    (* [json.load] returns [v] *)

(** One argument of a [print] call. *)
Inductive log_atom : Type :=
| LStr (s : string)
| LOpt (o : option string)
| LVal (v : value)
| LFiles (l : list FileStorage)
| LAllFiles (l : list (string * FileStorage)).

Record world := {
  reports_file : file_state;              (* REPORTS_FILE *)
  excel_file : option (list sheet);       (* EXCEL_FILE *)
  export_file : option (list sheet);      (* static/reports_export.xlsx *)
  dirs : gset string;                     (* directories that exist *)
  images : gmap string string;            (* image files, path to bytes *)
  stdout : list (list log_atom)           (* printed lines, oldest first *)
}.

(** What a request finds outside the process: the two readings of the
    clock, already formatted, and the paths on which writing an image
    fails. *)
Record env := {
  timestamp : string;                 (* [strftime("%Y%m%d_%H%M%S")] *)
  datetime_now : string;              (* [strftime("%Y-%m-%d %H:%M:%S")] *)
  save_error : string -> option exn
}.

(** ** State and exception monad *)

Definition M (A : Type) : Type := world -> outcome A * world.

#[global] Instance M_ret : MRet M := fun A (a : A) (w : world) => (Val a, w).

#[global] Instance M_bind : MBind M := fun A B (k : A -> M B) (m : M A) (w : world) =>
  match m w with
  | (Val a, w') => k a w'
  | (Exc e, w') => (Exc e, w')
  end.

Definition raise {A} (e : exn) : M A := fun w => (Exc e, w).

(** [try: m except Exception as e: h e] *)
Definition try_except {A} (m : M A) (h : exn -> M A) : M A :=
  fun w => match m w with
           | (Val a, w') => (Val a, w')
           | (Exc e, w') => h e w'
           end.

Definition lift {A} (o : outcome A) : M A := fun w => (o, w).

Definition print (line : list log_atom) : M unit :=
  fun w => (Val tt,
            {| reports_file := reports_file w; excel_file := excel_file w;
               export_file := export_file w; dirs := dirs w;
               images := images w; stdout := (stdout w ++ [line])%list |}).

Definition modify (f : world -> world) : M unit := fun w => (Val tt, f w).

#[global] Instance outcome_ret : MRet outcome := fun A (a : A) => Val a.

#[global] Instance outcome_bind : MBind outcome := fun A B (k : A -> outcome B) (o : outcome A) =>
  match o with
  | Val a => k a
  | Exc e => Exc e
  end.

(** ** Storage: [load_reports] and [save_reports] *)

Definition REPORT_TYPES : list string :=
  ["pollution"; "deforestation"; "improvement"; "other"].

Definition IMAGE_ROOT : string := "report_images".

(** Lines 26-35.  The lock has no effect on a single request.  [open]
    on line 29 stands outside the [try] of line 30, so what it raises on
    a file that exists reaches the caller. *)
Definition load_reports : M value := fun w =>
  match reports_file w with
  | Absent => (Val (PList []), w)
  | Unreadable e => raise e w
  | Unparsable e =>
      (print [LStr ("Error loading reports: " +:+ exn_msg e)] ;; mret (PList [])) w
  | Document v => (Val v, w)
  end.

(** [r.get('type', 'other').lower()] *)
Definition category_key (r : value) : outcome string :=
  match r with
  | PDict kv =>
      match default (PStr "other") (dict_get kv "type") with
      | PStr s => Val (Py.lower s)
      | v => Exc (AttributeError v "lower")
      end
  | _ => Exc (AttributeError r "get")
  end.

(** [{cat: [] for cat in categories}] *)
Definition grouped_init (categories : list string) : gmap string (list value) :=
  list_to_map (map (fun cat => (cat, [])) categories).

(** One turn of the loop of lines 49-54. *)
Definition group_step (grouped : gmap string (list value)) (r : value)
  : outcome (gmap string (list value)) :=
  cat ← category_key r;
  match grouped !! cat with
  | None => Val (alter (fun l => (l ++ [r])%list) "other" grouped)
  | Some _ => Val (alter (fun l => (l ++ [r])%list) cat grouped)
  end.

Fixpoint group_loop (grouped : gmap string (list value)) (reports : list value)
  : outcome (gmap string (list value)) :=
  match reports with
  | [] => Val grouped
  | r :: rest => g ← group_step grouped r; group_loop g rest
  end.

(** [", ".join(l)] on a list of values: every item must be a [str]. *)
Fixpoint join_items (i : nat) (l : list value) : outcome (list string) :=
  match l with
  | [] => Val []
  | PStr s :: rest => ss ← join_items (S i) rest; Val (s :: ss)
  | v :: _ =>
      Exc (Exn "TypeError"
               ("sequence item " +:+ Py.str_nat i +:+ ": expected str instance, "
                  +:+ type_name v +:+ " found"))
  end.

(** A character of openpyxl's [ILLEGAL_CHARACTERS_RE]: a control
    character other than tab, line feed and carriage return. *)
Definition illegal_char (c : ascii) : bool :=
  let n := nat_of_ascii c in
  (n <=? 8)%nat || (n =? 11)%nat || (n =? 12)%nat
  || ((14 <=? n)%nat && (n <=? 31)%nat).

Fixpoint has_illegal (s : string) : bool :=
  match s with
  | EmptyString => false
  | String c rest => illegal_char c || has_illegal rest
  end.

(** [Cell.check_string]: the text is cut at 32767 characters, and what
    is left must hold no illegal character. *)
Definition excel_text (s : string) : bool := negb (has_illegal (Py.take 32767 s)).

(** [Cell._bind_value]: [None], booleans, numbers and checked text are
    taken, a list or a dict is not. *)
Definition cell_ok (v : value) : bool :=
  match v with
  | PStr s => excel_text s
  | PList _ | PDict _ => false
  | PNone | PBool _ | PInt _ | PFloat _ => true
  end.

(** [ws.append(cells)]: the cells are bound from left to right, and the
    first one openpyxl does not take raises. *)
Fixpoint ws_append (cells : list value) : outcome unit :=
  match cells with
  | [] => Val tt
  | v :: rest => if cell_ok v then ws_append rest else Exc (cell_error v)
  end.

(** [get_column_letter(idx)]: defined for 1 to 18278. *)
Definition get_column_letter (idx : nat) : outcome unit :=
  if (1 <=? Z.of_nat idx)%Z && (Z.of_nat idx <=? 18278)%Z then Val tt
  else Exc (Exn "ValueError" ("Invalid column index " +:+ Py.str_nat idx)).

(** The number of columns of a sheet: the length of its longest row. *)
Definition widest (rows : list (list value)) : nat :=
  foldr Nat.max 0 (map (@length value) rows).

(** Lines 70-74: the cell built for key [k] of [row]; whether openpyxl
    takes it is settled by [ws.append] on line 75. *)
Definition row_cell (row : list (string * value)) (k : string) : outcome value :=
  if String.eqb k "images" then
    match dict_get row k with
    | Some (PList l) => ss ← join_items 0 l; Val (PStr (Py.join ", " ss))
    | Some v => Val v
    | None => Exc (Exn "KeyError" "'images'")
    end
  else Val (default (PStr "") (dict_get row k)).

(** Lines 69-75: the data row of one report. *)
Definition row_data (row : value) : outcome (list value) :=
  match row with
  | PDict kv => mapM (row_cell kv) (dict_keys kv)
  | _ => Exc (AttributeError row "keys")
  end.

(** Line 65: the header, from the first report of the group. *)
Definition columns_of (first : value) : outcome (list value) :=
  match first with
  | PDict kv => Val (map (fun k => PStr (Py.capitalize k)) (dict_keys kv))
  | _ => Exc (AttributeError first "keys")
  end.

(** Lines 68-75: one report of the group, its row built and appended. *)
Definition append_report (row : value) : outcome (list value) :=
  cells ← row_data row;
  ws_append cells ;;
  Val cells.

(** Lines 59-88 for one category: no sheet for an empty group.  Of the
    table and the column widths of lines 76-88, which change no cell,
    only the calls that can raise are kept: [get_column_letter] on the
    number of header cells (line 77) and on each column of the sheet
    (line 88). *)
Definition sheet_of (grouped : gmap string (list value)) (cat : string)
  : outcome (list sheet) :=
  match grouped !!! cat with
  | [] => Val []
  | (first :: _) as data =>
      columns ← columns_of first;
      ws_append columns ;;
      body_rows ← mapM append_report data;
      get_column_letter (length columns) ;;
      (if (18278 <? Z.of_nat (widest (columns :: body_rows)))%Z
       then Exc (Exn "ValueError" "Invalid column index 18279")
       else Val tt) ;;
      Val [ {| title := Py.capitalize cat; rows := columns :: body_rows |} ]
  end.

(** Lines 46-90, up to the point where [wb.save] writes the sheets: the
    workbook derived from the reports.  A workbook left without a sheet
    is refused by [wb.save]; that happens for the empty list only, with
    which no handler calls [save_reports], and what [wb.save] has by
    then made of an older file is not modelled. *)
Definition workbook_of (reports : list value) : outcome (list sheet) :=
  let categories := ["pollution"; "deforestation"; "improvement"; "other"] in
  grouped ← group_loop (grouped_init categories) reports;
  sheets ← mapM (sheet_of grouped) categories;
  match concat sheets with
  | [] => Exc (Exn "IndexError" "At least one sheet must be visible")
  | wb => Val wb
  end.

Definition write_reports_file (v : value) : M unit :=
  modify (fun w =>
    {| reports_file := Document v; excel_file := excel_file w;
       export_file := export_file w; dirs := dirs w;
       images := images w; stdout := stdout w |}).

Definition write_excel_file (wb : list sheet) : M unit :=
  modify (fun w =>
    {| reports_file := reports_file w; excel_file := Some wb;
       export_file := export_file w; dirs := dirs w;
       images := images w; stdout := stdout w |}).

(** Lines 37-90: the JSON file first, then the workbook, which is
    written when every call before [wb.save] and its own check of the
    sheets went through. *)
Definition save_reports (reports : list value) : M unit :=
  write_reports_file (PList reports) ;;
  wb ← lift (workbook_of reports);
  write_excel_file wb.

(** ** Image store *)

Definition makedirs (path : string) : M unit :=
  modify (fun w =>
    {| reports_file := reports_file w; excel_file := excel_file w;
       export_file := export_file w; dirs := {[ path ]} ∪ dirs w;
       images := images w; stdout := stdout w |}).

Fixpoint makedirs_each (paths : list string) : M unit :=
  match paths with
  | [] => mret tt
  | p :: rest => makedirs p ;; makedirs_each rest
  end.

(** Lines 154-157. *)
Definition ensure_image_folders : M unit :=
  makedirs IMAGE_ROOT ;;
  makedirs_each (map (Py.path_join IMAGE_ROOT) REPORT_TYPES).

(** [img.save(save_path)] *)
Definition img_save (e : env) (img : FileStorage) (save_path : string) : M unit :=
  match save_error e save_path with
  | Some err => raise err
  | None =>
      modify (fun w =>
        {| reports_file := reports_file w; excel_file := excel_file w;
           export_file := export_file w; dirs := dirs w;
           images := <[ save_path := stream img ]> (images w); stdout := stdout w |})
  end.

(** Lines 206-207: the name under which the file at position [idx] is
    stored. *)
Definition safe_name_of (e : env) (idx : nat) (img : FileStorage) : string :=
  let ext := snd (Py.splitext (filename img)) in
  secure_filename (timestamp e +:+ "_" +:+ Py.str_nat (idx + 1) +:+ ext).

(** Lines 205-214: one turn of the loop over the uploaded files. *)
Definition save_image (e : env) (folder_path : string) (idx : nat) (img : FileStorage)
    (image_filenames : list string) : M (list string) :=
  if Py.truthy (filename img) then
    let safe_name := safe_name_of e idx img in
    let save_path := Py.path_join folder_path safe_name in
    try_except
      (print [LStr ("Saving image to: " +:+ save_path)] ;;
       img_save e img save_path ;;
       mret (image_filenames ++ [safe_name])%list)
      (fun file_save_exc =>
         print [LStr ("Failed to save image " +:+ safe_name +:+ ": "
                        +:+ exn_msg file_save_exc)] ;;
         mret image_filenames)
  else mret image_filenames.

(** Lines 204-214: [for idx, img in enumerate(image_files)]. *)
Fixpoint save_images (e : env) (folder_path : string) (idx : nat)
    (image_files : list FileStorage) (image_filenames : list string) : M (list string) :=
  match image_files with
  | [] => mret image_filenames
  | img :: rest =>
      names ← save_image e folder_path idx img image_filenames;
      save_images e folder_path (S idx) rest names
  end.

(** ** Report service: [submit_report] *)

Definition error_body (message : string) : body :=
  Json (PDict [("status", PStr "error"); ("message", PStr message)]).

Definition success_body (report : value) : body :=
  Json (PDict [("status", PStr "success"); ("report", report)]).

(** Unpacking a list into [lat_str, lon_str]. *)
Definition unpack_error (n : nat) : exn :=
  if (n <? 2)%nat
  then Exn "ValueError"
           ("not enough values to unpack (expected 2, got " +:+ Py.str_nat n +:+ ")")
  else Exn "ValueError" "too many values to unpack (expected 2)".

(** Lines 179-185, the body of the inner [try]. *)
Definition resolve_coords (coord_x coord_y : option string) (location : string)
  : outcome (pyfloat * pyfloat) :=
  if Py.truthy_opt coord_x && Py.truthy_opt coord_y then
    x ← float_of_str (default "" coord_x);
    y ← float_of_str (default "" coord_y);
    Val (x, y)
  else
    match Py.split (Py.replace (Py.replace location "Lat: " "") "Lon: " "") ", " with
    | [lat_str; lon_str] =>
        x ← float_of_str lat_str;
        y ← float_of_str lon_str;
        Val (x, y)
    | parts => Exc (unpack_error (length parts))
    end.

(** Line 200. *)
Definition folder_name_of (report_type : string) : string :=
  if Py.truthy report_type && bool_decide (Py.lower report_type ∈ REPORT_TYPES)
  then Py.lower report_type else "other".

(** Lines 220-228. *)
Definition new_report_of (e : env) (report_type location description : string)
    (coord_x coord_y : pyfloat) (image_filenames : list string) : value :=
  PDict [("type", PStr report_type);
         ("location", PStr location);
         ("description", PStr description);
         ("coord_x", PFloat coord_x);
         ("coord_y", PFloat coord_y);
         ("datetime", PStr (datetime_now e));
         ("images", PList (map PStr image_filenames))].

(** [reports.append(new_report)] on whatever [load_reports] returned. *)
Definition py_append (reports : value) (item : value) : outcome (list value) :=
  match reports with
  | PList l => Val (l ++ [item])%list
  | v => Exc (AttributeError v "append")
  end.

(** [any(img and img.filename for img in image_files)] *)
Definition any_named (image_files : list FileStorage) : bool :=
  existsb (fun img => Py.truthy (filename img)) image_files.

(** Lines 190-233, after the fields and the coordinates are settled. *)
Definition store_report (e : env) (req : request)
    (report_type location description : string) (coord_x coord_y : pyfloat)
  : M response :=
  ensure_image_folders ;;
  print [LStr "FILES RECEIVED:"; LAllFiles (files req)] ;;
  let image_files := files_getlist (files req) "images" in
  print [LStr "FILES IN 'images':"; LFiles image_files] ;;
  if match image_files with [] => true | _ => false end
     || negb (any_named image_files) then
    print [LStr "No images received or filenames missing."] ;;
    mret (error_body "At least one image is required.", 400%Z)
  else
    let folder_name := folder_name_of report_type in
    let folder_path := Py.path_join IMAGE_ROOT folder_name in
    makedirs folder_path ;;
    image_filenames ← save_images e folder_path 0 image_files [];
    match image_filenames with
    | [] =>
        print [LStr "No images saved."] ;;
        mret (error_body "Failed to save images.", 500%Z)
    | _ =>
        let new_report :=
          new_report_of e report_type location description coord_x coord_y
                        image_filenames in
        reports ← load_reports;
        reports' ← lift (py_append reports new_report);
        save_reports reports' ;;
        print [LStr "Report added: "; LVal new_report] ;;
        mret (success_body new_report, 201%Z)
    end.

(** Lines 166-170: the fields read from the form. *)
Definition field_type (req : request) : option string :=
  Py.or_ (form_get (form req) "type") (form_get (form req) "reportType").
Definition field_location (req : request) : option string :=
  form_get (form req) "reportLocation".
Definition field_description (req : request) : option string :=
  Py.or_ (form_get (form req) "description") (form_get (form req) "reportDescription").
Definition field_coord_x (req : request) : option string :=
  form_get (form req) "coordX".
Definition field_coord_y (req : request) : option string :=
  form_get (form req) "coordY".

(** Lines 166-188, then [store_report]. *)
Definition submit_report_try (e : env) (req : request) : M response :=
  let report_type := field_type req in
  let location := field_location req in
  let description := field_description req in
  let coord_x := field_coord_x req in
  let coord_y := field_coord_y req in
  if negb (Py.truthy_opt report_type && Py.truthy_opt location && Py.truthy_opt description)
  then
    print [LStr "Missing required fields:"; LOpt report_type; LOpt location;
           LOpt description] ;;
    mret (error_body "Missing required fields", 400%Z)
  else
    let report_type := default "" report_type in
    let location := default "" location in
    let description := default "" description in
    if (1000 <? String.length description)%nat then
      print [LStr "Description too long."] ;;
      mret (error_body "Description too long.", 400%Z)
    else
      match resolve_coords coord_x coord_y location with
      | Exc err =>
          print [LStr "Invalid location format:"; LStr (exn_msg err)] ;;
          mret (error_body ("Invalid location format: " +:+ exn_msg err), 400%Z)
      | Val (coord_x, coord_y) =>
          store_report e req report_type location description coord_x coord_y
      end.

(** Lines 160-236: the handler with its outer [try]/[except]. *)
Definition submit_report (e : env) (req : request) (w : world) : response * world :=
  match submit_report_try e req w with
  | (Val r, w') => (r, w')
  | (Exc err, w') =>
      match print [LStr ("Error in submit_report: " +:+ exn_msg err)] w' with
      | (_, w'') => (error_body ("Server error: " +:+ exn_msg err), 500%Z, w'')
      end
  end.

(** ** Query and export *)

(** Lines 259-267. *)
Definition get_reports (w : world) : response * world :=
  match load_reports w with
  | (Val v, w') => (Json v, 200%Z, w')
  | (Exc err, w') =>
      match print [LStr ("Error in get_reports: " +:+ exn_msg err)] w' with
      | (_, w'') => (error_body "Could not load reports.", 500%Z, w'')
      end
  end.

(** The model's [listReports()]: the sequence [get_reports] answers
    with ([None] when it answers 500). *)
Definition listReports (w : world) : value :=
  match fst (get_reports w) with
  | (Json v, status) => if (status =? 200)%Z then v else PNone
  | _ => PNone
  end.

(** [len(v)] of a list. *)
Definition py_len (v : value) : option nat :=
  match v with PList l => Some (length l) | _ => None end.

Definition is_dict (v : value) : bool :=
  match v with PDict _ => true | _ => false end.

(** Column labels of [pandas.DataFrame(records)] for a list of dicts: the
    keys in the order they are first met. *)
Fixpoint frame_columns (seen : list string) (records : list value) : list string :=
  match records with
  | [] => seen
  | PDict kv :: rest =>
      frame_columns
        (fold_left (fun acc k => if bool_decide (k ∈ acc) then acc else (acc ++ [k])%list)
                   (dict_keys kv) seen)
        rest
  | _ :: rest => frame_columns seen rest
  end.

(** One row of the frame: the value under each column, an empty cell
    where the record has no such key. *)
Definition frame_row (columns : list string) (record : value) : list value :=
  match record with
  | PDict kv => map (fun k => default PNone (dict_get kv k)) columns
  | _ => []
  end.

(** Lines 292-294: [pd.DataFrame(reports)] written with
    [to_excel(excel_path, index=False)]: a header row, then one row per
    record. *)
Definition to_excel_rows (reports : value) : outcome (list (list value)) :=
  match reports with
  | PList records =>
      if forallb is_dict records then
        let columns := frame_columns [] records in
        Val (map PStr columns :: map (frame_row columns) records)
      else frame_irregular reports
  | _ => frame_irregular reports
  end.

Definition write_export_file (wb : list sheet) : M unit :=
  modify (fun w =>
    {| reports_file := reports_file w; excel_file := excel_file w;
       export_file := Some wb; dirs := dirs w;
       images := images w; stdout := stdout w |}).

Definition export_reports_excel_try : M response :=
  reports ← load_reports;
  if negb (truthy_val reports) then
    mret (error_body "No reports to export.", 404%Z)
  else
    table ← lift (to_excel_rows reports);
    let wb := [ {| title := "Sheet1"; rows := table |} ] in
    write_export_file wb ;;
    mret (Attachment "static" "reports_export.xlsx" wb, 200%Z).

(** Lines 284-298. *)
Definition export_reports_excel (w : world) : response * world :=
  match export_reports_excel_try w with
  | (Val r, w') => (r, w')
  | (Exc err, w') =>
      match print [LStr ("Error in export_reports_excel: " +:+ exn_msg err)] w' with
      | (_, w'') => (error_body "Failed to export reports.", 500%Z, w'')
      end
  end.

(** ** Statements in the words of the specification *)

(** The category a report is filed under: its lower-cased [type] when
    that is one of the fixed categories, ["other"] when it is not or when
    the report has no [type]. *)
Definition spec_category (r : value) : string :=
  match r with
  | PDict kv =>
      match dict_get kv "type" with
      | Some (PStr t) =>
          if bool_decide (Py.lower t ∈ REPORT_TYPES) then Py.lower t else "other"
      | _ => "other"
      end
  | _ => "other"
  end.

Definition str_of (v : value) : option string :=
  match v with PStr s => Some s | _ => None end.

Definition is_str (v : value) : bool :=
  match v with PStr _ => true | _ => false end.

(** A cell of a data row: the field's value, the [images] list flattened
    to one comma-joined string. *)
Definition spec_cell (field : string * value) : value :=
  match field with
  | (k, PList l) =>
      if String.eqb k "images" then PStr (Py.join ", " (omap str_of l)) else PList l
  | (_, v) => v
  end.

Definition fields_of (r : value) : list (string * value) :=
  match r with PDict kv => kv | _ => [] end.

Definition spec_header (r : value) : list value :=
  map (fun field => PStr (Py.capitalize (fst field))) (fields_of r).

Definition spec_row (r : value) : list value := map spec_cell (fields_of r).

(** The sheet of a category: nothing for an empty group, else the header
    from the first report and one data row per report. *)
Definition spec_sheet (reports : list value) (cat : string) : list sheet :=
  match filter (fun r => spec_category r = cat) reports with
  | [] => []
  | (first :: _) as group =>
      [ {| title := Py.capitalize cat;
           rows := spec_header first :: map spec_row group |} ]
  end.

Definition spec_workbook (reports : list value) : list sheet :=
  concat (map (spec_sheet reports) REPORT_TYPES).

(** The loop invariant of lines 49-54: every fixed category maps to the
    reports seen so far that belong to it, and there is no other key. *)
Definition grouped_by (seen : list value) (g : gmap string (list value)) : Prop :=
  forall cat,
    g !! cat = if bool_decide (cat ∈ REPORT_TYPES)
               then Some (filter (fun r => spec_category r = cat) seen)
               else None.

(** The shape of a report record: a dict with distinct keys whose
    [type], when present, is a string and whose [images], when a list,
    holds strings.  It says nothing on whether openpyxl takes the cells. *)
Definition record_shaped (r : value) : bool :=
  match r with
  | PDict kv =>
      bool_decide (NoDup (dict_keys kv))
      && match dict_get kv "type" with
         | None | Some (PStr _) => true
         | Some _ => false
         end
      && match dict_get kv "images" with
         | Some (PList l) => forallb is_str l
         | _ => true
         end
  | _ => false
  end.

(** A record openpyxl can write: it has a field and at most 18278, the
    capitalised names of its fields are legal text, and so is every cell
    of its row. *)
Definition record_writable (r : value) : bool :=
  match r with
  | PDict kv =>
      (1 <=? Z.of_nat (length kv))%Z && (Z.of_nat (length kv) <=? 18278)%Z
      && forallb cell_ok (spec_header r)
      && forallb cell_ok (spec_row r)
  | _ => false
  end.

(** openpyxl takes the reports of a category as a sheet: the header,
    from the first of them, has between 1 and 18278 cells, all legal, the
    cells of every row are legal, and no row is longer than 18278. *)
Definition group_writable (data : list value) : bool :=
  match data with
  | [] => true
  | first :: _ =>
      forallb cell_ok (spec_header first)
      && forallb (fun r => forallb cell_ok (spec_row r)) data
      && ((1 <=? Z.of_nat (length (spec_header first)))%Z
          && (Z.of_nat (length (spec_header first)) <=? 18278)%Z)
      && negb (18278 <? Z.of_nat (widest (spec_header first :: map spec_row data)))%Z
  end.

(** The reports from which [save_reports] derives a workbook: there is
    one at least, and the group of every category is writable. *)
Definition workbook_writable (reports : list value) : bool :=
  match reports with
  | [] => false
  | _ =>
      forallb (fun cat => group_writable (filter (fun r => spec_category r = cat) reports))
              REPORT_TYPES
  end.

(** A report record the whole of [save_reports] goes through on: of the
    right shape and writable. *)
Definition record_ok (r : value) : bool := record_shaped r && record_writable r.

(** The reports file can be read and holds a sequence of records of the
    right shape: the file is absent, unparsable as JSON (then
    [load_reports] starts afresh), or a list of such records. *)
Definition store_shaped (w : world) : Prop :=
  match reports_file w with
  | Absent | Unparsable _ => True
  | Document (PList l) => Forall (fun r => record_shaped r = true) l
  | Document _ | Unreadable _ => False
  end.

(** The same with records that are writable too. *)
Definition store_ok (w : world) : Prop :=
  match reports_file w with
  | Absent | Unparsable _ => True
  | Document (PList l) => Forall (fun r => record_ok r = true) l
  | Document _ | Unreadable _ => False
  end.

(** The uploaded files with their positions, counted from [idx]. *)
Definition indexed (idx : nat) (image_files : list FileStorage) : list (nat * FileStorage) :=
  imap (fun i img => (idx + i, img)) image_files.

(** The file at position [p.1] has a name and its write succeeds. *)
Definition stored (e : env) (folder_path : string) (p : nat * FileStorage) : bool :=
  Py.truthy (filename (snd p))
  && match save_error e (Py.path_join folder_path (safe_name_of e (fst p) (snd p))) with
     | None => true
     | Some _ => false
     end.

(** The names [saveImages] returns: those of the stored files, in input
    order. *)
Definition spec_names (e : env) (folder_path : string) (idx : nat)
    (image_files : list FileStorage) : list string :=
  map (fun p => safe_name_of e (fst p) (snd p))
      (filter (fun p => stored e folder_path p = true) (indexed idx image_files)).

(** The files it writes: path and bytes, in input order. *)
Definition spec_writes (e : env) (folder_path : string) (idx : nat)
    (image_files : list FileStorage) : list (string * string) :=
  map (fun p => (Py.path_join folder_path (safe_name_of e (fst p) (snd p)), stream (snd p)))
      (filter (fun p => stored e folder_path p = true) (indexed idx image_files)).

Definition write_all (writes : list (string * string)) (m : gmap string string)
  : gmap string string :=
  foldl (fun acc pb => <[ fst pb := snd pb ]> acc) m writes.

(** The folders [ensure_image_folders] guarantees. *)
Definition image_folders : gset string :=
  {[ IMAGE_ROOT ]} ∪ list_to_set (map (Py.path_join IMAGE_ROOT) REPORT_TYPES).

(** What the loop prints for the file at position [p.1]. *)
Definition image_log (e : env) (folder_path : string) (p : nat * FileStorage)
  : list (list log_atom) :=
  if Py.truthy (filename (snd p)) then
    let safe_name := safe_name_of e (fst p) (snd p) in
    let save_path := Py.path_join folder_path safe_name in
    [LStr ("Saving image to: " +:+ save_path)]
      :: match save_error e save_path with
         | Some err =>
             [[LStr ("Failed to save image " +:+ safe_name +:+ ": " +:+ exn_msg err)]]
         | None => []
         end
  else [].

(** [w'] differs from [w] at most in what was printed. *)
Definition same_files (w w' : world) : Prop :=
  reports_file w' = reports_file w /\ excel_file w' = excel_file w
  /\ export_file w' = export_file w /\ dirs w' = dirs w /\ images w' = images w.

(** The submission passes the checks of lines 172-188 with these fields
    and coordinates. *)
Definition passes_checks (req : request) (report_type location description : string)
    (coord_x coord_y : pyfloat) : Prop :=
  field_type req = Some report_type /\ Py.truthy report_type = true
  /\ field_location req = Some location /\ Py.truthy location = true
  /\ field_description req = Some description /\ Py.truthy description = true
  /\ (String.length description <= 1000)%nat
  /\ resolve_coords (field_coord_x req) (field_coord_y req) location = Val (coord_x, coord_y).

(** The folder the images of a report of this type go to. *)
Definition folder_path_of (report_type : string) : string :=
  Py.path_join IMAGE_ROOT (folder_name_of report_type).

(** The uploaded files of a submission. *)
Definition image_files_of (req : request) : list FileStorage :=
  files_getlist (files req) "images".

(** The names under which the images of a submission end up stored. *)
Definition saved_names (e : env) (req : request) (report_type : string) : list string :=
  spec_names e (folder_path_of report_type) 0 (image_files_of req).

(** What [load_reports] returns in world [w] ([None] where it raises). *)
Definition loaded (w : world) : value :=
  match reports_file w with
  | Document d => d
  | Unreadable _ => PNone
  | Absent | Unparsable _ => PList []
  end.

(** The form carries [v] under [k], as the first value sent under that
    name. *)
Definition sent (f : list (string * string)) (k v : string) : Prop :=
  exists before after, f = (before ++ (k, v) :: after)%list /\ k ∉ map fst before.

(** The form carries nothing under [k]. *)
Definition unsent (f : list (string * string)) (k : string) : Prop := k ∉ map fst f.

(** [v] is sent under [primary], or under [alias] while [primary] is
    absent or empty. *)
Definition aliased (f : list (string * string)) (primary alias v : string) : Prop :=
  sent f primary v \/ ((unsent f primary \/ sent f primary "") /\ sent f alias v).

(** Neither name carries a text. *)
Definition unfilled (f : list (string * string)) (primary alias : string) : Prop :=
  (unsent f primary \/ sent f primary "") /\ (unsent f alias \/ sent f alias "").

(** The same submission with the three fields under their first names,
    the coordinate fields kept and every other field dropped. *)
Definition canonical_form (f : list (string * string)) (report_type location description : string)
  : list (string * string) :=
  ("type", report_type) :: ("reportLocation", location) :: ("description", description)
    :: filter (fun kv => fst kv ∈ ["coordX"; "coordY"]) f.

(** The texts of the record of a submission, in the order of its row. *)
Definition report_texts (e : env) (report_type location description : string)
    (image_filenames : list string) : list string :=
  [report_type; location; description; datetime_now e; Py.join ", " image_filenames].

(** The reports file, when it exists, can be opened. *)
Definition readable (w : world) : Prop := forall e, reports_file w <> Unreadable e.

(** The world once the folders exist and the images are written. *)
Definition after_upload (e : env) (req : request) (report_type : string)
    (w w' : world) : Prop :=
  export_file w' = export_file w
  /\ dirs w' = image_folders ∪ dirs w
  /\ images w'
     = write_all (spec_writes e (folder_path_of report_type) 0 (image_files_of req))
                 (images w).

(** The ways through [submit_report]: the response and the world each
    path of the handler ends in. *)
Inductive submitted (e : env) (req : request) (w : world) : response -> world -> Prop :=
| sub_missing w' :
    Py.truthy_opt (field_type req) && Py.truthy_opt (field_location req)
      && Py.truthy_opt (field_description req) = false ->
    same_files w w' ->
    submitted e req w (error_body "Missing required fields", 400%Z) w'
| sub_too_long t l d w' :
    field_type req = Some t -> Py.truthy t = true ->
    field_location req = Some l -> Py.truthy l = true ->
    field_description req = Some d -> (1000 < String.length d)%nat ->
    same_files w w' ->
    submitted e req w (error_body "Description too long.", 400%Z) w'
| sub_bad_location t l d err w' :
    field_type req = Some t -> Py.truthy t = true ->
    field_location req = Some l -> Py.truthy l = true ->
    field_description req = Some d -> Py.truthy d = true ->
    (String.length d <= 1000)%nat ->
    resolve_coords (field_coord_x req) (field_coord_y req) l = Exc err ->
    same_files w w' ->
    submitted e req w
      (error_body ("Invalid location format: " +:+ exn_msg err), 400%Z) w'
| sub_no_image t l d x y w' :
    passes_checks req t l d x y ->
    any_named (image_files_of req) = false ->
    reports_file w' = reports_file w -> excel_file w' = excel_file w ->
    export_file w' = export_file w -> images w' = images w ->
    dirs w' = image_folders ∪ dirs w ->
    submitted e req w (error_body "At least one image is required.", 400%Z) w'
| sub_none_saved t l d x y w' :
    passes_checks req t l d x y ->
    any_named (image_files_of req) = true ->
    saved_names e req t = [] ->
    reports_file w' = reports_file w -> excel_file w' = excel_file w ->
    export_file w' = export_file w -> images w' = images w ->
    dirs w' = image_folders ∪ dirs w ->
    submitted e req w (error_body "Failed to save images.", 500%Z) w'
| sub_unreadable t l d x y err w' :
    passes_checks req t l d x y ->
    any_named (image_files_of req) = true ->
    saved_names e req t <> [] ->
    reports_file w = Unreadable err ->
    reports_file w' = reports_file w -> excel_file w' = excel_file w ->
    after_upload e req t w w' ->
    submitted e req w (error_body ("Server error: " +:+ exn_msg err), 500%Z) w'
| sub_not_list t l d x y w' :
    passes_checks req t l d x y ->
    any_named (image_files_of req) = true ->
    saved_names e req t <> [] ->
    (forall err, reports_file w <> Unreadable err) ->
    (forall old, loaded w <> PList old) ->
    reports_file w' = reports_file w -> excel_file w' = excel_file w ->
    after_upload e req t w w' ->
    submitted e req w
      (error_body ("Server error: " +:+ exn_msg (AttributeError (loaded w) "append")),
       500%Z) w'
| sub_workbook_failed t l d x y old err w' :
    passes_checks req t l d x y ->
    any_named (image_files_of req) = true ->
    saved_names e req t <> [] ->
    loaded w = PList old ->
    workbook_of (old ++ [new_report_of e t l d x y (saved_names e req t)]) = Exc err ->
    reports_file w'
    = Document (PList (old ++ [new_report_of e t l d x y (saved_names e req t)])) ->
    excel_file w' = excel_file w ->
    after_upload e req t w w' ->
    submitted e req w (error_body ("Server error: " +:+ exn_msg err), 500%Z) w'
| sub_created t l d x y old wb w' :
    passes_checks req t l d x y ->
    any_named (image_files_of req) = true ->
    saved_names e req t <> [] ->
    loaded w = PList old ->
    workbook_of (old ++ [new_report_of e t l d x y (saved_names e req t)]) = Val wb ->
    reports_file w'
    = Document (PList (old ++ [new_report_of e t l d x y (saved_names e req t)])) ->
    excel_file w' = Some wb ->
    after_upload e req t w w' ->
    submitted e req w
      (success_body (new_report_of e t l d x y (saved_names e req t)), 201%Z) w'.

End App.

(** ** The other routes and the start-up code *)

(** What these take from the interpreter and from werkzeug besides
    [Runtime]. *)
Class Builtins {RT : Runtime} := {
  (** [float(n)] for an [int] *)
  float_of_int : Z -> pyfloat;
  (** [str(v)] for a value that is not a [str] *)
  str_of_value : pyval pyfloat -> string;
  (** [werkzeug.security.safe_join]: the path to serve, or [None] when the
      name would leave the directory *)
  safe_join : string -> string -> option string
}.

Section Routes.

Context {RT : Runtime} {BI : Builtins}.

Abbreviation value := (pyval pyfloat).

Definition TypeError (msg : string) : exn := Exn "TypeError" msg.

Definition KeyError (k : string) : exn := Exn "KeyError" ("'" +:+ k +:+ "'").

(** [for report in v]: the items the loop runs over. *)
Definition py_iter (v : value) : outcome (list value) :=
  match v with
  | PList l => Val l
  | PDict kv => Val (map PStr (dict_keys kv))
  | PStr s => Val (map (fun c => PStr (String c EmptyString)) (list_ascii_of_string s))
  | _ => Exc (TypeError ("'" +:+ type_name v +:+ "' object is not iterable"))
  end.

(** [v[k]] with a [str] key. *)
Definition py_getitem (v : value) (k : string) : outcome value :=
  match v with
  | PDict kv =>
      match dict_get kv k with
      | Some x => Val x
      | None => Exc (KeyError k)
      end
  | PList _ => Exc (TypeError "list indices must be integers or slices, not str")
  | PStr _ => Exc (TypeError "string indices must be integers, not 'str'")
  | _ => Exc (TypeError ("'" +:+ type_name v +:+ "' object is not subscriptable"))
  end.

(** [float(v)] *)
Definition py_float (v : value) : outcome pyfloat :=
  match v with
  | PFloat f => Val f
  | PStr s => float_of_str s
  | PInt z => Val (float_of_int z)
  | PBool b => Val (float_of_int (if b then 1 else 0)%Z)
  | _ =>
      Exc (TypeError ("float() argument must be a string or a real number, not '"
                        +:+ type_name v +:+ "'"))
  end.

(** [{v}] inside an f-string. *)
Definition py_format (v : value) : string :=
  match v with PStr s => s | _ => str_of_value v end.

(** [v == s] for a string literal [s]. *)
Definition eq_str (v : value) (s : string) : bool :=
  match v with PStr t => String.eqb t s | _ => false end.

(** Lines 126-134. *)
Definition marker_color (report_type : value) : string :=
  if eq_str report_type "pollution" then "red"
  else if eq_str report_type "deforestation" then "darkred"
  else if eq_str report_type "improvement" then "green"
  else if eq_str report_type "other" then "orange"
  else "blue".

(** A [folium.Marker]: where it stands, the HTML of its popup and the
    colour of its icon. *)
Record marker := {
  marker_location : pyfloat * pyfloat;
  marker_popup : string;
  marker_color_of : string
}.

(** Lines 121-140: the marker of one report. *)
Definition marker_of (report : value) : outcome marker :=
  coord_x ← py_getitem report "coord_x";
  lat ← py_float coord_x;
  coord_y ← py_getitem report "coord_y";
  lon ← py_float coord_y;
  report_type ← py_getitem report "type";
  description ← py_getitem report "description";
  let popup_html :=
    "<b>Type:</b> " +:+ py_format report_type +:+ "<br><b>Description:</b> "
      +:+ py_format description in
  Val {| marker_location := (lat, lon); marker_popup := popup_html;
         marker_color_of := marker_color report_type |}.

(** Lines 117-140 of [index]: the markers put on the map, from the
    reports read when the module was loaded.  The map's fixed centre, the
    file it is saved to and the rendered page are left out. *)
Definition index_markers (reports_data : value) : outcome (list marker) :=
  reports ← py_iter reports_data;
  mapM marker_of reports.

(** Lines 304-316, up to [app.run]. *)
Definition startup : M unit :=
  makedirs "static" ;;
  makedirs "templates" ;;
  (fun w => match reports_file w with
            | Absent => write_reports_file (PList []) w
            | _ => (Val tt, w)
            end) ;;
  ensure_image_folders ;;
  print [LStr "Starting Flask app on http://127.0.0.1:5000/"] ;;
  print [LStr ("DEBUG: Waiting for POST /submit_report requests. If you do not see any "
                 +:+ "after submitting a report, check your HTML/JS form submission.")].

(** What a route that serves a file answers. *)
Inductive file_response : Type :=
| FileSent (bytes : string)
| NotFound.

(** [flask.send_from_directory(directory, name)] on the image files. *)
Definition send_from_directory (directory name : string) (w : world) : file_response :=
  match safe_join directory name with
  | None => NotFound
  | Some path =>
      match images w !! path with
      | Some bytes => FileSent bytes
      | None => NotFound
      end
  end.

(** Lines 238-241. *)
Definition uploaded_file (report_type name : string) (w : world) : file_response :=
  let folder_path := Py.path_join IMAGE_ROOT report_type in
  send_from_directory folder_path name w.

(** Lines 94-105.  [reply text] is what
    [requests.get(url, params=..., timeout=5).json()] gives for the text:
    the decoded body, or the exception of the request or of the
    decoding. *)
Definition english_to_urdu (reply : value -> outcome value) (text_input : value) : value :=
  match (data ← reply text_input;
         responseData ← py_getitem data "responseData";
         py_getitem responseData "translatedText") with
  | Val translated => translated
  | Exc _ => PStr "Translation service error."
  end.

(** [data.get('text')] on what [request.get_json()] returned. *)
Definition py_get (data : value) (k : string) : outcome value :=
  match data with
  | PDict kv => Val (default PNone (dict_get kv k))
  | _ => Exc (AttributeError data "get")
  end.

(** Lines 273-281; the handler has no [try]. *)
Definition translate (reply : value -> outcome value) (payload : value) : outcome response :=
  text_input ← py_get payload "text";
  let translated_text := english_to_urdu reply text_input in
  Val (Json (PDict [("translated_text", translated_text)]), 200%Z).

(** What a successful submission fixes of its record. *)
Record submission := {
  sub_env : env;
  sub_type : string;
  sub_location : string;
  sub_description : string;
  sub_coord_x : pyfloat;
  sub_coord_y : pyfloat;
  sub_images : list string
}.



(** One request served by a handler that touches the disk. *)
Inductive handled (w : world) : world -> Prop :=
| handled_submit (e : env) (req : request) : handled w (snd (submit_report e req w))
| handled_get : handled w (snd (get_reports w))
| handled_export : handled w (snd (export_reports_excel w)).

(** The worlds a deployment goes through: [__main__] on [w0], then any
    number of requests. *)
Definition deployed (w0 w : world) : Prop :=
  exists w1, startup w0 = (Val tt, w1) /\ rtc handled w1 w.

(** The workbook, when there is one, is the one [save_reports] derived
    from the reports that were in the reports file when it last
    returned: the first ones of those now there. *)
Definition mirror_ok (w : world) : Prop :=
  match excel_file w with
  | None => True
  | Some wb =>
      exists records earlier,
        loaded w = PList records /\ earlier `prefix_of` records
        /\ workbook_of earlier = Val wb
  end.

End Routes.

(** ** A reference runtime for closed examples

    Decimal literals stand for the floats they denote, and the file-name
    filter keeps the characters [secure_filename] lets through. *)

Record decimal := { mantissa : Z; places : nat }.

Fixpoint digits_from (acc : Z) (seen : bool) (s : string) : option (Z * string) :=
  match s with
  | EmptyString => if seen then Some (acc, EmptyString) else None
  | String c rest =>
      let n := nat_of_ascii c in
      if (48 <=? n)%nat && (n <=? 57)%nat
      then digits_from (10 * acc + Z.of_nat (n - 48)) true rest
      else if seen then Some (acc, s) else None
  end.

Definition float_error (s : string) : exn :=
  Exn "ValueError" ("could not convert string to float: '" +:+ s +:+ "'").

Definition unsigned_literal (s : string) : option decimal :=
  match digits_from 0 false s with
  | Some (whole, EmptyString) => Some {| mantissa := whole; places := 0 |}
  | Some (whole, String "."%char frac) =>
      match digits_from whole false frac with
      | Some (m, EmptyString) => Some {| mantissa := m; places := String.length frac |}
      | _ => None
      end
  | _ => None
  end.

Definition decimal_of_str (s : string) : outcome decimal :=
  match s with
  | String "-"%char rest =>
      match unsigned_literal rest with
      | Some d => Val {| mantissa := - mantissa d; places := places d |}
      | None => Exc (float_error s)
      end
  | _ =>
      match unsigned_literal s with
      | Some d => Val d
      | None => Exc (float_error s)
      end
  end.

Definition filename_char_ok (c : ascii) : bool :=
  let n := nat_of_ascii c in
  ((48 <=? n)%nat && (n <=? 57)%nat) || ((65 <=? n)%nat && (n <=? 90)%nat)
  || ((97 <=? n)%nat && (n <=? 122)%nat)
  || Ascii.eqb c "_" || Ascii.eqb c "." || Ascii.eqb c "-".

Fixpoint keep_filename_chars (s : string) : string :=
  match s with
  | EmptyString => EmptyString
  | String c rest =>
      if filename_char_ok c then String c (keep_filename_chars rest)
      else keep_filename_chars rest
  end.

(** What openpyxl 3.1 raises on a cell: [IllegalCharacterError] with the
    text, cut at 32767 characters, in its message, and [ValueError] for a
    list or a dict, with the name of the class standing here for the
    [repr] of the value. *)
Definition reference_cell_error (v : pyval decimal) : exn :=
  match v with
  | PStr s =>
      Exn "IllegalCharacterError" (Py.take 32767 s +:+ " cannot be used in worksheets.")
  | PDict _ => Exn "ValueError" "Cannot convert <dict> to Excel"
  | _ => Exn "ValueError" "Cannot convert <list> to Excel"
  end.

Definition reference_runtime : Runtime := {|
  pyfloat := decimal;
  float_of_str := decimal_of_str;
  float_truthy := fun d => negb (mantissa d =? 0)%Z;
  secure_filename := keep_filename_chars;
  frame_irregular := fun _ => Exc (Exn "ValueError" "DataFrame constructor not properly called!");
  cell_error := reference_cell_error
|}.

(** Decimal fixed point for the other builtins: an integer has no
    fractional digit, and a served name is one path component. *)
Definition reference_builtins : @Builtins reference_runtime :=
  @Build_Builtins reference_runtime
    (fun z => {| mantissa := z; places := 0 |})
    (fun v => type_name (RT := reference_runtime) v)
    (fun directory name =>
       if Py.lacks "/" name && negb (String.eqb name "..") && Py.truthy name
       then Some (Py.path_join directory name) else None).

(** ** A concrete scenario *)

Module Scenario.

#[local] Existing Instance reference_runtime.

(** A fresh deployment: no reports file, no folders. *)
Definition fresh : world :=
  {| reports_file := Absent; excel_file := None; export_file := None;
     dirs := ∅; images := ∅; stdout := [] |}.

Definition noon : env :=
  {| timestamp := "20240101_120000"; datetime_now := "2024-01-01 12:00:00";
     save_error := fun _ => None |}.

(** The same moment with a disk that refuses every write. *)
Definition noon_full : env :=
  {| timestamp := "20240101_120000"; datetime_now := "2024-01-01 12:00:00";
     save_error := fun _ => Some (Exn "OSError" "No space left on device") |}.

Definition photo : FileStorage := {| filename := "river.JPG"; stream := "bytes" |}.

Definition smoke : request :=
  {| form := [("type", "Pollution");
              ("reportLocation", "Lat: 35.92, Lon: 74.30");
              ("description", "smoke")];
     files := [("images", photo)] |}.

(** The same report without any upload. *)
Definition smoke_no_image : request :=
  {| form := form smoke; files := [] |}.

(** No field and no upload at all. *)
Definition blank : request := {| form := []; files := [] |}.

(** The location sent under [location] instead of [reportLocation]. *)
Definition smoke_misnamed : request :=
  {| form := [("type", "Pollution");
              ("location", "Lat: 35.92, Lon: 74.30");
              ("description", "smoke")];
     files := [("images", photo)] |}.

Definition smoke_nowhere : request :=
  {| form := [("type", "Pollution");
              ("reportLocation", "Gilgit");
              ("description", "smoke")];
     files := [("images", photo)] |}.

Definition long_description (n : nat) : request :=
  {| form := [("type", "Pollution");
              ("reportLocation", "Lat: 35.92, Lon: 74.30");
              ("description", string_of_list_ascii (repeat "a"%char n))];
     files := [("images", photo)] |}.

Definition lat : decimal := {| mantissa := 3592; places := 2 |}.
Definition lon : decimal := {| mantissa := 7430; places := 2 |}.

Definition smoke_record : pyval decimal :=
  new_report_of noon "Pollution" "Lat: 35.92, Lon: 74.30" "smoke" lat lon
    ["20240101_120000_1.JPG"].

(** The world after the smoke report was submitted on a fresh
    deployment. *)
Definition reported : world := snd (submit_report noon smoke fresh).

(** The bell character, which openpyxl refuses in a cell. *)
Definition bell : string := String "007"%char EmptyString.

(** The smoke report with a bell at the end of its description. *)
Definition smoke_bell : request :=
  {| form := [("type", "Pollution");
              ("reportLocation", "Lat: 35.92, Lon: 74.30");
              ("description", "smoke" +:+ bell)];
     files := [("images", photo)] |}.

Definition bell_record : pyval decimal :=
  new_report_of noon "Pollution" "Lat: 35.92, Lon: 74.30" ("smoke" +:+ bell) lat lon
    ["20240101_120000_1.JPG"].

(** The smoke report sent under the second names of its fields, with an
    empty [type] and a [location] beside. *)
Definition smoke_aliased : request :=
  {| form := [("reportType", "Pollution");
              ("type", "");
              ("reportLocation", "Lat: 35.92, Lon: 74.30");
              ("location", "nowhere");
              ("reportDescription", "smoke")];
     files := [("images", photo)] |}.

(** A deployment whose reports file exists and cannot be opened. *)
Definition locked : world :=
  {| reports_file :=
       Unreadable (Exn "PermissionError" "[Errno 13] Permission denied: 'reports.json'");
     excel_file := None; export_file := None; dirs := ∅; images := ∅; stdout := [] |}.

(** A reports file edited by hand: the type of the record is a number. *)
Definition edited_reports : list (pyval decimal) := [PDict [("type", PInt 5)]].

(** A deployment whose reports file holds them. *)
Definition edited : world :=
  {| reports_file := Document (PList edited_reports); excel_file := None;
     export_file := None; dirs := ∅; images := ∅; stdout := [] |}.

(** The world once the start-up code has run on a fresh deployment. *)
Definition started : world := snd (startup fresh).

(** The smoke report submitted once the start-up code has run. *)
Definition started_reported : world := snd (submit_report noon smoke started).

(** The report with the bell submitted once the start-up code has run. *)
Definition belled : world := snd (submit_report noon smoke_bell started).

(** The smoke report, which is writable, submitted after it. *)
Definition belled_reported : world := snd (submit_report noon smoke belled).

(** The same report typed as the form's select box spells it. *)
Definition smoke_submission : submission :=
  {| sub_env := noon; sub_type := "Pollution";
     sub_location := "Lat: 35.92, Lon: 74.30"; sub_description := "smoke";
     sub_coord_x := lat; sub_coord_y := lon;
     sub_images := ["20240101_120000_1.JPG"] |}.

(** A location that names a place and no coordinates. *)
Definition gilgit : string := "Gilgit".

End Scenario.

(** * Properties *)

(** ** The string operations on the inputs the source meets *)

Example replace_lat : Py.replace "Lat: 35.92, Lon: 74.30" "Lat: " "" = "35.92, Lon: 74.30".
Proof. reflexivity. Qed.

Example split_pair : Py.split "35.92, 74.30" ", " = ["35.92"; "74.30"].
Proof. reflexivity. Qed.

Example split_none : Py.split "Gilgit" ", " = ["Gilgit"].
Proof. reflexivity. Qed.

Example splitext_jpg : Py.splitext "photo.tar.JPG" = ("photo.tar", ".JPG").
Proof. reflexivity. Qed.

Example splitext_hidden : Py.splitext ".bashrc" = (".bashrc", "").
Proof. reflexivity. Qed.

Example capitalize_coord : Py.capitalize "coord_x" = "Coord_x".
Proof. reflexivity. Qed.

Example str_nat_12 : Py.str_nat 12 = "12".
Proof. reflexivity. Qed.

Example path_join_rel : Py.path_join "report_images" "other" = "report_images/other".
Proof. reflexivity. Qed.

Example decimal_lat : decimal_of_str "35.92" = Val {| mantissa := 3592; places := 2 |}.
Proof. reflexivity. Qed.

Example decimal_bad : decimal_of_str "Gilgit" = Exc (float_error "Gilgit").
Proof. reflexivity. Qed.

Section PyFacts.

Lemma append_cons (x : ascii) (a b : string) : String x a +:+ b = String x (a +:+ b).
Proof. reflexivity. Qed.

Lemma append_empty_l (a : string) : "" +:+ a = a.
Proof. reflexivity. Qed.

Lemma append_assoc (a b c : string) : (a +:+ b) +:+ c = a +:+ (b +:+ c).
Proof.
  induction a as [|x a IH]; [reflexivity|]. rewrite !append_cons, IH. reflexivity.
Qed.

Lemma append_empty_r (a : string) : a +:+ "" = a.
Proof.
  induction a as [|x a IH]; [reflexivity|]. rewrite append_cons, IH. reflexivity.
Qed.

Lemma prefix_empty (s : string) : String.prefix "" s = true.
Proof. destruct s; reflexivity. Qed.

Lemma prefix_other_head (c d : ascii) (old s : string) :
  Ascii.eqb c d = false -> String.prefix (String c old) (String d s) = false.
Proof.
  intros H. cbn. destruct (ascii_dec c d) as [->|_]; [|reflexivity].
  rewrite Ascii.eqb_refl in H. discriminate.
Qed.

(** [replace] leaves alone a stretch that lacks the first character of
    the pattern. *)
Lemma replace_from_lacks (c : ascii) (old new a rest : string) :
  Py.lacks c a = true ->
  Py.replace_from (String c old) new 0 (a +:+ rest)
  = a +:+ Py.replace_from (String c old) new 0 rest.
Proof.
  induction a as [|d a IH]; intros H; [reflexivity|].
  cbn in H. apply andb_true_iff in H as [Hd Ha]. apply negb_true_iff in Hd.
  rewrite !append_cons. cbn [Py.replace_from].
  rewrite (prefix_other_head c d old _ Hd), (IH Ha). reflexivity.
Qed.

(** [split] reads through a stretch that lacks the first character of
    the separator. *)
Lemma split_from_lacks (c : ascii) (sep a rest : string) : forall cur,
  Py.lacks c a = true ->
  Py.split_from (String c sep) 0 cur (a +:+ rest)
  = Py.split_from (String c sep) 0 (cur +:+ a) rest.
Proof.
  induction a as [|d a IH]; intros cur H.
  - rewrite append_empty_r. reflexivity.
  - cbn in H. apply andb_true_iff in H as [Hd Ha]. apply negb_true_iff in Hd.
    rewrite append_cons. cbn [Py.split_from].
    rewrite (prefix_other_head c d sep _ Hd), (IH _ Ha), append_assoc. reflexivity.
Qed.

Lemma replace_from_lacks_all (c : ascii) (old new a : string) :
  Py.lacks c a = true -> Py.replace_from (String c old) new 0 a = a.
Proof.
  intros H. rewrite <- (append_empty_r a) at 1.
  rewrite (replace_from_lacks c old new a "" H). apply append_empty_r.
Qed.

Lemma split_from_lacks_all (c : ascii) (sep a cur : string) :
  Py.lacks c a = true -> Py.split_from (String c sep) 0 cur a = [cur +:+ a].
Proof.
  intros H. rewrite <- (append_empty_r a) at 1.
  rewrite (split_from_lacks c sep a "" cur H). reflexivity.
Qed.

(** Line 183 on a location of the documented shape. *)
Lemma split_lat_lon (a b : string) :
  Py.plain a = true -> Py.plain b = true ->
  Py.split (Py.replace (Py.replace ("Lat: " +:+ a +:+ ", Lon: " +:+ b) "Lat: " "")
                       "Lon: " "") ", "
  = [a; b].
Proof.
  unfold Py.plain. intros Ha Hb.
  apply andb_true_iff in Ha as [HaL Hac]. apply andb_true_iff in Hb as [HbL Hbc].
  assert (Py.replace ("Lat: " +:+ a +:+ ", Lon: " +:+ b) "Lat: " ""
          = a +:+ ", Lon: " +:+ b) as ->.
  { unfold Py.replace. rewrite ?append_cons, ?append_empty_l. cbn.
    rewrite prefix_empty, ?append_empty_l.
    rewrite (replace_from_lacks "L" "at: " "" a _ HaL). cbn.
    rewrite (replace_from_lacks_all "L" "at: " "" b HbL). reflexivity. }
  assert (Py.replace (a +:+ ", Lon: " +:+ b) "Lon: " "" = a +:+ ", " +:+ b) as ->.
  { unfold Py.replace. rewrite ?append_cons, ?append_empty_l.
    rewrite (replace_from_lacks "L" "on: " "" a _ HaL). cbn.
    rewrite prefix_empty, ?append_empty_l.
    rewrite (replace_from_lacks_all "L" "on: " "" b HbL). reflexivity. }
  unfold Py.split. rewrite ?append_cons, ?append_empty_l.
  rewrite (split_from_lacks "," " " a _ "" Hac). cbn.
  rewrite prefix_empty, ?append_empty_l.
  rewrite (split_from_lacks_all "," " " b "" Hbc). reflexivity.
Qed.

End PyFacts.

(** Unfolds the monad so that a run on a world computes. *)
Ltac run :=
  unfold mbind, mret, M_bind, M_ret, modify, print, lift, raise, try_except in *.

Ltac run_outcome :=
  unfold mbind, mret, outcome_bind, outcome_ret in *.

Section Storage.

Context {RT : Runtime}.
Abbreviation value := (pyval pyfloat).

Lemma same_files_refl (w : world) : same_files w w.
Proof. repeat split. Qed.

Lemma load_reports_run (w : world) :
  readable w ->
  exists v w', load_reports w = (Val v, w') /\ same_files w w' /\ v = loaded w.
Proof.
  intros Hread. unfold load_reports, loaded. destruct (reports_file w) eqn:E.
  - exists (PList []), w. repeat split.
  - exfalso. exact (Hread e E).
  - eexists _, _. run. cbn. split; [reflexivity|]. repeat split.
  - exists v, w. repeat split.
Qed.

Lemma load_reports_unreadable (w : world) (e : exn) :
  reports_file w = Unreadable e -> load_reports w = (Exc e, w).
Proof. intros E. unfold load_reports. rewrite E. reflexivity. Qed.

(** C5, as the code has it: [load_reports] returns the empty list and
    touches nothing when there is no file, prints the error and returns
    the empty list when the file does not parse, and returns the document
    otherwise.  It raises in one case only: the file exists and [open],
    which stands outside the [try], raises; then [get_reports] answers
    500.  In every other state [get_reports] answers 200 with what
    [load_reports] returned. *)
Theorem load_reports_raises_only_on_open (w : world) :
  (reports_file w = Absent -> load_reports w = (Val (PList []), w))
  /\ (forall e, reports_file w = Unparsable e ->
        exists w',
          load_reports w = (Val (PList []), w') /\ same_files w w'
          /\ stdout w'
             = (stdout w ++ [[LStr ("Error loading reports: " +:+ exn_msg e)]])%list)
  /\ (forall d, reports_file w = Document d -> load_reports w = (Val d, w))
  /\ (forall e, reports_file w = Unreadable e ->
        load_reports w = (Exc e, w)
        /\ fst (get_reports w) = (error_body "Could not load reports.", 500%Z)
        /\ same_files w (snd (get_reports w)))
  /\ (forall e, fst (load_reports w) = Exc e -> reports_file w = Unreadable e)
  /\ (readable w ->
      exists v w', load_reports w = (Val v, w') /\ get_reports w = (Json v, 200%Z, w')).
Proof.
  unfold readable, get_reports, load_reports. destruct (reports_file w) eqn:E.
  - split; [reflexivity|]. do 3 (split; [discriminate|]).
    split; [discriminate|]. intros _. eauto.
  - split; [discriminate|]. split; [discriminate|]. split; [discriminate|].
    split; [|split].
    + intros ? [= <-]. run. cbn. repeat split.
    + intros e' [= <-]. reflexivity.
    + intros Hread. exfalso. exact (Hread e eq_refl).
  - split; [discriminate|]. split; [|split; [discriminate|]].
    + intros ? [= <-]. eexists. run. cbn. split; [reflexivity|]. repeat split.
    + split; [discriminate|]. run. cbn. split; [discriminate|]. intros _. eauto.
  - split; [discriminate|]. split; [discriminate|]. split.
    + intros ? [= <-]. reflexivity.
    + split; [discriminate|]. split; [discriminate|]. intros _. eauto.
Qed.

End Storage.

(** ** The workbook derived by [save_reports] *)

Section Workbook.

Context {RT : Runtime}.
Abbreviation value := (pyval pyfloat).

(** [mapM] in the exception monad succeeds when every call does. *)
Lemma mapM_Val {A B} (f : A -> outcome B) (g : A -> B) (l : list A) :
  Forall (fun x => f x = Val (g x)) l -> mapM f l = Val (map g l).
Proof.
  induction 1 as [|x l Hx _ IH]; [reflexivity|].
  cbn. run_outcome. rewrite Hx. cbn. rewrite IH. reflexivity.
Qed.

Lemma dict_get_NoDup (kv : list (string * value)) (k : string) (v : value) :
  NoDup (dict_keys kv) -> (k, v) ∈ kv -> dict_get kv k = Some v.
Proof.
  unfold dict_keys. induction kv as [|[k' v'] kv IH]; intros Hnd Hin.
  - inversion Hin.
  - cbn in Hnd. apply NoDup_cons in Hnd as [Hnotin Hnd].
    apply elem_of_cons in Hin as [[= -> ->]|Hin]; cbn.
    + rewrite String.eqb_refl. reflexivity.
    + destruct (String.eqb_spec k k') as [->|_]; [|auto].
      exfalso. apply Hnotin. apply list_elem_of_fmap. exists (k', v). auto.
Qed.

Lemma join_items_strs (l : list value) : forall i,
  forallb is_str l = true -> join_items i l = Val (omap str_of l).
Proof.
  induction l as [|v l IH]; intros i H; [reflexivity|].
  cbn in H. apply andb_true_iff in H as [Hv Hl].
  destruct v; try discriminate. cbn. run_outcome. rewrite (IH _ Hl). reflexivity.
Qed.

Lemma mapM_cases {A B} (f : A -> outcome B) (g : A -> B) (l : list A) :
  Forall (fun x => f x = Val (g x) \/ exists e, f x = Exc e) l ->
  mapM f l = Val (map g l) \/ exists e, mapM f l = Exc e.
Proof.
  induction 1 as [|x l Hx _ IH]; [left; reflexivity|].
  cbn. run_outcome. destruct Hx as [->|[e ->]]; [|right; eauto].
  destruct IH as [->|[e ->]]; [left; reflexivity|right; eauto].
Qed.

Lemma record_ok_shaped (r : value) : record_ok r = true -> record_shaped r = true.
Proof. unfold record_ok. intros H. apply andb_true_iff in H as [H _]. exact H. Qed.

Lemma record_ok_writable (r : value) : record_ok r = true -> record_writable r = true.
Proof. unfold record_ok. intros H. apply andb_true_iff in H as [_ H]. exact H. Qed.

Lemma row_cell_field (kv : list (string * value)) (k : string) (v : value) :
  record_shaped (PDict kv) = true -> (k, v) ∈ kv ->
  row_cell kv k = Val (spec_cell (k, v)).
Proof.
  intros Hok Hin. cbn in Hok.
  apply andb_true_iff in Hok as [Hok Himg]. apply andb_true_iff in Hok as [Hnd _].
  apply bool_decide_eq_true in Hnd.
  unfold row_cell, spec_cell. rewrite (dict_get_NoDup kv k v Hnd Hin).
  destruct (String.eqb_spec k "images") as [->|_].
  - rewrite (dict_get_NoDup kv "images" _ Hnd Hin) in Himg.
    destruct v; try reflexivity.
    run_outcome. rewrite (join_items_strs _ _ Himg). reflexivity.
  - destruct v; reflexivity.
Qed.

Lemma row_data_spec (r : value) :
  record_shaped r = true -> row_data r = Val (spec_row r).
Proof.
  destruct r; try discriminate. intros Hok.
  unfold row_data, spec_row, fields_of, dict_keys.
  assert (forall fields, (forall f, f ∈ fields -> f ∈ kv) ->
            mapM (row_cell kv) (map fst fields) = Val (map spec_cell fields)) as Hgen.
  { induction fields as [|[k v] fields IH]; intros Hsub; [reflexivity|].
    cbn. run_outcome.
    rewrite (row_cell_field kv k v Hok) by (apply Hsub; left).
    cbn. rewrite IH by (intros f Hf; apply Hsub; right; exact Hf). reflexivity. }
  apply Hgen. auto.
Qed.

Lemma columns_of_spec (r : value) :
  record_shaped r = true -> columns_of r = Val (spec_header r).
Proof.
  destruct r; try discriminate. intros _. unfold columns_of, spec_header, dict_keys.
  cbn. rewrite map_map. reflexivity.
Qed.

Lemma category_key_spec (r : value) :
  record_shaped r = true ->
  exists cat, category_key r = Val cat
    /\ spec_category r = (if bool_decide (cat ∈ REPORT_TYPES) then cat else "other").
Proof.
  destruct r; try discriminate. intros Hok. cbn in Hok.
  apply andb_true_iff in Hok as [Hok _]. apply andb_true_iff in Hok as [_ Hty].
  unfold category_key, spec_category.
  destruct (dict_get kv "type") as [[]|]; try discriminate; cbn.
  - eexists. split; reflexivity.
  - exists "other". split; reflexivity.
Qed.

Lemma spec_category_fixed (r : value) : spec_category r ∈ REPORT_TYPES.
Proof.
  assert ("other" ∈ REPORT_TYPES) as Hother by (unfold REPORT_TYPES; set_solver).
  unfold spec_category. destruct r; try exact Hother.
  destruct (dict_get kv "type") as [[]|]; try exact Hother.
  case_bool_decide; [assumption|exact Hother].
Qed.

Lemma grouped_init_by : grouped_by [] (grouped_init REPORT_TYPES).
Proof.
  intros cat. unfold grouped_init, REPORT_TYPES. cbn.
  rewrite !lookup_insert, lookup_empty.
  repeat (case_decide; [subst; reflexivity|]).
  rewrite bool_decide_eq_false_2; [reflexivity|]. intros Hin.
  repeat (apply elem_of_cons in Hin as [Hin|Hin]; [congruence|]). inversion Hin.
Qed.

Lemma group_step_by (seen : list value) (g : gmap string (list value)) (r : value) :
  record_shaped r = true -> grouped_by seen g ->
  exists g', group_step g r = Val g' /\ grouped_by (seen ++ [r]) g'.
Proof.
  intros Hok Hg. destruct (category_key_spec r Hok) as (cat & Hkey & Hcat).
  exists (alter (fun l => (l ++ [r])%list) (spec_category r) g). split.
  - unfold group_step. run_outcome. rewrite Hkey. cbn. rewrite (Hg cat), Hcat.
    case_bool_decide; reflexivity.
  - intros c. rewrite lookup_alter, filter_app, filter_cons, filter_nil.
    pose proof (spec_category_fixed r) as Hfix. clear Hcat Hkey.
    destruct (decide (spec_category r = c)) as [Hc|Hc].
    + subst c. rewrite (Hg (spec_category r)), bool_decide_eq_true_2 by assumption.
      reflexivity.
    + rewrite (Hg c). rewrite app_nil_r. reflexivity.
Qed.

Lemma group_loop_by (reports : list value) : forall seen g,
  Forall (fun r => record_shaped r = true) reports -> grouped_by seen g ->
  exists g', group_loop g reports = Val g' /\ grouped_by (seen ++ reports) g'.
Proof.
  induction reports as [|r reports IH]; intros seen g Hall Hg.
  - exists g. rewrite app_nil_r. auto.
  - apply Forall_cons in Hall as [Hr Hall].
    destruct (group_step_by seen g r Hr Hg) as (g1 & Hstep & Hg1).
    destruct (IH (seen ++ [r])%list g1 Hall Hg1) as (g2 & Hloop & Hg2).
    exists g2. split.
    + cbn. run_outcome. rewrite Hstep. exact Hloop.
    + rewrite <- app_assoc in Hg2. exact Hg2.
Qed.

Lemma ws_append_ok (cells : list value) :
  forallb cell_ok cells = true -> ws_append cells = Val tt.
Proof.
  induction cells as [|v cells IH]; [reflexivity|]. cbn.
  intros H. apply andb_true_iff in H as [-> H]. apply IH, H.
Qed.

Lemma record_writable_cells (r : value) :
  record_writable r = true ->
  forallb cell_ok (spec_header r) = true /\ forallb cell_ok (spec_row r) = true.
Proof.
  destruct r; try discriminate. unfold record_writable. intros H.
  apply andb_true_iff in H as [H Hrow]. apply andb_true_iff in H as [_ Hhead]. auto.
Qed.

Lemma append_report_cases (r : value) :
  record_shaped r = true ->
  append_report r = Val (spec_row r) \/ exists e, append_report r = Exc e.
Proof.
  intros Hok. unfold append_report. run_outcome. rewrite (row_data_spec r Hok).
  destruct (ws_append (spec_row r)) as [[]|e]; [left; reflexivity|right; eauto].
Qed.

Lemma append_report_ok (r : value) :
  record_ok r = true -> append_report r = Val (spec_row r).
Proof.
  intros Hok. unfold append_report. run_outcome.
  rewrite (row_data_spec r (record_ok_shaped r Hok)).
  destruct (record_writable_cells r (record_ok_writable r Hok)) as [_ Hw].
  rewrite (ws_append_ok _ Hw). reflexivity.
Qed.

Lemma widest_le (n : nat) (rows : list (list value)) :
  Forall (fun row => length row <= n) rows -> widest rows <= n.
Proof.
  unfold widest. induction 1 as [|row rows Hrow _ IH]; cbn; lia.
Qed.

Lemma spec_row_length (r : value) : length (spec_row r) = length (fields_of r).
Proof. unfold spec_row. apply length_map. Qed.

Lemma spec_header_length (r : value) : length (spec_header r) = length (fields_of r).
Proof. unfold spec_header. apply length_map. Qed.

Lemma record_writable_width (r : value) :
  record_writable r = true ->
  1 <= length (fields_of r) /\ (Z.of_nat (length (fields_of r)) <= 18278)%Z.
Proof.
  destruct r; try discriminate. cbn. intros H.
  apply andb_true_iff in H as [H _]. apply andb_true_iff in H as [H _].
  apply andb_true_iff in H as [H1 H2]. lia.
Qed.

(** The group of a category among reports of the right shape. *)
Lemma sheet_of_group (reports : list value) (g : gmap string (list value)) (cat : string) :
  grouped_by reports g -> cat ∈ REPORT_TYPES ->
  g !!! cat = filter (fun r => spec_category r = cat) reports.
Proof.
  intros Hg Hcat.
  rewrite lookup_total_alt, (Hg cat), bool_decide_eq_true_2 by assumption. reflexivity.
Qed.

(** On reports of the right shape a sheet, when [sheet_of] returns one,
    is the sheet of the specification. *)
Lemma sheet_of_cases (reports : list value) (g : gmap string (list value)) (cat : string) :
  Forall (fun r => record_shaped r = true) reports -> grouped_by reports g ->
  cat ∈ REPORT_TYPES ->
  sheet_of g cat = Val (spec_sheet reports cat) \/ exists e, sheet_of g cat = Exc e.
Proof.
  intros Hall Hg Hcat. unfold sheet_of, spec_sheet.
  rewrite (sheet_of_group reports g cat Hg Hcat).
  assert (Forall (fun r => record_shaped r = true)
                 (filter (fun r => spec_category r = cat) reports)) as Hgroup.
  { apply Forall_forall. intros r Hr. apply list_elem_of_filter in Hr as [_ Hr].
    rewrite Forall_forall in Hall. auto. }
  destruct (filter (fun r => spec_category r = cat) reports) as [|first group];
    [left; reflexivity|].
  destruct (mapM_cases append_report spec_row (first :: group)) as [Hrows|[e Hrows]].
  { eapply Forall_impl; [exact Hgroup|]. intros r Hr. apply append_report_cases, Hr. }
  - apply Forall_cons in Hgroup as [Hfirst _]. run_outcome.
    rewrite (columns_of_spec first Hfirst).
    destruct (ws_append (spec_header first)) as [[]|e]; [|right; eauto].
    rewrite Hrows.
    destruct (get_column_letter (length (spec_header first))) as [[]|e];
      [|right; eauto].
    destruct (18278 <? _)%Z; [right; eauto|left; reflexivity].
  - apply Forall_cons in Hgroup as [Hfirst _]. run_outcome.
    rewrite (columns_of_spec first Hfirst).
    destruct (ws_append (spec_header first)) as [[]|e']; [|right; eauto].
    rewrite Hrows. right. eauto.
Qed.

(** On records that are writable too it returns it. *)
Lemma sheet_of_spec (reports : list value) (g : gmap string (list value)) (cat : string) :
  Forall (fun r => record_ok r = true) reports -> grouped_by reports g ->
  cat ∈ REPORT_TYPES -> sheet_of g cat = Val (spec_sheet reports cat).
Proof.
  intros Hall Hg Hcat. unfold sheet_of, spec_sheet.
  rewrite (sheet_of_group reports g cat Hg Hcat).
  assert (Forall (fun r => record_ok r = true)
                 (filter (fun r => spec_category r = cat) reports)) as Hgroup.
  { apply Forall_forall. intros r Hr. apply list_elem_of_filter in Hr as [_ Hr].
    rewrite Forall_forall in Hall. auto. }
  destruct (filter (fun r => spec_category r = cat) reports) as [|first group];
    [reflexivity|].
  assert (mapM append_report (first :: group) = Val (map spec_row (first :: group)))
    as Hrows.
  { apply mapM_Val. eapply Forall_impl; [exact Hgroup|].
    intros r Hr. apply append_report_ok, Hr. }
  assert (Forall (fun row : list value => length row <= Z.to_nat 18278)
                 (spec_header first :: map spec_row (first :: group))) as Hwide.
  { apply Forall_cons. split.
    - apply Forall_cons in Hgroup as [Hfirst _].
      destruct (record_writable_width first (record_ok_writable _ Hfirst)) as [_ H].
      rewrite spec_header_length. lia.
    - apply Forall_fmap. eapply Forall_impl; [exact Hgroup|]. intros r Hr. cbn.
      destruct (record_writable_width r (record_ok_writable _ Hr)) as [_ H].
      rewrite spec_row_length. lia. }
  apply widest_le in Hwide.
  apply Forall_cons in Hgroup as [Hfirst _].
  pose proof (record_ok_writable _ Hfirst) as Hw.
  destruct (record_writable_width first Hw) as [Hmin Hmax].
  run_outcome. rewrite (columns_of_spec first (record_ok_shaped _ Hfirst)).
  assert (ws_append (spec_header first) = Val tt) as ->.
  { apply ws_append_ok, (record_writable_cells first Hw). }
  rewrite Hrows. unfold get_column_letter. rewrite spec_header_length.
  replace ((1 <=? Z.of_nat (length (fields_of first)))%Z
           && (Z.of_nat (length (fields_of first)) <=? 18278)%Z) with true
    by (symmetry; apply andb_true_iff; split; apply Z.leb_le; lia).
  replace (18278 <? Z.of_nat (widest (spec_header first :: map spec_row (first :: group))))%Z
    with false by (symmetry; apply Z.ltb_ge; lia).
  reflexivity.
Qed.

Lemma spec_sheet_rows (reports : list value) (cat : string) :
  list_sum (map (fun s => length (rows s) - 1) (spec_sheet reports cat))
  = length (filter (fun r => spec_category r = cat) reports).
Proof.
  unfold spec_sheet.
  destruct (filter (fun r => spec_category r = cat) reports) as [|first group];
    [reflexivity|].
  cbn. rewrite length_map. lia.
Qed.

Lemma category_partition (reports : list value) :
  length (filter (fun r => spec_category r = "pollution") reports)
  + (length (filter (fun r => spec_category r = "deforestation") reports)
     + (length (filter (fun r => spec_category r = "improvement") reports)
        + (length (filter (fun r => spec_category r = "other") reports) + 0)))
  = length reports.
Proof.
  induction reports as [|r reports IH]; [reflexivity|].
  rewrite !filter_cons. pose proof (spec_category_fixed r) as Hfix.
  unfold REPORT_TYPES in Hfix. rewrite !elem_of_cons, elem_of_nil in Hfix.
  destruct Hfix as [Hc|[Hc|[Hc|[Hc|[]]]]]; rewrite Hc;
    repeat (first [rewrite decide_True by reflexivity
                  | rewrite decide_False by discriminate]);
    cbn [length]; lia.
Qed.

(** The data rows of all sheets together are as many as the reports. *)
Lemma spec_workbook_rows (reports : list value) :
  list_sum (map (fun s => length (rows s) - 1) (spec_workbook reports)) = length reports.
Proof.
  unfold spec_workbook, REPORT_TYPES. cbn [map concat]. rewrite app_nil_r.
  rewrite !map_app, !list_sum_app, !spec_sheet_rows.
  pose proof (category_partition reports). lia.
Qed.

Lemma spec_workbook_nil (reports : list value) :
  spec_workbook reports = [] <-> reports = [].
Proof.
  split; [|intros ->; reflexivity].
  intros Hnil. pose proof (spec_workbook_rows reports) as Hrows.
  rewrite Hnil in Hrows. destruct reports; [reflexivity|discriminate].
Qed.

(** On reports of the right shape the workbook, when one is derived, is
    the workbook of the specification. *)
Lemma workbook_of_cases (reports : list value) :
  Forall (fun r => record_shaped r = true) reports ->
  (workbook_of reports = Val (spec_workbook reports) /\ reports <> [])
  \/ exists e, workbook_of reports = Exc e.
Proof.
  intros Hall. unfold workbook_of.
  destruct (group_loop_by reports [] (grouped_init REPORT_TYPES) Hall grouped_init_by)
    as (g & Hloop & Hg).
  cbn [app] in Hg. fold REPORT_TYPES.
  destruct (mapM_cases (sheet_of g) (spec_sheet reports) REPORT_TYPES)
    as [Hsheets|[e Hsheets]].
  { apply Forall_forall. intros cat Hcat. apply sheet_of_cases; assumption. }
  - run_outcome. rewrite Hloop, Hsheets. fold (spec_workbook reports).
    destruct (spec_workbook reports) as [|s wb] eqn:Hwb; [right; eauto|].
    left. split; [reflexivity|]. intros ->. discriminate.
  - run_outcome. rewrite Hloop, Hsheets. right. eauto.
Qed.

(** On a non-empty sequence of records that are writable too it is
    derived. *)
Lemma workbook_of_spec (reports : list value) :
  Forall (fun r => record_ok r = true) reports -> reports <> [] ->
  workbook_of reports = Val (spec_workbook reports).
Proof.
  intros Hall Hne. unfold workbook_of.
  assert (Forall (fun r => record_shaped r = true) reports) as Hshape
      by (eapply Forall_impl; [exact Hall|apply record_ok_shaped]).
  destruct (group_loop_by reports [] (grouped_init REPORT_TYPES) Hshape grouped_init_by)
    as (g & Hloop & Hg).
  cbn [app] in Hg. fold REPORT_TYPES. run_outcome. rewrite Hloop.
  rewrite (mapM_Val (sheet_of g) (spec_sheet reports)).
  - fold (spec_workbook reports).
    destruct (spec_workbook reports) as [|s wb] eqn:Hwb; [|reflexivity].
    exfalso. apply Hne, spec_workbook_nil, Hwb.
  - apply Forall_forall. intros cat Hcat. apply sheet_of_spec; assumption.
Qed.

Lemma mapM_Val_inv {A B} (f : A -> outcome B) (l : list A) : forall ys,
  mapM f l = Val ys -> Forall (fun x => exists y, f x = Val y) l.
Proof.
  induction l as [|x l IH]; intros ys H; [constructor|].
  cbn in H. run_outcome. destruct (f x) as [y|e] eqn:Hx; [|discriminate].
  destruct (mapM f l) as [ys'|e] eqn:Hl; [|discriminate].
  constructor; [eauto|]. eapply IH. reflexivity.
Qed.

Lemma ws_append_inv (cells : list value) :
  ws_append cells = Val tt -> forallb cell_ok cells = true.
Proof.
  induction cells as [|v cells IH]; [reflexivity|]. cbn.
  destruct (cell_ok v); [exact IH|discriminate].
Qed.

(** A workbook is derived only when openpyxl takes the cells of every
    report. *)
Lemma workbook_of_cells (reports : list value) (wb : list sheet) :
  Forall (fun r => record_shaped r = true) reports ->
  workbook_of reports = Val wb ->
  Forall (fun r => forallb cell_ok (spec_row r) = true) reports.
Proof.
  intros Hall Hbook. unfold workbook_of in Hbook.
  destruct (group_loop_by reports [] (grouped_init REPORT_TYPES) Hall grouped_init_by)
    as (g & Hloop & Hg).
  cbn [app] in Hg. fold REPORT_TYPES in Hbook.
  destruct (mapM (sheet_of g) REPORT_TYPES) as [sheets|e] eqn:Hsheets.
  2: { run_outcome. rewrite Hloop, Hsheets in Hbook. discriminate. }
  clear Hbook. apply mapM_Val_inv in Hsheets.
  apply Forall_forall. intros r Hr.
  rewrite Forall_forall in Hsheets. rewrite Forall_forall in Hall.
  destruct (Hsheets (spec_category r) (spec_category_fixed r)) as (s & Hsheet).
  unfold sheet_of in Hsheet.
  rewrite (sheet_of_group reports g _ Hg (spec_category_fixed r)) in Hsheet.
  assert (r ∈ filter (fun r' => spec_category r' = spec_category r) reports) as Hin
      by (apply list_elem_of_filter; auto).
  destruct (filter (fun r' => spec_category r' = spec_category r) reports)
    as [|first group] eqn:Hgroup; [inversion Hin|].
  destruct (mapM append_report (first :: group)) as [body_rows|e] eqn:Hrows.
  2: { run_outcome. destruct (columns_of first); [|discriminate].
       destruct (ws_append _); discriminate. }
  apply mapM_Val_inv in Hrows. rewrite Forall_forall in Hrows.
  destruct (Hrows r Hin) as (cells & Hcells).
  unfold append_report in Hcells. run_outcome.
  rewrite (row_data_spec r (Hall r Hr)) in Hcells.
  destruct (ws_append (spec_row r)) as [[]|e] eqn:Happ; [|discriminate].
  apply ws_append_inv, Happ.
Qed.

Lemma mapM_exact {A B} (f : A -> outcome B) (g : A -> B) (ok : A -> bool) (l : list A) :
  Forall (fun x => if ok x then f x = Val (g x) else exists e, f x = Exc e) l ->
  if forallb ok l then mapM f l = Val (map g l) else exists e, mapM f l = Exc e.
Proof.
  induction 1 as [|x l Hx _ IH]; [reflexivity|].
  cbn. run_outcome. destruct (ok x); cbn.
  - rewrite Hx. destruct (forallb ok l).
    + rewrite IH. reflexivity.
    + destruct IH as [e ->]. eauto.
  - destruct Hx as [e ->]. eauto.
Qed.

Lemma ws_append_refused (cells : list value) :
  forallb cell_ok cells = false -> exists e, ws_append cells = Exc e.
Proof.
  induction cells as [|v cells IH]; [discriminate|]. cbn.
  destruct (cell_ok v); [exact IH|eauto].
Qed.

Lemma append_report_exact (r : value) :
  record_shaped r = true ->
  if forallb cell_ok (spec_row r) then append_report r = Val (spec_row r)
  else exists e, append_report r = Exc e.
Proof.
  intros Hok. unfold append_report. run_outcome. rewrite (row_data_spec r Hok).
  destruct (forallb cell_ok (spec_row r)) eqn:Hcells.
  - rewrite (ws_append_ok _ Hcells). reflexivity.
  - destruct (ws_append_refused _ Hcells) as [e ->]. eauto.
Qed.

(** [sheet_of] returns the sheet of the specification on a writable
    group and raises on any other. *)
Lemma sheet_of_exact (reports : list value) (g : gmap string (list value)) (cat : string) :
  Forall (fun r => record_shaped r = true) reports -> grouped_by reports g ->
  cat ∈ REPORT_TYPES ->
  if group_writable (filter (fun r => spec_category r = cat) reports)
  then sheet_of g cat = Val (spec_sheet reports cat)
  else exists e, sheet_of g cat = Exc e.
Proof.
  intros Hall Hg Hcat. unfold sheet_of, spec_sheet.
  rewrite (sheet_of_group reports g cat Hg Hcat).
  assert (Forall (fun r => record_shaped r = true)
                 (filter (fun r => spec_category r = cat) reports)) as Hgroup.
  { apply Forall_forall. intros r Hr. apply list_elem_of_filter in Hr as [_ Hr].
    rewrite Forall_forall in Hall. auto. }
  destruct (filter (fun r => spec_category r = cat) reports) as [|first group];
    [reflexivity|].
  pose proof (mapM_exact append_report spec_row
                (fun r => forallb cell_ok (spec_row r)) (first :: group)) as Hrows.
  unfold group_writable.
  apply Forall_cons in Hgroup as [Hfirst Hgroup].
  run_outcome. rewrite (columns_of_spec first Hfirst).
  destruct (forallb cell_ok (spec_header first)) eqn:Hhead; cbn [andb].
  2: { destruct (ws_append_refused _ Hhead) as [e ->]. eauto. }
  rewrite (ws_append_ok _ Hhead).
  destruct (forallb (fun r => forallb cell_ok (spec_row r)) (first :: group));
    cbn [andb].
  2: { destruct Hrows as [e ->]; [|eauto].
       apply Forall_cons. split; [apply append_report_exact, Hfirst|].
       eapply Forall_impl; [exact Hgroup|]. intros r Hr. apply append_report_exact, Hr. }
  rewrite Hrows.
  2: { apply Forall_cons. split; [apply append_report_exact, Hfirst|].
       eapply Forall_impl; [exact Hgroup|]. intros r Hr. apply append_report_exact, Hr. }
  unfold get_column_letter.
  destruct ((1 <=? Z.of_nat (length (spec_header first)))%Z
            && (Z.of_nat (length (spec_header first)) <=? 18278)%Z); cbn [andb];
    [|eauto].
  destruct (18278 <? _)%Z; cbn [negb]; [eauto|reflexivity].
Qed.

(** [workbook_of] returns the workbook of the specification on writable
    reports and raises on any others. *)
Lemma workbook_of_exact (reports : list value) :
  Forall (fun r => record_shaped r = true) reports ->
  if workbook_writable reports
  then workbook_of reports = Val (spec_workbook reports)
  else exists e, workbook_of reports = Exc e.
Proof.
  intros Hall.
  destruct reports as [|r rest] eqn:Hreports; [eexists; reflexivity|].
  rewrite <- Hreports in *. unfold workbook_of.
  destruct (group_loop_by reports [] (grouped_init REPORT_TYPES) Hall grouped_init_by)
    as (g & Hloop & Hg).
  cbn [app] in Hg. fold REPORT_TYPES.
  pose proof (mapM_exact (sheet_of g) (spec_sheet reports)
                (fun cat => group_writable (filter (fun r => spec_category r = cat) reports))
                REPORT_TYPES) as Hsheets.
  assert (Forall (fun cat =>
            if group_writable (filter (fun r => spec_category r = cat) reports)
            then sheet_of g cat = Val (spec_sheet reports cat)
            else exists e, sheet_of g cat = Exc e) REPORT_TYPES) as Heach.
  { apply Forall_forall. intros cat Hcat. apply sheet_of_exact; assumption. }
  specialize (Hsheets Heach). clear Heach.
  assert (workbook_writable reports
          = forallb (fun cat => group_writable
                                  (filter (fun r => spec_category r = cat) reports))
                    REPORT_TYPES) as -> by (rewrite Hreports; reflexivity).
  run_outcome. rewrite Hloop.
  destruct (forallb _ REPORT_TYPES).
  - rewrite Hsheets. fold (spec_workbook reports).
    destruct (spec_workbook reports) as [|s wb] eqn:Hwb; [|reflexivity].
    apply spec_workbook_nil in Hwb. congruence.
  - destruct Hsheets as [e ->]. eauto.
Qed.

Lemma widest_app (rows later : list (list value)) :
  widest rows <= widest (rows ++ later).
Proof. unfold widest. induction rows as [|row rows IH]; cbn; lia. Qed.

(** A group stays unwritable when reports are added at its end. *)
Lemma group_writable_app (data later : list value) :
  group_writable (data ++ later) = true -> group_writable data = true.
Proof.
  destruct data as [|first data]; [reflexivity|].
  cbn [app]. unfold group_writable. intros H.
  apply andb_true_iff in H as [H Hwide]. apply andb_true_iff in H as [H Hcols].
  apply andb_true_iff in H as [Hhead Hrows].
  rewrite Hhead, Hcols. cbn [andb].
  change (first :: data ++ later)%list with ((first :: data) ++ later)%list in Hrows, Hwide.
  rewrite forallb_app in Hrows. apply andb_true_iff in Hrows as [-> _]. cbn [andb].
  apply negb_true_iff, Z.ltb_ge in Hwide. apply negb_true_iff, Z.ltb_ge.
  pose proof (widest_app (spec_header first :: map spec_row (first :: data))
                         (map spec_row later)) as Hle.
  rewrite map_app in Hwide. cbn [app] in Hle. lia.
Qed.

(** So do the reports of a store that holds one at least. *)
Lemma workbook_writable_app (reports later : list value) :
  reports <> [] ->
  workbook_writable (reports ++ later) = true -> workbook_writable reports = true.
Proof.
  intros Hne. destruct reports as [|r reports]; [contradiction|].
  cbn [app]. unfold workbook_writable. rewrite !forallb_forall.
  intros H cat Hcat. specialize (H cat Hcat).
  change (r :: reports ++ later)%list with ((r :: reports) ++ later)%list in H.
  rewrite filter_app in H. eapply group_writable_app, H.
Qed.

(** Once the workbook cannot be derived from the reports of a store, it
    cannot be derived from them with more reports added. *)
Lemma workbook_of_stays_refused (reports later : list value) (err : exn) :
  Forall (fun r => record_shaped r = true) (reports ++ later) ->
  reports <> [] ->
  workbook_of reports = Exc err -> exists err', workbook_of (reports ++ later) = Exc err'.
Proof.
  intros Hall Hne Hrefused.
  pose proof (workbook_of_exact (reports ++ later) Hall) as Hexact.
  destruct (workbook_writable (reports ++ later)) eqn:Hw; [|exact Hexact].
  apply (workbook_writable_app reports later Hne) in Hw.
  apply Forall_app in Hall as [Hall _].
  pose proof (workbook_of_exact reports Hall) as Hexact'.
  rewrite Hw in Hexact'. congruence.
Qed.

(** Whatever the reports are, the JSON file is written before the
    workbook is derived. *)
Lemma save_reports_json_first (reports : list value) (w : world) :
  reports_file (snd (save_reports reports w)) = Document (PList reports)
  /\ dirs (snd (save_reports reports w)) = dirs w
  /\ images (snd (save_reports reports w)) = images w
  /\ stdout (snd (save_reports reports w)) = stdout w.
Proof.
  unfold save_reports, write_reports_file, write_excel_file. run.
  cbn. destruct (workbook_of reports); cbn; repeat split.
Qed.

Lemma records_writable (reports : list value) :
  Forall (fun r => record_shaped r = true) reports ->
  Forall (fun r => record_writable r = true) reports -> reports <> [] ->
  workbook_writable reports = true.
Proof.
  intros Hall Hw Hne. pose proof (workbook_of_exact reports Hall) as Hexact.
  destruct (workbook_writable reports); [reflexivity|]. destruct Hexact as [e He].
  rewrite workbook_of_spec in He; [discriminate| |exact Hne].
  apply Forall_forall. intros r Hr. rewrite Forall_forall in Hall.
  rewrite Forall_forall in Hw. unfold record_ok. rewrite (Hall r Hr), (Hw r Hr).
  reflexivity.
Qed.

(** C9, as the code has it: on a sequence of report records
    [save_reports] writes the JSON file and then derives the workbook the
    specification describes: a sheet for each non-empty category in the
    fixed order, reports grouped by their lower-cased [type] with
    unrecognised or missing types under ["other"], a header of
    capitalised field names from the first report of the group, one data
    row per report, the [images] list joined with [", "].  It does so
    exactly when the sequence is writable: it is not empty and openpyxl
    takes the header and the cells of every group, as it does when every
    record is writable.  On any other sequence it raises after the JSON
    file is written, and the workbook of a non-empty sequence is left as
    it was.  Nothing else in the world changes. *)
Theorem save_reports_workbook (reports : list value) (w : world) :
  Forall (fun r => record_shaped r = true) reports ->
  let o := fst (save_reports reports w) in
  let w' := snd (save_reports reports w) in
  reports_file w' = Document (PList reports)
  /\ export_file w' = export_file w /\ dirs w' = dirs w
  /\ images w' = images w /\ stdout w' = stdout w
  /\ (workbook_writable reports = true ->
      o = Val tt /\ excel_file w' = Some (spec_workbook reports))
  /\ (workbook_writable reports = false ->
      exists err, o = Exc err /\ (reports <> [] -> excel_file w' = excel_file w))
  /\ (workbook_writable reports = true ->
      reports <> [] /\ Forall (fun r => forallb cell_ok (spec_row r) = true) reports)
  /\ (reports <> [] -> Forall (fun r => record_writable r = true) reports ->
      workbook_writable reports = true).
Proof.
  intros Hall o w'. subst o w'.
  pose proof (workbook_of_exact reports Hall) as Hexact.
  unfold save_reports, write_reports_file, write_excel_file. run.
  destruct (workbook_writable reports) eqn:Hw.
  - pose proof (workbook_of_cells reports _ Hall Hexact) as Hcells.
    rewrite Hexact. cbn. do 5 (split; [reflexivity|]).
    split; [auto|]. split; [discriminate|]. split; [|auto].
    intros _. split; [|exact Hcells]. intros ->. discriminate.
  - destruct Hexact as [err Hexact]. rewrite Hexact. cbn.
    do 5 (split; [reflexivity|]). split; [discriminate|].
    split; [intros _; eauto|]. split; [discriminate|].
    intros Hne Hwr. rewrite <- Hw. apply records_writable; assumption.
Qed.

End Workbook.

(** ** The image store *)

Section Images.

Context {RT : Runtime}.
Abbreviation value := (pyval pyfloat).

Lemma indexed_cons (idx : nat) (img : FileStorage) (rest : list FileStorage) :
  indexed idx (img :: rest) = (idx, img) :: indexed (S idx) rest.
Proof.
  unfold indexed. rewrite imap_cons. f_equal.
  - f_equal. lia.
  - apply imap_ext. intros i x _. cbn. f_equal. lia.
Qed.

Lemma indexed_lookup (idx : nat) (image_files : list FileStorage) (i : nat) :
  indexed idx image_files !! i = (fun img => (idx + i, img)) <$> image_files !! i.
Proof. unfold indexed. rewrite list_lookup_imap. reflexivity. Qed.

Lemma ensure_image_folders_run (w : world) :
  exists w', ensure_image_folders w = (Val tt, w')
    /\ reports_file w' = reports_file w /\ excel_file w' = excel_file w
    /\ export_file w' = export_file w /\ images w' = images w
    /\ stdout w' = stdout w /\ dirs w' = image_folders ∪ dirs w.
Proof.
  eexists. split; [reflexivity|]. cbn. repeat split.
  unfold image_folders. cbn. set_solver.
Qed.

(** Line 200: the folder is the lower-cased type when that is a fixed
    category and ["other"] otherwise. *)
Lemma folder_name_of_spec (report_type : string) :
  folder_name_of report_type
  = (if bool_decide (Py.lower report_type ∈ REPORT_TYPES)
     then Py.lower report_type else "other")
  /\ folder_name_of report_type ∈ REPORT_TYPES.
Proof.
  assert ("other" ∈ REPORT_TYPES) as Hother by (unfold REPORT_TYPES; set_solver).
  unfold folder_name_of. destruct report_type as [|c s].
  - cbn. split; [reflexivity|exact Hother].
  - cbn [Py.truthy andb]. case_bool_decide; split; auto.
Qed.

Lemma save_image_run (e : env) (folder_path : string) (idx : nat) (img : FileStorage)
    (names : list string) (w : world) :
  exists w',
    save_image e folder_path idx img names w
    = (Val (names ++ if stored e folder_path (idx, img)
                     then [safe_name_of e idx img] else [])%list, w')
    /\ reports_file w' = reports_file w /\ excel_file w' = excel_file w
    /\ export_file w' = export_file w /\ dirs w' = dirs w
    /\ images w'
       = (if stored e folder_path (idx, img)
          then <[ Py.path_join folder_path (safe_name_of e idx img) := stream img ]> (images w)
          else images w)
    /\ stdout w' = (stdout w ++ image_log e folder_path (idx, img))%list.
Proof.
  unfold save_image, stored, image_log, img_save. cbn [fst snd].
  destruct (Py.truthy (filename img)); cbn [andb].
  - run. destruct (save_error e _) as [err|]; cbn.
    + eexists. split; [rewrite app_nil_r; reflexivity|]. cbn.
      repeat split. rewrite <- app_assoc. reflexivity.
    + eexists. split; [reflexivity|]. cbn. repeat split.
  - exists w. run. rewrite !app_nil_r. repeat split.
Qed.

Lemma save_images_run (e : env) (folder_path : string) (image_files : list FileStorage) :
  forall (idx : nat) (names : list string) (w : world),
  exists w',
    save_images e folder_path idx image_files names w
    = (Val (names ++ spec_names e folder_path idx image_files)%list, w')
    /\ reports_file w' = reports_file w /\ excel_file w' = excel_file w
    /\ export_file w' = export_file w /\ dirs w' = dirs w
    /\ images w' = write_all (spec_writes e folder_path idx image_files) (images w)
    /\ stdout w'
       = (stdout w ++ concat (map (image_log e folder_path) (indexed idx image_files)))%list.
Proof.
  induction image_files as [|img rest IH]; intros idx names w.
  - exists w. cbn. run. rewrite !app_nil_r. repeat split.
  - destruct (save_image_run e folder_path idx img names w)
      as (w1 & Hrun & Hr & Hx & Hp & Hd & Hi & Ho).
    destruct (IH (S idx) (names ++ if stored e folder_path (idx, img)
                                   then [safe_name_of e idx img] else [])%list w1)
      as (w2 & Hrun2 & Hr2 & Hx2 & Hp2 & Hd2 & Hi2 & Ho2).
    exists w2. cbn [save_images]. run. rewrite Hrun. run. rewrite Hrun2.
    unfold spec_names, spec_writes in *. rewrite indexed_cons, filter_cons.
    rewrite Hi2, Ho2, Hi, Ho. cbn [map concat].
    destruct (stored e folder_path (idx, img)) eqn:Hst.
    + rewrite decide_True by reflexivity. cbn. rewrite <- !app_assoc.
      repeat split; congruence.
    + rewrite decide_False by discriminate. rewrite app_nil_r, <- !app_assoc.
      repeat split; congruence.
Qed.

Lemma write_all_snoc (writes : list (string * string)) (pb : string * string)
    (m : gmap string string) :
  write_all (writes ++ [pb])%list m = <[ fst pb := snd pb ]> (write_all writes m).
Proof. unfold write_all. rewrite foldl_app. reflexivity. Qed.

(** A path that was written holds the bytes of one of the writes. *)
Lemma write_all_lookup (writes : list (string * string)) (m : gmap string string)
    (path : string) :
  path ∈ map fst writes ->
  exists bytes, (path, bytes) ∈ writes /\ write_all writes m !! path = Some bytes.
Proof.
  induction writes as [|[p b] writes IH] using rev_ind; [intros H; inversion H|].
  rewrite map_app, elem_of_app, write_all_snoc. cbn [map fst snd].
  destruct (decide (path = p)) as [->|Hne].
  - intros _. exists b. split; [apply elem_of_app; right; constructor|].
    apply lookup_insert_eq.
  - intros [Hin|Hin].
    + destruct (IH Hin) as (bytes & Hb & Hl). exists bytes.
      split; [apply elem_of_app; left; exact Hb|].
      rewrite lookup_insert_ne by congruence. exact Hl.
    + apply list_elem_of_singleton in Hin. contradiction.
Qed.

Lemma spec_writes_paths (e : env) (folder_path : string) (idx : nat)
    (image_files : list FileStorage) :
  map fst (spec_writes e folder_path idx image_files)
  = map (Py.path_join folder_path) (spec_names e folder_path idx image_files).
Proof. unfold spec_writes, spec_names. rewrite !map_map. reflexivity. Qed.

Lemma spec_writes_bytes (e : env) (folder_path : string) (idx : nat)
    (image_files : list FileStorage) (path bytes : string) :
  (path, bytes) ∈ spec_writes e folder_path idx image_files ->
  exists img, img ∈ image_files /\ bytes = stream img.
Proof.
  unfold spec_writes. intros H. apply list_elem_of_fmap in H.
  destruct H as ([i img] & Heq & Hin). injection Heq as _ ->.
  apply list_elem_of_filter in Hin. destruct Hin as [_ Hin].
  apply list_elem_of_lookup in Hin. destruct Hin as [k Hk].
  rewrite indexed_lookup in Hk.
  destruct (image_files !! k) as [img'|] eqn:Hlook; [|discriminate].
  injection Hk as _ <-. exists img'. split; [|reflexivity].
  eapply list_elem_of_lookup_2, Hlook.
Qed.

End Images.

(** ** The report service *)

Section Submit.

Context {RT : Runtime}.
Abbreviation value := (pyval pyfloat).

Lemma union_absorb_elem (x : string) (A B : gset string) :
  x ∈ A -> {[ x ]} ∪ (A ∪ B) = A ∪ B.
Proof. set_solver. Qed.

Lemma union_absorb_subset (A B : gset string) : A ⊆ B -> A ∪ B = B.
Proof. set_solver. Qed.

Lemma folder_in_image_folders (report_type : string) :
  folder_path_of report_type ∈ image_folders.
Proof.
  unfold folder_path_of, image_folders.
  destruct (folder_name_of_spec report_type) as [_ Hin].
  apply elem_of_union_r, elem_of_list_to_set, list_elem_of_fmap.
  exists (folder_name_of report_type). auto.
Qed.

Lemma any_named_nil_cond (image_files : list FileStorage) :
  (match image_files with [] => true | _ => false end || negb (any_named image_files))
  = negb (any_named image_files).
Proof. destruct image_files; reflexivity. Qed.

Lemma spec_writes_nil (e : env) (folder_path : string) (idx : nat)
    (image_files : list FileStorage) :
  spec_names e folder_path idx image_files = [] ->
  spec_writes e folder_path idx image_files = [].
Proof.
  unfold spec_names, spec_writes.
  destruct (filter _ (indexed idx image_files)); [reflexivity|discriminate].
Qed.

Lemma load_reports_loaded (w : world) :
  readable w ->
  exists w', load_reports w = (Val (loaded w), w') /\ same_files w w'.
Proof.
  intros Hread. destruct (load_reports_run w Hread) as (v & w' & Hrun & Hsame & ->).
  exists w'. auto.
Qed.

Lemma readable_cases (w : world) :
  readable w \/ exists err, reports_file w = Unreadable err.
Proof.
  unfold readable. destruct (reports_file w); eauto; left; discriminate.
Qed.

Lemma readable_same (w w' : world) :
  reports_file w' = reports_file w -> readable w -> readable w'.
Proof. unfold readable. intros ->. auto. Qed.

Lemma loaded_list_readable (w : world) (old : list value) :
  loaded w = PList old -> readable w.
Proof.
  unfold loaded, readable. intros H e He. rewrite He in H. discriminate.
Qed.

(** Lines 190-233 end in one of the six ways [submitted] lists for a
    submission that passed the checks. *)
Lemma store_report_submitted (e : env) (req : request) (t l d : string)
    (x y : pyfloat) (w : world) :
  passes_checks req t l d x y ->
  match store_report e req t l d x y w with
  | (Val r, w') => submitted e req w r w'
  | (Exc err, w') =>
      forall w'', same_files w' w'' ->
        submitted e req w (error_body ("Server error: " +:+ exn_msg err), 500%Z) w''
  end.
Proof.
  intros Hpass. unfold store_report.
  destruct (ensure_image_folders_run w) as (w1 & Hens & Hr1 & Hx1 & Hp1 & Hi1 & Ho1 & Hd1).
  fold (image_files_of req). rewrite any_named_nil_cond.
  unfold makedirs. run. rewrite Hens. cbv beta iota.
  destruct (any_named (image_files_of req)) eqn:Hany; cbn [negb].
  - fold (folder_path_of t).
    match goal with |- context [save_images e _ 0 _ [] ?W] =>
      destruct (save_images_run e (folder_path_of t) (image_files_of req) 0 [] W)
        as (w2 & Hsave & Hr2 & Hx2 & Hp2 & Hd2 & Hi2 & Ho2)
    end.
    rewrite Hsave. cbn [app] in *. fold (saved_names e req t).
    cbn [reports_file excel_file export_file dirs images stdout] in *.
    assert (dirs w2 = image_folders ∪ dirs w) as Hdirs.
    { rewrite Hd2, Hd1. apply union_absorb_elem, folder_in_image_folders. }
    destruct (saved_names e req t) as [|n ns] eqn:Hnames.
    + eapply sub_none_saved; eauto; cbn; try congruence.
      rewrite Hi2, (spec_writes_nil _ _ _ _ Hnames). cbn. congruence.
    + assert (after_upload e req t w w2) as Hup.
      { unfold after_upload. rewrite Hp2, Hp1, Hi2, Hi1. auto. }
      assert (saved_names e req t <> []) as Hne by (rewrite Hnames; discriminate).
      rewrite <- Hnames. clear Hnames n ns.
      assert (reports_file w2 = reports_file w) as Hrw by congruence.
      destruct (readable_cases w) as [Hread|[err Hlocked]].
      2: { rewrite (load_reports_unreadable w2 err) by congruence. cbv beta iota.
           intros w4 (Hr4 & Hx4 & Hp4 & Hd4 & Hi4). destruct Hup as (? & ? & ?).
           eapply sub_unreadable; eauto; try congruence.
           unfold after_upload. repeat split; congruence. }
      destruct (load_reports_loaded w2 (readable_same w w2 Hrw Hread))
        as (w3 & Hload & Hr3 & Hx3 & Hp3 & Hd3 & Hi3).
      assert (loaded w2 = loaded w) as Hlw by (unfold loaded; rewrite Hr2, Hr1; reflexivity).
      assert (after_upload e req t w w3) as Hup3.
      { destruct Hup as (? & ? & ?). unfold after_upload. repeat split; congruence. }
      rewrite Hload, Hlw. cbv beta iota.
      destruct (loaded w) as [|b|z|f|s|old|kv] eqn:Hloaded; cbn [py_append];
        try (intros w4 (Hr4 & Hx4 & Hp4 & Hd4 & Hi4);
             rewrite <- Hloaded;
             apply (sub_not_list e req w t l d x y w4 Hpass Hany Hne Hread);
             [ rewrite Hloaded; discriminate | congruence | congruence
             | destruct Hup3 as (? & ? & ?); unfold after_upload;
               repeat split; congruence ]).
      * unfold save_reports, write_reports_file, write_excel_file. run.
        destruct (workbook_of (old ++ [_])) as [wb|err] eqn:Hwb; cbv beta iota.
        -- destruct Hup3 as (? & ? & ?).
           eapply sub_created; eauto; try discriminate; try reflexivity.
           unfold after_upload; cbn; auto.
        -- intros w4 (Hr4 & Hx4 & Hp4 & Hd4 & Hi4). cbn in *.
           destruct Hup3 as (? & ? & ?).
           eapply sub_workbook_failed; eauto; try discriminate; try congruence.
           unfold after_upload. repeat split; congruence.
  - eapply sub_no_image; eauto; cbn; congruence.
Qed.

(** Every run of [submit_report] is one of the ways of [submitted]. *)
Lemma submit_report_submitted (e : env) (req : request) (w : world) :
  submitted e req w (fst (submit_report e req w)) (snd (submit_report e req w)).
Proof.
  unfold submit_report, submit_report_try.
  destruct (Py.truthy_opt (field_type req) && Py.truthy_opt (field_location req)
            && Py.truthy_opt (field_description req)) eqn:Hall; cbn [negb].
  - apply andb_true_iff in Hall as [Hall Hd]. apply andb_true_iff in Hall as [Ht Hl].
    destruct (field_type req) as [t|] eqn:Et; [|discriminate].
    destruct (field_location req) as [l|] eqn:El; [|discriminate].
    destruct (field_description req) as [d|] eqn:Ed; [|discriminate].
    cbn [from_option id Py.truthy_opt] in *.
    destruct (1000 <? String.length d)%nat eqn:Hlen.
    + run. cbv beta iota. cbn [fst snd]. apply Nat.ltb_lt in Hlen.
      eapply sub_too_long; eauto. repeat split.
    + apply Nat.ltb_ge in Hlen.
      destruct (resolve_coords (field_coord_x req) (field_coord_y req) l)
        as [[x y]|err] eqn:Hres.
      * assert (passes_checks req t l d x y) as Hpass
            by (unfold passes_checks; rewrite Et, El, Ed; auto 10).
        pose proof (store_report_submitted e req t l d x y w Hpass) as H.
        destruct (store_report e req t l d x y w) as [[r|err] w']; [exact H|].
        run. cbv beta iota. cbn [fst snd]. apply H. repeat split.
      * run. cbv beta iota. cbn [fst snd]. eapply sub_bad_location; eauto. repeat split.
  - run. cbv beta iota. cbn [fst snd]. apply sub_missing; [exact Hall|repeat split].
Qed.

End Submit.

(** ** Submitting a report *)

Section SubmitClaims.

Context {RT : Runtime}.
Abbreviation value := (pyval pyfloat).

Lemma passes_checks_inj (req : request) (t l d t' l' d' : string)
    (x y x' y' : pyfloat) :
  passes_checks req t l d x y -> passes_checks req t' l' d' x' y' ->
  t' = t /\ l' = l /\ d' = d /\ x' = x /\ y' = y.
Proof.
  intros (Ht & _ & Hl & _ & Hd & _ & _ & Hc) (Ht' & _ & Hl' & _ & Hd' & _ & _ & Hc').
  assert (t' = t) by congruence. assert (l' = l) by congruence.
  assert (d' = d) by congruence. subst.
  rewrite Hc in Hc'. injection Hc' as -> ->. auto.
Qed.

Lemma passes_checks_present (req : request) (t l d : string) (x y : pyfloat) :
  passes_checks req t l d x y ->
  Py.truthy_opt (field_type req) && Py.truthy_opt (field_location req)
    && Py.truthy_opt (field_description req) = true.
Proof.
  intros (-> & Ht & -> & Hl & -> & Hd & _). cbn. rewrite Ht, Hl, Hd. reflexivity.
Qed.

(** Brings the fields of two readings of the same request together. *)
Ltac same_fields :=
  repeat match goal with
  | H1 : passes_checks ?req ?t ?l ?d ?x ?y,
    H2 : passes_checks ?req ?t' ?l' ?d' ?x' ?y' |- _ =>
      destruct (passes_checks_inj req t l d t' l' d' x y x' y' H1 H2)
        as (-> & -> & -> & -> & ->); clear H2
  end.

Lemma listReports_loaded (w : world) : listReports w = loaded w.
Proof.
  unfold listReports, get_reports.
  destruct (readable_cases w) as [Hread|[err Hlocked]].
  - destruct (load_reports_loaded w Hread) as (w' & -> & _). reflexivity.
  - rewrite (load_reports_unreadable w err Hlocked). unfold loaded. rewrite Hlocked.
    reflexivity.
Qed.

Lemma stored_named (e : env) (folder_path : string) (image_files : list FileStorage) :
  forall idx,
  any_named image_files = false -> spec_names e folder_path idx image_files = [].
Proof.
  unfold spec_names.
  induction image_files as [|img rest IH]; intros idx Hany; [reflexivity|].
  cbn in Hany. apply orb_false_iff in Hany as [Himg Hrest].
  rewrite indexed_cons, filter_cons.
  rewrite decide_False by (unfold stored; cbn; rewrite Himg; discriminate).
  apply IH, Hrest.
Qed.

Lemma saved_names_any (e : env) (req : request) (t : string) :
  saved_names e req t <> [] -> any_named (image_files_of req) = true.
Proof.
  intros Hne. destruct (any_named (image_files_of req)) eqn:Hany; [reflexivity|].
  exfalso. apply Hne. apply stored_named, Hany.
Qed.

Lemma new_report_shaped (e : env) (t l d : string) (x y : pyfloat) (names : list string) :
  record_shaped (new_report_of e t l d x y names) = true.
Proof.
  unfold new_report_of, record_shaped.
  assert (forallb is_str (map PStr names) = true) as Hstr
      by (induction names; [reflexivity|assumption]).
  cbn. rewrite Hstr, !andb_true_r. apply bool_decide_eq_true.
  repeat (apply NoDup_cons; split;
          [rewrite ?elem_of_cons, elem_of_nil; intros H;
           repeat (destruct H as [H|H]; [discriminate|]); exact H|]).
  apply NoDup_nil_2.
Qed.

Lemma omap_str_of_strs (names : list string) : omap str_of (map PStr names) = names.
Proof. induction names as [|n names IH]; [reflexivity|]. cbn. rewrite IH. reflexivity. Qed.

Lemma new_report_row (e : env) (t l d : string) (x y : pyfloat) (names : list string) :
  spec_row (new_report_of e t l d x y names)
  = [PStr t; PStr l; PStr d; PFloat x; PFloat y; PStr (datetime_now e);
     PStr (Py.join ", " names)].
Proof.
  unfold spec_row, new_report_of, fields_of. cbn [map spec_cell].
  change (String.eqb "images" "images") with true. cbv beta iota.
  rewrite omap_str_of_strs. reflexivity.
Qed.

(** openpyxl takes the cells of the row of a new report exactly when it
    takes its five texts. *)
Lemma new_report_cells (e : env) (t l d : string) (x y : pyfloat) (names : list string) :
  forallb cell_ok (spec_row (new_report_of e t l d x y names))
  = forallb excel_text (report_texts e t l d names).
Proof.
  rewrite new_report_row. unfold report_texts. cbn [forallb cell_ok].
  rewrite !andb_true_r. reflexivity.
Qed.

Lemma new_report_header (e : env) (t l d : string) (x y : pyfloat) (names : list string) :
  forallb cell_ok (spec_header (new_report_of e t l d x y names)) = true.
Proof. vm_compute. reflexivity. Qed.

Lemma new_report_ok (e : env) (t l d : string) (x y : pyfloat) (names : list string) :
  forallb excel_text (report_texts e t l d names) = true ->
  record_ok (new_report_of e t l d x y names) = true.
Proof.
  intros Htexts. unfold record_ok. rewrite new_report_shaped. cbn [andb].
  pose proof (new_report_header e t l d x y names) as Hhead.
  pose proof (new_report_cells e t l d x y names) as Hcells.
  unfold record_writable. unfold new_report_of in *.
  rewrite Hhead, Hcells, Htexts. reflexivity.
Qed.

Lemma store_ok_loaded (w : world) :
  store_ok w ->
  exists old, loaded w = PList old /\ Forall (fun r => record_ok r = true) old.
Proof.
  unfold store_ok, loaded. destruct (reports_file w) as [| | |[]]; try contradiction;
    intros H; eauto.
Qed.

Lemma store_shaped_loaded (w : world) :
  store_shaped w ->
  exists old, loaded w = PList old /\ Forall (fun r => record_shaped r = true) old.
Proof.
  unfold store_shaped, loaded. destruct (reports_file w) as [| | |[]]; try contradiction;
    intros H; eauto.
Qed.

Lemma store_ok_shaped (w : world) : store_ok w -> store_shaped w.
Proof.
  unfold store_ok, store_shaped. destruct (reports_file w) as [| | |[]]; auto.
  intros H. eapply Forall_impl; [exact H|apply record_ok_shaped].
Qed.

(** A submission that passes the checks and gets an image written, on a
    store that can be read as a list, ends on line 231 or in the outer
    handler after [save_reports] raised; the report is in the file
    either way. *)
Lemma submitted_stored (e : env) (req : request) (w w' : world) (answer : response)
    (t l d : string) (x y : pyfloat) (old : list value) :
  passes_checks req t l d x y ->
  saved_names e req t <> [] ->
  loaded w = PList old ->
  submitted e req w answer w' ->
  let r := new_report_of e t l d x y (saved_names e req t) in
  reports_file w' = Document (PList (old ++ [r]))
  /\ after_upload e req t w w'
  /\ ((exists err, workbook_of (old ++ [r]) = Exc err
         /\ answer = (error_body ("Server error: " +:+ exn_msg err), 500%Z)
         /\ excel_file w' = excel_file w)
      \/ (exists wb, workbook_of (old ++ [r]) = Val wb
            /\ answer = (success_body r, 201%Z) /\ excel_file w' = Some wb)).
Proof.
  intros Hpass Hne Hold H. cbv zeta.
  inversion H; subst; same_fields;
    try (rewrite (passes_checks_present _ _ _ _ _ _ Hpass) in *; discriminate);
    try (destruct Hpass as (Ht & _ & Hl & _ & Hd & _ & Hlen & Hres);
         match goal with
         | H1 : field_description req = Some ?d' |- _ =>
             assert (d' = d) by congruence; subst
         end;
         first [lia | assert (l0 = l) by congruence; subst; congruence]);
    try (rewrite (saved_names_any e req t Hne) in *; discriminate);
    try contradiction;
    try (exfalso; match goal with Hlocked : reports_file w = Unreadable _ |- _ =>
           exact (loaded_list_readable w old Hold _ Hlocked) end);
    try (exfalso; match goal with Hnl : forall old, loaded w <> PList old |- _ =>
           apply (Hnl old Hold) end);
    assert (old0 = old) by congruence; subst;
    (split; [assumption|]); (split; [assumption|]); [left|right]; eauto.
Qed.

(** On a store of writable records the workbook can be derived with a new
    report added exactly when openpyxl takes the five texts of that
    report. *)
Lemma new_report_writable (e : env) (t l d : string) (x y : pyfloat) (names : list string)
    (old : list value) :
  Forall (fun r => record_ok r = true) old ->
  workbook_writable (old ++ [new_report_of e t l d x y names])
  = forallb excel_text (report_texts e t l d names).
Proof.
  intros Hall. set (r := new_report_of e t l d x y names).
  assert (Forall (fun v => record_shaped v = true) (old ++ [r])) as Hshape.
  { apply Forall_app. split.
    - eapply Forall_impl; [exact Hall|apply record_ok_shaped].
    - apply Forall_cons. split; [apply new_report_shaped|constructor]. }
  assert (old ++ [r] <> [])%list as Hne
      by (intros Hnil; apply app_eq_nil in Hnil as [_ Hnil]; discriminate).
  pose proof (workbook_of_exact (old ++ [r]) Hshape) as Hexact.
  destruct (forallb excel_text (report_texts e t l d names)) eqn:Htexts.
  - apply records_writable; [exact Hshape| |exact Hne].
    apply Forall_app. split.
    + eapply Forall_impl; [exact Hall|apply record_ok_writable].
    + apply Forall_cons. split; [|constructor].
      apply record_ok_writable, new_report_ok, Htexts.
  - destruct (workbook_writable (old ++ [r])); [|reflexivity].
    pose proof (workbook_of_cells _ _ Hshape Hexact) as Hcells.
    apply Forall_app in Hcells as [_ Hcells].
    apply Forall_cons in Hcells as [Hcells _]. unfold r in Hcells.
    rewrite new_report_cells in Hcells. congruence.
Qed.

(** C1, as the code has it: a submission that passes every check and
    gets at least one image stored, on a store that holds a sequence of
    report records, appends its record to the persisted sequence, so
    that [listReports] is one longer afterwards.  It is answered 201
    with that record exactly when the workbook can be derived from the
    records then stored, and the workbook is then the one of the
    specification.  Otherwise the record is appended all the same, the
    workbook is left as it was and the answer is 500.  On a store of
    writable records the workbook can be derived exactly when openpyxl
    takes the five texts of the new record, and the store is then one of
    writable records again. *)
Theorem submit_valid_appends (e : env) (req : request) (w : world)
    (t l d : string) (x y : pyfloat) :
  passes_checks req t l d x y ->
  saved_names e req t <> [] ->
  store_shaped w ->
  exists (old : list value) (w' : world),
    let r := new_report_of e t l d x y (saved_names e req t) in
    snd (submit_report e req w) = w'
    /\ listReports w = PList old
    /\ listReports w' = PList (old ++ [r])
    /\ length (old ++ [r]) = S (length old)
    /\ (workbook_writable (old ++ [r]) = true ->
        fst (submit_report e req w) = (success_body r, 201%Z)
        /\ excel_file w' = Some (spec_workbook (old ++ [r])))
    /\ (workbook_writable (old ++ [r]) = false ->
        exists err,
          fst (submit_report e req w)
          = (error_body ("Server error: " +:+ exn_msg err), 500%Z)
          /\ excel_file w' = excel_file w)
    /\ (store_ok w ->
        workbook_writable (old ++ [r])
        = forallb excel_text (report_texts e t l d (saved_names e req t))
        /\ (workbook_writable (old ++ [r]) = true -> store_ok w')).
Proof.
  intros Hpass Hne Hok.
  destruct (store_shaped_loaded w Hok) as (old & Hold & Hall).
  pose proof (submit_report_submitted e req w) as H.
  destruct (submit_report e req w) as [answer w']. cbn [fst snd] in *.
  exists old, w'. cbv zeta.
  destruct (submitted_stored e req w w' answer t l d x y old Hpass Hne Hold H)
    as (Hfile & _ & Hanswer).
  set (r := new_report_of e t l d x y (saved_names e req t)) in *.
  assert (Forall (fun v => record_shaped v = true) (old ++ [r])) as Hshape.
  { apply Forall_app. split; [exact Hall|].
    apply Forall_cons. split; [apply new_report_shaped|constructor]. }
  assert (loaded w' = PList (old ++ [r])) as Hloaded
      by (unfold loaded; rewrite Hfile; reflexivity).
  split; [reflexivity|]. rewrite !listReports_loaded.
  split; [exact Hold|]. split; [exact Hloaded|].
  split; [rewrite length_app; cbn; lia|].
  pose proof (workbook_of_exact (old ++ [r]) Hshape) as Hexact.
  split; [|split].
  - intros Hw. rewrite Hw in Hexact.
    destruct Hanswer as [(err & Hbook' & _)|(wb & Hbook' & -> & Hx)]; [congruence|].
    split; [reflexivity|congruence].
  - intros Hw. rewrite Hw in Hexact. destruct Hexact as [err' Hexact].
    destruct Hanswer as [(err & Hbook' & -> & Hx)|(wb & Hbook' & _)]; [eauto|congruence].
  - intros Hstore. destruct (store_ok_loaded w Hstore) as (old' & Hold' & Hall').
    assert (old' = old) by congruence. subst old'.
    split; [apply new_report_writable, Hall'|].
    intros Hw. unfold store_ok. rewrite Hfile.
    apply Forall_app. split; [exact Hall'|].
    apply Forall_cons. split; [|constructor]. apply new_report_ok.
    rewrite <- (new_report_writable e t l d x y _ old Hall'). exact Hw.
Qed.

(** A 201 answer can only come from the last line of the handler. *)
Lemma submitted_created (e : env) (req : request) (w w' : world) (b : body) :
  submitted e req w (b, 201%Z) w' ->
  exists t l d x y old wb,
    passes_checks req t l d x y
    /\ saved_names e req t <> []
    /\ loaded w = PList old
    /\ workbook_of (old ++ [new_report_of e t l d x y (saved_names e req t)]) = Val wb
    /\ b = success_body (new_report_of e t l d x y (saved_names e req t))
    /\ reports_file w'
       = Document (PList (old ++ [new_report_of e t l d x y (saved_names e req t)]))
    /\ excel_file w' = Some wb
    /\ after_upload e req t w w'.
Proof.
  intros H. inversion H; subst. exists t, l, d, x, y, old, wb. auto 10.
Qed.

Lemma submit_report_created (e : env) (req : request) (w w' : world) (b : body) :
  submit_report e req w = (b, 201%Z, w') -> submitted e req w (b, 201%Z) w'.
Proof.
  intros Hrun. pose proof (submit_report_submitted e req w) as H.
  rewrite Hrun in H. exact H.
Qed.

(** C2: after a successful submission the record that [load_reports]
    (hence [listReports]) returns last is the record built at submission
    time, with the submitted type and description, the resolved
    coordinates and the names of the stored images; the reports that were
    there before are returned unchanged in front of it. *)
Theorem submitted_report_round_trip (e : env) (req : request) (w w' : world) (b : body) :
  submit_report e req w = (b, 201%Z, w') ->
  exists (t l d : string) (x y : pyfloat) (old : list value) (r : value) (w'' : world),
    passes_checks req t l d x y
    /\ r = new_report_of e t l d x y (saved_names e req t)
    /\ b = success_body r
    /\ listReports w = PList old
    /\ load_reports w' = (Val (PList (old ++ [r])), w'')
    /\ listReports w' = PList (old ++ [r])
    /\ last (old ++ [r]) = Some r
    /\ dict_get (fields_of r) "type" = Some (PStr t)
    /\ dict_get (fields_of r) "description" = Some (PStr d)
    /\ dict_get (fields_of r) "coord_x" = Some (PFloat x)
    /\ dict_get (fields_of r) "coord_y" = Some (PFloat y)
    /\ dict_get (fields_of r) "images" = Some (PList (map PStr (saved_names e req t))).
Proof.
  intros Hrun. apply submit_report_created, submitted_created in Hrun
    as (t & l & d & x & y & old & wb & Hpass & Hne & Hold & Hwb & -> & Hfile & _).
  assert (loaded w' = PList (old ++ [new_report_of e t l d x y (saved_names e req t)]))
    as Hnew by (unfold loaded; rewrite Hfile; reflexivity).
  destruct (load_reports_loaded w' (loaded_list_readable w' _ Hnew)) as (w'' & Hload & _).
  rewrite Hnew in Hload.
  exists t, l, d, x, y, old, (new_report_of e t l d x y (saved_names e req t)), w''.
  rewrite !listReports_loaded, last_snoc. auto 15.
Qed.

Lemma same_files_listReports (w w' : world) :
  reports_file w' = reports_file w -> listReports w' = listReports w.
Proof. intros H. rewrite !listReports_loaded. unfold loaded. rewrite H. reflexivity. Qed.

(** C3, as the code has it: a submission without a named file is
    answered 400; no image is written and the reports file, the workbook
    and the persisted sequence stay as they were.  When the earlier
    checks pass the message is the one about the missing image, and by
    then [ensure_image_folders] has run: the only change on disk is that
    the image folders exist. *)
Theorem submit_without_image (e : env) (req : request) (w : world) :
  any_named (image_files_of req) = false ->
  exists (b : body) (w' : world),
    submit_report e req w = (b, 400%Z, w')
    /\ images w' = images w
    /\ reports_file w' = reports_file w
    /\ excel_file w' = excel_file w
    /\ export_file w' = export_file w
    /\ listReports w' = listReports w
    /\ (dirs w' = dirs w \/ dirs w' = image_folders ∪ dirs w)
    /\ (image_folders ⊆ dirs w -> dirs w' = dirs w)
    /\ (forall t l d x y, passes_checks req t l d x y ->
          b = error_body "At least one image is required."
          /\ dirs w' = image_folders ∪ dirs w).
Proof.
  intros Hany. pose proof (submit_report_submitted e req w) as H.
  destruct (submit_report e req w) as [[b status] w']. cbn [fst snd] in H.
  inversion H; subst; try congruence;
    try (match goal with Hs : same_files w w' |- _ =>
           destruct Hs as (Hr & Hx & Hp & Hd & Hi) end);
    eexists _, w';
    (split; [reflexivity|]);
    do 4 (split; [assumption|]);
    (split; [apply same_files_listReports; assumption|]);
    (split; [auto|]); split.
  - (* missing fields *) auto.
  - intros t l d x y Hpass. rewrite (passes_checks_present _ _ _ _ _ _ Hpass) in *.
    discriminate.
  - (* description too long *) auto.
  - intros t' l' d' x y (? & _ & ? & _ & ? & _ & ? & _).
    assert (d' = d) by congruence. subst. lia.
  - (* invalid location *) auto.
  - intros t' l' d' x y (? & _ & ? & _ & ? & _ & ? & ?).
    assert (l' = l) by congruence. subst. congruence.
  - (* no image *)
    intros Hsub. match goal with Hd : dirs w' = _ |- _ => rewrite Hd end.
    apply union_absorb_subset, Hsub.
  - auto.
Qed.

(** C7: with the three fields present, the answer is the 400
    "Description too long." exactly when the description has more than
    1000 characters, and then nothing but the log has changed. *)
Theorem description_length_check (e : env) (req : request) (w : world) (t l d : string) :
  field_type req = Some t -> Py.truthy t = true ->
  field_location req = Some l -> Py.truthy l = true ->
  field_description req = Some d -> Py.truthy d = true ->
  (fst (submit_report e req w) = (error_body "Description too long.", 400%Z)
   <-> (1000 < String.length d)%nat)
  /\ ((1000 < String.length d)%nat ->
      same_files w (snd (submit_report e req w))
      /\ listReports (snd (submit_report e req w)) = listReports w).
Proof.
  intros Et Ht El Hl Ed Hd.
  pose proof (submit_report_submitted e req w) as H.
  destruct (submit_report e req w) as [r w']. cbn [fst snd] in *.
  assert (Py.truthy_opt (field_type req) && Py.truthy_opt (field_location req)
          && Py.truthy_opt (field_description req) = true) as Hpresent
      by (rewrite Et, El, Ed; cbn; rewrite Ht, Hl, Hd; reflexivity).
  assert ((1000 < String.length d)%nat ->
          r = (error_body "Description too long.", 400%Z) /\ same_files w w') as Hlong.
  { intros Hlen. inversion H; subst; try congruence; try (split; [reflexivity|assumption]);
      exfalso;
      try (match goal with Hp : passes_checks _ _ _ _ _ _ |- _ =>
             destruct Hp as (_ & _ & _ & _ & Ed' & _ & Hle & _) end);
      match goal with
      | Ed' : field_description req = Some ?d', Hle : (String.length ?d' <= 1000)%nat |- _ =>
          assert (d' = d) by congruence; subst; lia
      end. }
  split; [split|].
  - intros ->. inversion H; subst; unfold error_body in *; cbn [String.append] in *;
      try discriminate.
    match goal with
    | Ed' : field_description req = Some ?d', Hgt : (1000 < String.length ?d')%nat |- _ =>
        assert (d' = d) by congruence; subst; exact Hgt
    end.
  - intros Hlen. apply Hlong, Hlen.
  - intros Hlen. destruct (Hlong Hlen) as [_ Hsame]. split; [exact Hsame|].
    apply same_files_listReports. apply Hsame.
Qed.

Lemma submit_report_bad_location (e : env) (req : request) (w : world)
    (t l d : string) (err : exn) :
  field_type req = Some t -> Py.truthy t = true ->
  field_location req = Some l -> Py.truthy l = true ->
  field_description req = Some d -> Py.truthy d = true ->
  (String.length d <= 1000)%nat ->
  resolve_coords (field_coord_x req) (field_coord_y req) l = Exc err ->
  exists w',
    submit_report e req w
    = (error_body ("Invalid location format: " +:+ exn_msg err), 400%Z, w')
    /\ same_files w w'.
Proof.
  intros Et Ht El Hl Ed Hd Hlen Hres.
  unfold submit_report, submit_report_try. rewrite Et, El, Ed. cbn [Py.truthy_opt].
  rewrite Ht, Hl, Hd. cbn [andb negb from_option id].
  apply Nat.ltb_ge in Hlen. rewrite Hlen, Hres. run. cbv beta iota.
  eexists. split; [reflexivity|]. repeat split.
Qed.


Lemma form_get_sent (f : list (string * string)) (k v : string) :
  sent f k v -> form_get f k = Some v.
Proof.
  intros (before & after & -> & Hnot).
  induction before as [|[k' v'] before IH]; cbn.
  - rewrite String.eqb_refl. reflexivity.
  - cbn in Hnot. apply not_elem_of_cons in Hnot as [Hne Hnot].
    destruct (String.eqb_spec k k') as [->|_]; [contradiction|]. apply IH, Hnot.
Qed.

Lemma form_get_unsent (f : list (string * string)) (k : string) :
  unsent f k -> form_get f k = None.
Proof.
  unfold unsent. induction f as [|[k' v'] f IH]; [reflexivity|]. cbn.
  intros Hnot. apply not_elem_of_cons in Hnot as [Hne Hnot].
  destruct (String.eqb_spec k k') as [->|_]; [contradiction|]. apply IH, Hnot.
Qed.

Lemma form_get_filter (keys : list string) (f : list (string * string)) (k : string) :
  k ∈ keys -> form_get (filter (fun kv => fst kv ∈ keys) f) k = form_get f k.
Proof.
  intros Hk. induction f as [|[k' v'] f IH]; [reflexivity|].
  rewrite filter_cons. cbn [fst]. destruct (decide (k' ∈ keys)) as [Hin|Hout]; cbn.
  - rewrite IH. reflexivity.
  - destruct (String.eqb_spec k k') as [->|_]; [contradiction|]. exact IH.
Qed.

Lemma truthy_text (v : string) : v <> "" -> Py.truthy v = true.
Proof. destruct v; [contradiction|reflexivity]. Qed.

Lemma or_aliased (f : list (string * string)) (primary alias v : string) :
  aliased f primary alias v -> v <> "" ->
  Py.or_ (form_get f primary) (form_get f alias) = Some v.
Proof.
  intros [Hsent|[[Habsent|Hempty] Hsent]] Hv; unfold Py.or_.
  - rewrite (form_get_sent f primary v Hsent). cbn. rewrite (truthy_text v Hv). reflexivity.
  - rewrite (form_get_unsent f primary Habsent). cbn. apply form_get_sent, Hsent.
  - rewrite (form_get_sent f primary "" Hempty). cbn. apply form_get_sent, Hsent.
Qed.

Lemma or_unfilled (f : list (string * string)) (primary alias : string) :
  unfilled f primary alias ->
  Py.truthy_opt (Py.or_ (form_get f primary) (form_get f alias)) = false.
Proof.
  intros [[Hp|Hp] [Ha|Ha]]; unfold Py.or_;
    rewrite ?(form_get_unsent f primary Hp), ?(form_get_sent f primary "" Hp),
      ?(form_get_unsent f alias Ha), ?(form_get_sent f alias "" Ha); reflexivity.
Qed.

(** The handler reads the request through its five fields and its
    files. *)
Lemma submit_report_fields (e : env) (req req' : request) (w : world) :
  field_type req' = field_type req ->
  field_location req' = field_location req ->
  field_description req' = field_description req ->
  field_coord_x req' = field_coord_x req ->
  field_coord_y req' = field_coord_y req ->
  files req' = files req ->
  submit_report e req' w = submit_report e req w.
Proof.
  intros Ht Hl Hd Hx Hy Hf.
  unfold submit_report, submit_report_try, store_report.
  rewrite Ht, Hl, Hd, Hx, Hy, Hf. reflexivity.
Qed.

Lemma submit_report_missing (e : env) (req : request) (w : world) :
  Py.truthy_opt (field_type req) && Py.truthy_opt (field_location req)
    && Py.truthy_opt (field_description req) = false ->
  exists w', submit_report e req w = (error_body "Missing required fields", 400%Z, w')
             /\ same_files w w'.
Proof.
  intros Hmiss. unfold submit_report, submit_report_try. rewrite Hmiss.
  cbn [negb]. run. cbv beta iota. eexists. split; [reflexivity|]. repeat split.
Qed.

(** C10: the type the handler checks, files the images under and stores
    is the text sent under [type], or the one sent under [reportType]
    when [type] is absent or empty; likewise the description with
    [description] and [reportDescription]; the location is the text sent
    under [reportLocation].  With the three texts non-empty the
    submission is treated as the one that carries them under [type],
    [reportLocation] and [description] and nothing else but the
    coordinate fields: it is not answered "Missing required fields",
    the length check is made on that description, and a 201 carries the
    record with these three texts, its images filed under the folder of
    that type.  A field named [location] is ignored, and a submission
    without a text under [reportLocation], or under both names of the
    type or of the description, is answered 400 "Missing required
    fields" and changes no file. *)
Theorem form_field_aliases (e : env) (f : list (string * string))
    (fs : list (string * FileStorage)) (w : world) :
  let req := {| form := f; files := fs |} in
  (forall t l d,
      aliased f "type" "reportType" t -> t <> "" ->
      sent f "reportLocation" l -> l <> "" ->
      aliased f "description" "reportDescription" d -> d <> "" ->
      submit_report e req w
      = submit_report e {| form := canonical_form f t l d; files := fs |} w
      /\ fst (fst (submit_report e req w)) <> error_body "Missing required fields"
      /\ ((1000 < String.length d)%nat ->
          fst (submit_report e req w) = (error_body "Description too long.", 400%Z))
      /\ (forall b w', submit_report e req w = (b, 201%Z, w') ->
            exists x y,
              b = success_body (new_report_of e t l d x y (saved_names e req t))
              /\ (forall name, name ∈ saved_names e req t ->
                    is_Some (images w' !! Py.path_join (folder_path_of t) name))))
  /\ (forall v,
        submit_report e {| form := ("location", v) :: f; files := fs |} w
        = submit_report e req w)
  /\ (unsent f "reportLocation" \/ sent f "reportLocation" ""
      \/ unfilled f "type" "reportType"
      \/ unfilled f "description" "reportDescription" ->
      exists w', submit_report e req w = (error_body "Missing required fields", 400%Z, w')
                 /\ same_files w w').
Proof.
  intros req. split; [|split].
  - intros t l d Ht Htne Hl Hlne Hd Hdne.
    assert (field_type req = Some t) as Et by (apply or_aliased; assumption).
    assert (field_location req = Some l) as El by (apply form_get_sent; assumption).
    assert (field_description req = Some d) as Ed by (apply or_aliased; assumption).
    pose proof (truthy_text t Htne) as Htt. pose proof (truthy_text l Hlne) as Hlt.
    pose proof (truthy_text d Hdne) as Hdt.
    split.
    { symmetry. apply submit_report_fields; unfold field_type, field_location,
        field_description, field_coord_x, field_coord_y, canonical_form;
        cbn [form files form_get String.eqb Ascii.eqb Bool.eqb].
      - unfold Py.or_. cbn [Py.truthy_opt]. rewrite Htt. symmetry. exact Et.
      - symmetry. exact El.
      - unfold Py.or_. cbn [Py.truthy_opt]. rewrite Hdt. symmetry. exact Ed.
      - apply (form_get_filter ["coordX"; "coordY"]). set_solver.
      - apply (form_get_filter ["coordX"; "coordY"]). set_solver.
      - reflexivity. }
    pose proof (submit_report_submitted e req w) as H.
    destruct (submit_report e req w) as [[b status] w'] eqn:Hrun. cbn [fst snd] in *.
    assert (Py.truthy_opt (field_type req) && Py.truthy_opt (field_location req)
              && Py.truthy_opt (field_description req) = true) as Hpresent
        by (rewrite Et, El, Ed; cbn; rewrite Htt, Hlt, Hdt; reflexivity).
    split; [|split].
    + inversion H; subst; try congruence; try discriminate;
        rewrite ?append_cons; discriminate.
    + intros Hlong.
      inversion H; subst; try congruence; try reflexivity;
        match goal with
        | Hp : passes_checks _ _ _ _ _ _ |- _ =>
            destruct Hp as (_ & _ & _ & _ & Ed' & _ & Hlen & _);
            assert (d0 = d) by congruence; subst; lia
        | Ed' : field_description req = Some ?d' |- _ =>
            assert (d' = d) by congruence; subst; lia
        end.
    + intros b' w'' [= <- -> <-].
      apply submitted_created in H
        as (t' & l' & d' & x & y & old & wb & Hpass & _ & _ & _ & -> & _ & _ & _ & _ & Hi).
      destruct Hpass as (Et' & _ & El' & _ & Ed' & _).
      assert (t' = t) by congruence. assert (l' = l) by congruence.
      assert (d' = d) by congruence. subst.
      exists x, y. split; [reflexivity|].
      intros name Hname.
      destruct (write_all_lookup
                  (spec_writes e (folder_path_of t) 0 (image_files_of req)) (images w)
                  (Py.path_join (folder_path_of t) name)) as (bytes & _ & Hlook).
      { rewrite spec_writes_paths. apply list_elem_of_fmap. exists name. auto. }
      rewrite Hi, Hlook. eauto.
  - intros v. apply submit_report_fields; try reflexivity;
      unfold field_type, field_location, field_description, field_coord_x, field_coord_y;
      cbn [form form_get]; reflexivity.
  - intros Hmiss. apply submit_report_missing.
    unfold field_type, field_location, field_description, req. cbn [form].
    destruct Hmiss as [Hl|[Hl|[Ht|Hd]]].
    + rewrite (form_get_unsent f _ Hl). cbn. rewrite andb_false_r. reflexivity.
    + rewrite (form_get_sent f _ _ Hl). cbn. rewrite andb_false_r. reflexivity.
    + rewrite (or_unfilled f _ _ Ht). reflexivity.
    + rewrite (or_unfilled f _ _ Hd). apply andb_false_r.
Qed.

(** C8: the loop that stores the images.  The folder is the lower-cased
    type when that is a fixed category and ["other"] otherwise.  The loop
    never raises; it returns, in input order, the names of the files that
    have a name and whose write succeeds, each name being
    [secure_filename] of the time stamp, the 1-based position and the
    extension of the client's name; each such file is written under the
    folder, and a file whose write fails leaves a "Failed to save image"
    line and does not stop the others. *)
Theorem save_images_spec (e : env) (report_type : string)
    (image_files : list FileStorage) (w : world) :
  let folder_path := Py.path_join IMAGE_ROOT (folder_name_of report_type) in
  let name_at := fun (i : nat) (img : FileStorage) =>
    secure_filename (timestamp e +:+ "_" +:+ Py.str_nat (i + 1)
                       +:+ snd (Py.splitext (filename img))) in
  folder_name_of report_type
  = (if bool_decide (Py.lower report_type ∈ REPORT_TYPES)
     then Py.lower report_type else "other")
  /\ exists w',
       save_images e folder_path 0 image_files [] w
       = (Val (spec_names e folder_path 0 image_files), w')
       /\ images w' = write_all (spec_writes e folder_path 0 image_files) (images w)
       /\ stdout w'
          = (stdout w ++ concat (map (image_log e folder_path) (indexed 0 image_files)))%list
       /\ reports_file w' = reports_file w /\ excel_file w' = excel_file w
       /\ dirs w' = dirs w
       /\ spec_names e folder_path 0 image_files
            `sublist_of` imap name_at image_files
       /\ (forall i img, image_files !! i = Some img ->
             Py.truthy (filename img) = true ->
             match save_error e (Py.path_join folder_path (name_at i img)) with
             | None =>
                 name_at i img ∈ spec_names e folder_path 0 image_files
                 /\ (Py.path_join folder_path (name_at i img), stream img)
                      ∈ spec_writes e folder_path 0 image_files
             | Some err =>
                 [LStr ("Failed to save image " +:+ name_at i img +:+ ": "
                          +:+ exn_msg err)] ∈ stdout w'
             end)
       /\ (forall name, name ∈ spec_names e folder_path 0 image_files ->
             exists i img, image_files !! i = Some img
               /\ Py.truthy (filename img) = true /\ name = name_at i img).
Proof.
  intros folder_path name_at.
  split; [apply folder_name_of_spec|].
  destruct (save_images_run e folder_path image_files 0 [] w)
    as (w' & Hrun & Hr & Hx & Hp & Hd & Hi & Ho).
  exists w'. cbn [app] in Hrun.
  do 6 (split; [assumption|]).
  assert (forall i img, image_files !! i = Some img ->
            (i, img) ∈ indexed 0 image_files) as Hidx.
  { intros i img Hl. apply list_elem_of_lookup. exists i.
    rewrite indexed_lookup, Hl. reflexivity. }
  split; [|split].
  - unfold spec_names.
    assert (imap name_at image_files
            = map (fun p => safe_name_of e (fst p) (snd p)) (indexed 0 image_files)) as ->.
    { unfold indexed. change map with (@fmap list _). rewrite fmap_imap. reflexivity. }
    apply fmap_sublist, sublist_filter.
  - intros i img Hl Hname. specialize (Hidx i img Hl).
    change (name_at i img) with (safe_name_of e i img).
    destruct (save_error e (Py.path_join folder_path (safe_name_of e i img))) as [err|] eqn:Herr.
    + rewrite Ho. apply elem_of_app. right.
      apply list_elem_of_In, in_concat.
      exists (image_log e folder_path (i, img)). split.
      * apply in_map, list_elem_of_In, Hidx.
      * unfold image_log. cbn [fst snd]. rewrite Hname, Herr. right. left. reflexivity.
    + assert ((i, img) ∈ filter (fun p => stored e folder_path p = true)
                                 (indexed 0 image_files)) as Hin.
      { apply list_elem_of_filter. split; [|exact Hidx].
        unfold stored. cbn [fst snd]. rewrite Hname, Herr. reflexivity. }
      split.
      * unfold spec_names. apply list_elem_of_fmap. exists (i, img). auto.
      * unfold spec_writes. apply list_elem_of_fmap. exists (i, img). auto.
  - intros name Hin. unfold spec_names in Hin.
    apply list_elem_of_fmap in Hin as ([i img] & -> & Hin).
    apply list_elem_of_filter in Hin as [Hst Hin].
    apply list_elem_of_lookup in Hin as [j Hj].
    rewrite indexed_lookup in Hj.
    destruct (image_files !! j) as [img'|] eqn:Hl; [|discriminate].
    cbn in Hj. injection Hj as <- <-.
    exists j, img'. split; [exact Hl|]. split; [|reflexivity].
    unfold stored in Hst. cbn [fst snd] in Hst.
    apply andb_true_iff in Hst. tauto.
Qed.

End SubmitClaims.

(** ** Export *)

Section Exporting.

Context {RT : Runtime}.
Abbreviation value := (pyval pyfloat).

Lemma export_empty (w : world) :
  loaded w = PList [] ->
  exists w', export_reports_excel w = (error_body "No reports to export.", 404%Z, w')
             /\ same_files w w'.
Proof.
  intros Hl. unfold export_reports_excel, export_reports_excel_try.
  destruct (load_reports_loaded w (loaded_list_readable w _ Hl)) as (w' & Hload & Hsame).
  run. rewrite Hload, Hl. cbn. exists w'. auto.
Qed.

Lemma export_records (w : world) (records : list value) :
  loaded w = PList records -> records <> [] -> forallb is_dict records = true ->
  exists w',
    let table := map PStr (frame_columns [] records)
                   :: map (frame_row (frame_columns [] records)) records in
    let wb := [ {| title := "Sheet1"; rows := table |} ] in
    export_reports_excel w = (Attachment "static" "reports_export.xlsx" wb, 200%Z, w')
    /\ export_file w' = Some wb
    /\ reports_file w' = reports_file w /\ excel_file w' = excel_file w
    /\ images w' = images w /\ dirs w' = dirs w.
Proof.
  intros Hl Hne Hdict. unfold export_reports_excel, export_reports_excel_try.
  destruct (load_reports_loaded w (loaded_list_readable w _ Hl))
    as (w' & Hload & Hr & Hx & Hp & Hd & Hi).
  unfold write_export_file. run. rewrite Hload, Hl.
  destruct records as [|r records]; [contradiction|].
  cbn [truthy_val negb]. unfold to_excel_rows. rewrite Hdict. cbv beta iota zeta.
  eexists. split; [reflexivity|]. cbn. auto.
Qed.


End Exporting.

(** ** The persisted state stays a sequence of report records *)

Section Invariant.

Context {RT : Runtime}.
Abbreviation value := (pyval pyfloat).

Lemma store_ok_same (w w' : world) :
  reports_file w' = reports_file w -> store_ok w -> store_ok w'.
Proof. unfold store_ok. intros ->. auto. Qed.

Lemma store_shaped_same (w w' : world) :
  reports_file w' = reports_file w -> store_shaped w -> store_shaped w'.
Proof. unfold store_shaped. intros ->. auto. Qed.

(** A deployment starts without a reports file or, through [__main__],
    with the empty list. *)
Lemma store_ok_initial (w : world) :
  reports_file w = Absent \/ reports_file w = Document (PList []) -> store_ok w.
Proof. unfold store_ok. intros [-> | ->]; [exact I|constructor]. Qed.

(** Whatever it answers, [submit_report] leaves records of the right
    shape in the file. *)
Lemma store_shaped_submit (e : env) (req : request) (w : world) :
  store_shaped w -> store_shaped (snd (submit_report e req w)).
Proof.
  intros Hok. destruct (store_shaped_loaded w Hok) as (old & Hold & Hall).
  pose proof (submit_report_submitted e req w) as H.
  destruct (submit_report e req w) as [r w']. cbn [fst snd] in *.
  inversion H; subst;
    try (match goal with Hs : same_files w w' |- _ => destruct Hs as (Hr & _) end);
    try (eapply store_shaped_same; eassumption);
    assert (old0 = old) by congruence; subst;
    match goal with Hfile : reports_file w' = Document _ |- _ =>
      unfold store_shaped; rewrite Hfile end;
    (apply Forall_app; split; [exact Hall|]);
    (apply Forall_cons; split; [apply new_report_shaped|constructor]).
Qed.

Lemma store_ok_read (w : world) :
  store_ok w ->
  store_ok (snd (get_reports w)) /\ store_ok (snd (export_reports_excel w)).
Proof.
  intros Hok. destruct (store_ok_loaded w Hok) as (old & Hold & Hall). split.
  - unfold get_reports.
    destruct (load_reports_loaded w (loaded_list_readable w _ Hold)) as (w' & -> & Hr & _).
    eapply store_ok_same; eassumption.
  - destruct old as [|r old].
    + destruct (export_empty w Hold) as (w' & -> & Hr & _).
      eapply store_ok_same; eassumption.
    + destruct (export_records w (r :: old) Hold) as (w' & Hrun & _ & Hr & _);
        [discriminate| |].
      * apply forallb_forall. intros v Hv. apply list_elem_of_In in Hv.
        rewrite Forall_forall in Hall. specialize (Hall v Hv).
        apply record_ok_shaped in Hall. destruct v; try discriminate. reflexivity.
      * cbv zeta in Hrun. rewrite Hrun. eapply store_ok_same; eassumption.
Qed.

End Invariant.

(** ** The theorems on the concrete scenario *)

Section Witnesses.

#[local] Existing Instance reference_runtime.
Import Scenario.

Lemma smoke_passes_checks :
  passes_checks smoke "Pollution" "Lat: 35.92, Lon: 74.30" "smoke" lat lon.
Proof. repeat split; try reflexivity. cbn. lia. Qed.

Lemma submit_valid_appends_witness :
  exists (old : list (pyval decimal)) (w' : world),
    let r := new_report_of noon "Pollution" "Lat: 35.92, Lon: 74.30" "smoke" lat lon
               (saved_names noon smoke "Pollution") in
    snd (submit_report noon smoke fresh) = w'
    /\ listReports fresh = PList old
    /\ listReports w' = PList (old ++ [r])
    /\ length (old ++ [r]) = S (length old)
    /\ fst (submit_report noon smoke fresh) = (success_body r, 201%Z)
    /\ excel_file w' = Some (spec_workbook (old ++ [r]))
    /\ store_ok w'.
Proof.
  assert (passes_checks smoke "Pollution" "Lat: 35.92, Lon: 74.30" "smoke" lat lon)
    as Hpass by (repeat split; try reflexivity; cbn; lia).
  assert (saved_names noon smoke "Pollution" <> []) as Hne by (vm_compute; discriminate).
  destruct (submit_valid_appends noon smoke fresh "Pollution" "Lat: 35.92, Lon: 74.30"
              "smoke" lat lon Hpass Hne I)
    as (old & w' & Hw & Hold & Hnew & Hlen & Hyes & _ & Hstore).
  exists old, w'. cbv zeta in *. do 4 (split; [assumption|]).
  destruct (Hstore I) as [Htexts Hkeeps].
  assert (workbook_writable
            (old ++ [new_report_of noon "Pollution" "Lat: 35.92, Lon: 74.30" "smoke"
                       lat lon (saved_names noon smoke "Pollution")]) = true) as Hwritable
      by (rewrite Htexts; vm_compute; reflexivity).
  destruct (Hyes Hwritable) as [Hanswer Hbook]. auto.
Defined.

(** C1 as stated fails: the bell in the description passes every check of
    the handler and the image is stored, yet the answer is 500, with the
    record in the reports file and no workbook. *)
Lemma control_character_not_created :
  passes_checks smoke_bell "Pollution" "Lat: 35.92, Lon: 74.30" ("smoke" +:+ bell) lat lon
  /\ saved_names noon smoke_bell "Pollution" <> []
  /\ fst (submit_report noon smoke_bell fresh)
     = (error_body ("Server error: smoke" +:+ bell +:+ " cannot be used in worksheets."),
        500%Z)
  /\ snd (fst (submit_report noon smoke_bell fresh)) <> 201%Z
  /\ listReports (snd (submit_report noon smoke_bell fresh)) = PList [bell_record]
  /\ excel_file (snd (submit_report noon smoke_bell fresh)) = None.
Proof.
  split; [repeat split; try reflexivity; apply Nat.leb_le; reflexivity|].
  split; [vm_compute; discriminate|].
  split; [reflexivity|]. split; [discriminate|]. split; reflexivity.
Qed.

(** C5 as stated fails: on a reports file that exists and cannot be
    opened [load_reports] raises, and [get_reports] answers 500. *)
Lemma unreadable_file_raises :
  fst (load_reports locked)
  = Exc (Exn "PermissionError" "[Errno 13] Permission denied: 'reports.json'")
  /\ fst (get_reports locked) = (error_body "Could not load reports.", 500%Z).
Proof. split; reflexivity. Qed.

Lemma submitted_report_round_trip_witness :
  exists (t l d : string) (x y : decimal) (old : list (pyval decimal))
         (r : pyval decimal) (w'' : world),
    passes_checks smoke t l d x y
    /\ r = new_report_of noon t l d x y (saved_names noon smoke t)
    /\ success_body (RT := reference_runtime) smoke_record = success_body r
    /\ listReports fresh = PList old
    /\ load_reports reported = (Val (PList (old ++ [r])), w'')
    /\ listReports reported = PList (old ++ [r])
    /\ last (old ++ [r]) = Some r
    /\ dict_get (fields_of r) "type" = Some (PStr t)
    /\ dict_get (fields_of r) "description" = Some (PStr d)
    /\ dict_get (fields_of r) "coord_x" = Some (PFloat x)
    /\ dict_get (fields_of r) "coord_y" = Some (PFloat y)
    /\ dict_get (fields_of r) "images" = Some (PList (map PStr (saved_names noon smoke t))).
Proof.
  apply (submitted_report_round_trip noon smoke fresh reported
           (success_body (RT := reference_runtime) smoke_record)).
  assert (fst (submit_report noon smoke fresh)
          = (success_body (RT := reference_runtime) smoke_record, 201%Z)) as Hanswer
      by reflexivity.
  rewrite <- Hanswer. unfold reported.
  destruct (submit_report noon smoke fresh) as [r w']. reflexivity.
Defined.

Lemma submit_without_image_witness :
  any_named (image_files_of smoke_no_image) = false
  /\ exists (b : body) (w' : world),
       submit_report noon smoke_no_image fresh = (b, 400%Z, w')
       /\ images w' = images fresh
       /\ reports_file w' = reports_file fresh
       /\ excel_file w' = excel_file fresh
       /\ export_file w' = export_file fresh
       /\ listReports w' = listReports fresh
       /\ (dirs w' = dirs fresh \/ dirs w' = image_folders ∪ dirs fresh)
       /\ (image_folders ⊆ dirs fresh -> dirs w' = dirs fresh)
       /\ (forall t l d x y, passes_checks smoke_no_image t l d x y ->
             b = error_body "At least one image is required."
             /\ dirs w' = image_folders ∪ dirs fresh).
Proof.
  split; [reflexivity|].
  apply (submit_without_image noon smoke_no_image fresh). reflexivity.
Defined.

(** C3 as stated fails: a submission without any upload is answered 400
    and still creates the image folders of a fresh deployment; and when a
    required field is missing as well, the message is the one of the
    earlier check. *)
Lemma no_image_creates_folders :
  (any_named (image_files_of smoke_no_image) = false
   /\ fst (submit_report noon smoke_no_image fresh)
      = (error_body "At least one image is required.", 400%Z)
   /\ (IMAGE_ROOT ∉ dirs fresh)
   /\ (IMAGE_ROOT ∈ dirs (snd (submit_report noon smoke_no_image fresh)))
   /\ dirs (snd (submit_report noon smoke_no_image fresh)) <> dirs fresh)
  /\ (any_named (image_files_of blank) = false
      /\ fst (submit_report noon blank fresh)
         = (error_body "Missing required fields", 400%Z)
      /\ fst (submit_report noon blank fresh)
         <> (error_body "At least one image is required.", 400%Z)).
Proof.
  split; [|split; [reflexivity|split; [reflexivity|discriminate]]].
  split; [reflexivity|]. split; [reflexivity|].
  assert (IMAGE_ROOT ∉ dirs fresh) as Hbefore by (cbn; apply not_elem_of_empty).
  assert (IMAGE_ROOT ∈ dirs (snd (submit_report noon smoke_no_image fresh))) as Hafter
      by (apply (bool_decide_unpack _); vm_compute; exact I).
  split; [exact Hbefore|]. split; [exact Hafter|].
  intros Heq. rewrite Heq in Hafter. contradiction.
Qed.



Lemma description_length_check_witness :
  fst (submit_report noon (long_description 1001) fresh)
  = (error_body "Description too long.", 400%Z)
  /\ listReports (snd (submit_report noon (long_description 1001) fresh)) = listReports fresh
  /\ fst (submit_report noon (long_description 1000) fresh)
     <> (error_body "Description too long.", 400%Z).
Proof.
  assert (String.length (string_of_list_ascii (repeat "a"%char 1001)) = 1001%nat) as H1001
      by (vm_compute; reflexivity).
  assert (String.length (string_of_list_ascii (repeat "a"%char 1000)) = 1000%nat) as H1000
      by (vm_compute; reflexivity).
  destruct (description_length_check noon (long_description 1001) fresh "Pollution"
              "Lat: 35.92, Lon: 74.30" (string_of_list_ascii (repeat "a"%char 1001))
              eq_refl eq_refl eq_refl eq_refl eq_refl eq_refl)
    as (Hiff & Hsame).
  destruct (description_length_check noon (long_description 1000) fresh "Pollution"
              "Lat: 35.92, Lon: 74.30" (string_of_list_ascii (repeat "a"%char 1000))
              eq_refl eq_refl eq_refl eq_refl eq_refl eq_refl)
    as (Hiff' & _).
  split; [apply Hiff; rewrite H1001; lia|].
  split; [apply Hsame; rewrite H1001; lia|].
  intros H. apply Hiff' in H. rewrite H1000 in H. lia.
Defined.

Lemma save_reports_workbook_witness :
  Forall (fun r => record_shaped r = true) [smoke_record]
  /\ workbook_writable [smoke_record] = true
  /\ fst (save_reports [smoke_record] fresh) = Val tt
  /\ reports_file (snd (save_reports [smoke_record] fresh)) = Document (PList [smoke_record])
  /\ excel_file (snd (save_reports [smoke_record] fresh))
     = Some (spec_workbook [smoke_record]).
Proof.
  assert (Forall (fun r : pyval decimal => record_shaped r = true) [smoke_record]) as Hok
      by (repeat constructor).
  assert (workbook_writable (RT := reference_runtime) [smoke_record] = true) as Hw
      by (vm_compute; reflexivity).
  split; [exact Hok|]. split; [exact Hw|].
  destruct (save_reports_workbook (RT := reference_runtime) [smoke_record] fresh Hok)
    as (Hfile & _ & _ & _ & _ & Hyes & _).
  destruct (Hyes Hw) as [Hval Hbook]. auto.
Defined.

(** C9 as stated fails: from a sequence that holds the record with the
    bell no workbook is derived; [save_reports] writes the JSON file and
    raises. *)
Lemma control_character_no_workbook :
  Forall (fun r => record_shaped r = true) [bell_record]
  /\ workbook_writable [bell_record] = false
  /\ fst (save_reports [bell_record] fresh)
     = Exc (Exn "IllegalCharacterError"
                ("smoke" +:+ bell +:+ " cannot be used in worksheets."))
  /\ reports_file (snd (save_reports [bell_record] fresh)) = Document (PList [bell_record])
  /\ excel_file (snd (save_reports [bell_record] fresh)) = None.
Proof.
  split; [repeat constructor|]. split; [vm_compute; reflexivity|]. repeat split.
Qed.

Lemma form_field_aliases_witness :
  aliased (form smoke_aliased) "type" "reportType" "Pollution"
  /\ sent (form smoke_aliased) "reportLocation" "Lat: 35.92, Lon: 74.30"
  /\ aliased (form smoke_aliased) "description" "reportDescription" "smoke"
  /\ submit_report noon smoke_aliased fresh
     = submit_report noon
         {| form := canonical_form (form smoke_aliased) "Pollution"
                      "Lat: 35.92, Lon: 74.30" "smoke";
            files := files smoke_aliased |} fresh
  /\ fst (fst (submit_report noon smoke_aliased fresh))
     <> error_body "Missing required fields".
Proof.
  assert (aliased (form smoke_aliased) "type" "reportType" "Pollution") as Ht.
  { right. split.
    - right. exists [("reportType", "Pollution")], (skipn 2 (form smoke_aliased)).
      split; [reflexivity|]. cbn. rewrite elem_of_cons, elem_of_nil.
      intros [H|[]]. discriminate.
    - exists [], (skipn 1 (form smoke_aliased)). split; [reflexivity|].
      apply not_elem_of_nil. }
  assert (sent (form smoke_aliased) "reportLocation" "Lat: 35.92, Lon: 74.30") as Hl.
  { exists (firstn 2 (form smoke_aliased)), (skipn 3 (form smoke_aliased)).
    split; [reflexivity|]. cbn. rewrite !elem_of_cons, elem_of_nil.
    intros [H|[H|[]]]; discriminate. }
  assert (aliased (form smoke_aliased) "description" "reportDescription" "smoke") as Hd.
  { right. split.
    - left. unfold unsent. cbn. rewrite !elem_of_cons, elem_of_nil.
      intros [H|[H|[H|[H|[H|[]]]]]]; discriminate.
    - exists (firstn 4 (form smoke_aliased)), []. split; [reflexivity|].
      cbn. rewrite !elem_of_cons, elem_of_nil.
      intros [H|[H|[H|[H|[]]]]]; discriminate. }
  do 3 (split; [assumption|]).
  destruct (form_field_aliases (RT := reference_runtime) noon (form smoke_aliased)
              (files smoke_aliased) fresh) as (Hread & _).
  assert ("Pollution" <> "") as Htne by discriminate.
  assert ("Lat: 35.92, Lon: 74.30" <> "") as Hlne by discriminate.
  assert ("smoke" <> "") as Hdne by discriminate.
  destruct (Hread "Pollution" "Lat: 35.92, Lon: 74.30" "smoke" Ht Htne Hl Hlne Hd Hdne)
    as (Hsame & Hnot & _).
  split; [exact Hsame|exact Hnot].
Defined.

(** The report sent under the second names is stored like the one sent
    under the first. *)
Example aliased_report_created :
  fst (submit_report noon smoke_aliased fresh)
  = (success_body (RT := reference_runtime) smoke_record, 201%Z).
Proof. reflexivity. Qed.

(** What openpyxl refuses: a record without a field, a cell that is a
    list, and a workbook without a sheet. *)
Example empty_record_refused :
  workbook_of (RT := reference_runtime) [PDict []]
  = Exc (Exn "ValueError" "Invalid column index 0").
Proof. reflexivity. Qed.

Example list_cell_refused :
  workbook_of (RT := reference_runtime) [PDict [("tags", PList [PStr "river"])]]
  = Exc (Exn "ValueError" "Cannot convert <list> to Excel").
Proof. reflexivity. Qed.

Example no_report_refused :
  workbook_of (RT := reference_runtime) []
  = Exc (Exn "IndexError" "At least one sheet must be visible").
Proof. reflexivity. Qed.

(** A reports file that holds the number 0.0 is exported like an empty
    one. *)
Example zero_is_no_report :
  fst (export_reports_excel
         {| reports_file := Document (PFloat {| mantissa := 0; places := 1 |});
            excel_file := None; export_file := None; dirs := ∅; images := ∅;
            stdout := [] |})
  = (error_body "No reports to export.", 404%Z).
Proof. reflexivity. Qed.

(** The location sent under [location] is not read. *)
Example misnamed_location_rejected :
  fst (submit_report noon smoke_misnamed fresh)
  = (error_body "Missing required fields", 400%Z).
Proof. reflexivity. Qed.

(** Outside [store_shaped]: a reports file edited into a JSON object makes
    [reports.append] fail, which the outer handler turns into a 500. *)
Example edited_store_rejected :
  fst (submit_report noon smoke
         {| reports_file := Document (PDict []); excel_file := None;
            export_file := None; dirs := ∅; images := ∅; stdout := [] |})
  = (error_body "Server error: 'dict' object has no attribute 'append'", 500%Z).
Proof. reflexivity. Qed.

(** The workbook of the scenario, sheet by sheet. *)
Example smoke_workbook :
  spec_workbook [smoke_record]
  = [ {| title := "Pollution";
         rows := [ [PStr "Type"; PStr "Location"; PStr "Description"; PStr "Coord_x";
                    PStr "Coord_y"; PStr "Datetime"; PStr "Images"];
                   [PStr "Pollution"; PStr "Lat: 35.92, Lon: 74.30"; PStr "smoke";
                    PFloat lat; PFloat lon; PStr "2024-01-01 12:00:00";
                    PStr "20240101_120000_1.JPG"] ] |} ].
Proof. reflexivity. Qed.

End Witnesses.

(** * Further properties *)

(** ** Effects of a submission *)

Section Effects.

Context {RT : Runtime}.
Abbreviation value := (pyval pyfloat).

(** X1: [ensure_image_folders] is idempotent: the first run adds exactly the
    image root and the four category folders and removes nothing, a
    second run changes no directory, and where the folders exist already
    the first run changes none either.  Nothing but directories is
    touched. *)
Theorem ensure_image_folders_idempotent (w : world) :
  exists w1 w2,
    ensure_image_folders w = (Val tt, w1)
    /\ ensure_image_folders w1 = (Val tt, w2)
    /\ dirs w1 = image_folders ∪ dirs w
    /\ dirs w2 = dirs w1
    /\ (image_folders ⊆ dirs w -> dirs w1 = dirs w)
    /\ (forall p, p ∈ dirs w1 <->
          p ∈ dirs w
          \/ p ∈ ["report_images"; "report_images/pollution";
                  "report_images/deforestation"; "report_images/improvement";
                  "report_images/other"])
    /\ reports_file w2 = reports_file w /\ excel_file w2 = excel_file w
    /\ export_file w2 = export_file w /\ images w2 = images w
    /\ stdout w2 = stdout w.
Proof.
  destruct (ensure_image_folders_run w) as (w1 & Hrun1 & Hr1 & Hx1 & Hp1 & Hi1 & Ho1 & Hd1).
  destruct (ensure_image_folders_run w1) as (w2 & Hrun2 & Hr2 & Hx2 & Hp2 & Hi2 & Ho2 & Hd2).
  exists w1, w2. do 3 (split; [assumption|]).
  split; [rewrite Hd2, Hd1; apply union_absorb_subset, union_subseteq_l|].
  split; [intros Hsub; rewrite Hd1; apply union_absorb_subset, Hsub|].
  split.
  - intros p. rewrite Hd1, elem_of_union. unfold image_folders.
    rewrite elem_of_union, elem_of_singleton, elem_of_list_to_set.
    cbn [map REPORT_TYPES IMAGE_ROOT]. rewrite !elem_of_cons, elem_of_nil.
    change (Py.path_join "report_images" "pollution") with "report_images/pollution".
    change (Py.path_join "report_images" "deforestation") with "report_images/deforestation".
    change (Py.path_join "report_images" "improvement") with "report_images/improvement".
    change (Py.path_join "report_images" "other") with "report_images/other".
    tauto.
  - repeat split; congruence.
Qed.

Lemma write_all_dom (writes : list (string * string)) : forall (m : gmap string string),
  dom m ⊆ dom (write_all writes m).
Proof.
  unfold write_all. induction writes as [|[p b] writes IH]; intros m; cbn; [reflexivity|].
  etransitivity; [|apply IH]. rewrite dom_insert. set_solver.
Qed.

(** X2: whatever the answer, [submit_report] only ever appends: the reports
    file is left as it was or holds the sequence it held with one record
    added at the end.  No directory and no image file goes away, the only
    directories that can appear are the image folders, and the export
    file is never touched. *)
Theorem submit_report_append_only (e : env) (req : request) (w : world) :
  let w' := snd (submit_report e req w) in
  (reports_file w' = reports_file w
   \/ exists old r, loaded w = PList old
        /\ reports_file w' = Document (PList (old ++ [r])))
  /\ dirs w ⊆ dirs w'
  /\ dirs w' ⊆ image_folders ∪ dirs w
  /\ dom (images w) ⊆ dom (images w')
  /\ export_file w' = export_file w.
Proof.
  pose proof (submit_report_submitted e req w) as H.
  destruct (submit_report e req w) as [r w']. cbn [fst snd] in *.
  inversion H; subst;
    try (match goal with Hs : same_files w w' |- _ =>
           destruct Hs as (Hr & Hx & Hp & Hd & Hi) end;
         rewrite Hd, Hi; split; [left; exact Hr|];
         split; [reflexivity|]; split; [set_solver|]; split; [reflexivity|exact Hp]);
    try (match goal with Hd : dirs w' = _, Hi : images w' = images w |- _ =>
           rewrite Hd, Hi; split; [left; assumption|];
           split; [set_solver|]; split; [reflexivity|]; split; [reflexivity|assumption] end);
    match goal with Hup : after_upload _ _ _ w w' |- _ =>
      destruct Hup as (Hp & Hd & Hi) end;
    rewrite Hd, Hi;
    (split; [first [left; assumption | right; eauto]|]);
    (split; [set_solver|]); (split; [reflexivity|]);
    (split; [apply write_all_dom|exact Hp]).
Qed.

(** X3: an answer is 201, 400 or 500.  A 400 leaves the reports file, the
    workbook, the export file and every image as they were, so a rejected
    submission stores nothing; and the workbook is rewritten only by a
    201. *)
Theorem submit_report_rejection_stores_nothing (e : env) (req : request) (w : world) :
  let status := snd (fst (submit_report e req w)) in
  let w' := snd (submit_report e req w) in
  (status = 201 \/ status = 400 \/ status = 500)%Z
  /\ (status = 400%Z ->
      reports_file w' = reports_file w /\ excel_file w' = excel_file w
      /\ export_file w' = export_file w /\ images w' = images w
      /\ listReports w' = listReports w)
  /\ (status <> 201%Z -> excel_file w' = excel_file w).
Proof.
  pose proof (submit_report_submitted e req w) as H.
  destruct (submit_report e req w) as [[b status] w']. cbn [fst snd] in *.
  inversion H; subst;
    try (match goal with Hs : same_files w w' |- _ =>
           destruct Hs as (Hr & Hx & Hp & Hd & Hi) end);
    (split; [auto|]); split;
    try (intros _; repeat split;
         first [assumption | apply same_files_listReports; assumption]);
    try discriminate; try (intros _; assumption); try congruence.
Qed.

End Effects.

(** ** The storage adapter and the workbook *)

Section Mirror.

Context {RT : Runtime}.
Abbreviation value := (pyval pyfloat).


(** X5: the workbook mirrors the reports without loss or repetition: for
    a non-empty sequence of report records that are writable the
    workbook is derived, the data rows of all sheets together are as
    many as the reports, every sheet has a header and a data row, there
    are at most four sheets and at least one, and their titles follow
    the fixed order of the categories.  From the empty sequence no
    workbook is derived: [wb.save] refuses a workbook without a sheet. *)
Theorem workbook_keeps_every_report (reports : list value) :
  Forall (fun r => record_ok r = true) reports ->
  (reports <> [] ->
   exists wb,
     workbook_of reports = Val wb
     /\ list_sum (map (fun s => length (rows s) - 1) wb) = length reports
     /\ Forall (fun s => 2 <= length (rows s)) wb
     /\ map title wb `sublist_of` ["Pollution"; "Deforestation"; "Improvement"; "Other"]
     /\ wb <> [])
  /\ (reports = [] ->
      workbook_of reports = Exc (Exn "IndexError" "At least one sheet must be visible")).
Proof.
  intros Hall. split; [|intros ->; reflexivity].
  intros Hne. exists (spec_workbook reports).
  split; [apply workbook_of_spec; assumption|].
  split; [apply spec_workbook_rows|].
  assert (forall cat, Forall (fun s => 2 <= length (rows s) /\ title s = Py.capitalize cat)
                             (spec_sheet reports cat)) as Hsheet.
  { intros cat. unfold spec_sheet.
    destruct (filter (fun r => spec_category r = cat) reports) as [|first group];
      constructor; [|constructor]. cbn. split; [lia|reflexivity]. }
  assert (forall cat, map title (spec_sheet reports cat) `sublist_of` [Py.capitalize cat])
    as Htitle.
  { intros cat. unfold spec_sheet.
    destruct (filter (fun r => spec_category r = cat) reports) as [|first group]; cbn.
    - apply sublist_nil_l.
    - reflexivity. }
  split; [|split].
  - unfold spec_workbook, REPORT_TYPES. cbn [map concat]. rewrite app_nil_r.
    rewrite !Forall_app. repeat split;
      (eapply Forall_impl; [apply Hsheet|]; cbn; tauto).
  - unfold spec_workbook, REPORT_TYPES. cbn [map concat]. rewrite app_nil_r.
    rewrite !map_app.
    change ["Pollution"; "Deforestation"; "Improvement"; "Other"]
      with (["Pollution"] ++ ["Deforestation"] ++ ["Improvement"] ++ ["Other"])%list.
    repeat apply sublist_app; apply Htitle.
  - intros Hnil. apply Hne, spec_workbook_nil, Hnil.
Qed.

End Mirror.

(** ** Where a stored report shows up *)

Section Presentation.

Context {RT : Runtime} {BI : Builtins}.
Abbreviation value := (pyval pyfloat).

Lemma new_report_category (e : env) (t l d : string) (x y : pyfloat) (names : list string) :
  spec_category (new_report_of e t l d x y names) = folder_name_of t.
Proof. destruct (folder_name_of_spec t) as [-> _]. reflexivity. Qed.

(** X6: a created report is listed where its images are kept: after a 201
    answer on a store of records of the right shape, the workbook has a
    sheet titled with the capitalised name of one of the four folders,
    the last row of that sheet is the new report with its images joined
    by [", "], and each of those images is a file in that folder. *)
Theorem submitted_report_sheet (e : env) (req : request) (w w' : world) (b : body) :
  store_shaped w ->
  submit_report e req w = (b, 201%Z, w') ->
  exists (t l d : string) (x y : pyfloat) (wb : list sheet)
         (header : list value) (earlier : list (list value)),
    passes_checks req t l d x y
    /\ excel_file w' = Some wb
    /\ {| title := Py.capitalize (folder_name_of t);
          rows := header
                    :: earlier
                    ++ [[PStr t; PStr l; PStr d; PFloat x; PFloat y;
                         PStr (datetime_now e);
                         PStr (Py.join ", " (saved_names e req t))]] |} ∈ wb
    /\ folder_name_of t ∈ REPORT_TYPES
    /\ (forall name,
          name ∈ saved_names e req t ->
          is_Some (images w'
                     !! Py.path_join (Py.path_join IMAGE_ROOT (folder_name_of t)) name)).
Proof.
  intros Hok Hrun.
  apply submit_report_created, submitted_created in Hrun
    as (t & l & d & x & y & old & wb & Hpass & _ & Hold & Hwb & _ & _ & Hxl & _ & _ & Hi).
  destruct (store_shaped_loaded w Hok) as (old' & Hold' & Hall).
  assert (old' = old) by congruence. subst old'.
  set (r := new_report_of e t l d x y (saved_names e req t)) in *.
  assert (Forall (fun v => record_shaped v = true) (old ++ [r])) as Hall'.
  { apply Forall_app. split; [exact Hall|].
    apply Forall_cons. split; [apply new_report_shaped|constructor]. }
  destruct (workbook_of_cases _ Hall') as [[Hspec _]|[err Herr]]; [|congruence].
  rewrite Hspec in Hwb. injection Hwb as <-.
  destruct (folder_name_of_spec t) as [_ Hfolder].
  assert (exists header earlier,
            spec_sheet (old ++ [r]) (folder_name_of t)
            = [ {| title := Py.capitalize (folder_name_of t);
                   rows := header :: earlier ++ [spec_row r] |} ]) as (header & earlier & Hsheet).
  { unfold spec_sheet. rewrite filter_app, filter_cons, filter_nil.
    rewrite decide_True by apply new_report_category.
    destruct (filter (fun v => spec_category v = folder_name_of t) old) as [|first group].
    - exists (spec_header r), []. reflexivity.
    - exists (spec_header first), (map spec_row (first :: group)).
      cbn [app map]. rewrite map_app. reflexivity. }
  unfold r in Hsheet. rewrite new_report_row in Hsheet. fold r in Hsheet.
  exists t, l, d, x, y, (spec_workbook (old ++ [r])), header, earlier.
  split; [exact Hpass|]. split; [exact Hxl|]. split; [|split; [exact Hfolder|]].
  - unfold spec_workbook. apply list_elem_of_In, in_concat.
    exists (spec_sheet (old ++ [r]) (folder_name_of t)). split.
    + apply in_map, list_elem_of_In, Hfolder.
    + rewrite Hsheet. left. reflexivity.
  - intros name Hname.
    destruct (write_all_lookup
                (spec_writes e (folder_path_of t) 0 (image_files_of req)) (images w)
                (Py.path_join (folder_path_of t) name)) as (bytes & _ & Hl).
    { rewrite spec_writes_paths. apply list_elem_of_fmap. exists name. auto. }
    change (Py.path_join IMAGE_ROOT (folder_name_of t)) with (folder_path_of t).
    rewrite Hi, Hl. eauto.
Qed.




(** X8: the colour of a marker is chosen by the exact spelling of the type,
    the folder and the sheet by its lower-cased spelling.  A marker is
    blue exactly when the type is not one of the four lower-case names; so
    a report typed with a capital, such as ["Pollution"], is filed under
    its category and still drawn blue, not in the colour of the
    category. *)
Theorem marker_color_case_sensitive (t : string) :
  (marker_color (PStr t) = "blue" <-> t ∉ REPORT_TYPES)
  /\ (t ∈ REPORT_TYPES -> folder_name_of t = t)
  /\ (Py.lower t ∈ REPORT_TYPES -> t ∉ REPORT_TYPES ->
      folder_name_of t = Py.lower t
      /\ marker_color (PStr t) = "blue"
      /\ marker_color (PStr (folder_name_of t)) <> "blue").
Proof.
  assert (marker_color (PStr t) = "blue" <-> t ∉ REPORT_TYPES) as Hblue.
  { unfold marker_color, eq_str, REPORT_TYPES.
    rewrite !elem_of_cons, elem_of_nil.
    destruct (String.eqb_spec t "pollution") as [->|H1]; [split; [discriminate|tauto]|].
    destruct (String.eqb_spec t "deforestation") as [->|H2]; [split; [discriminate|tauto]|].
    destruct (String.eqb_spec t "improvement") as [->|H3]; [split; [discriminate|tauto]|].
    destruct (String.eqb_spec t "other") as [->|H4]; [split; [discriminate|tauto]|].
    split; [tauto|reflexivity]. }
  assert (forall c, c ∈ REPORT_TYPES -> folder_name_of c = c /\ marker_color (PStr c) <> "blue")
    as Hfixed.
  { intros c Hc. unfold REPORT_TYPES in Hc. rewrite !elem_of_cons, elem_of_nil in Hc.
    destruct Hc as [->|[->|[->|[->|[]]]]]; split; first [reflexivity|discriminate]. }
  split; [exact Hblue|]. split; [intros Hin; apply Hfixed, Hin|].
  intros Hlow Hnot.
  assert (folder_name_of t = Py.lower t) as Hfolder.
  { destruct (folder_name_of_spec t) as [-> _]. rewrite bool_decide_eq_true_2 by exact Hlow.
    reflexivity. }
  split; [exact Hfolder|]. split; [apply Hblue, Hnot|].
  rewrite Hfolder. apply Hfixed, Hlow.
Qed.

End Presentation.

(** ** What the location parser accepts *)

Section Location.

Context {RT : Runtime}.
Abbreviation value := (pyval pyfloat).

Lemma replace_from_keeps_lacks (c : ascii) (old s : string) : forall skip,
  Py.lacks c s = true -> Py.lacks c (Py.replace_from old "" skip s) = true.
Proof.
  induction s as [|d s IH]; intros skip H.
  - destruct old; reflexivity.
  - cbn in H. apply andb_true_iff in H as [Hd Hs].
    cbn [Py.replace_from]. destruct skip as [|k]; [|apply IH, Hs].
    destruct old as [|o old].
    + rewrite append_empty_l. cbn. rewrite Hd. apply IH, Hs.
    + destruct (String.prefix (String o old) (String d s)).
      * rewrite append_empty_l. apply IH, Hs.
      * cbn. rewrite Hd. apply IH, Hs.
Qed.

Lemma split_without_comma (location : string) :
  Py.lacks "," location = true ->
  exists piece,
    Py.split (Py.replace (Py.replace location "Lat: " "") "Lon: " "") ", " = [piece].
Proof.
  intros H. eexists. unfold Py.split, Py.replace.
  rewrite (split_from_lacks_all "," " " _ "");
    [reflexivity|].
  apply replace_from_keeps_lacks, replace_from_keeps_lacks, H.
Qed.

(** X9: the labels of a location are stripped, not read.  Without a usable
    pair of explicit coordinates the first number becomes [coord_x] and
    the second [coord_y], whether the location is written ["a, b"] or
    with the labels the other way round, ["Lon: a, Lat: b"].  With both
    explicit coordinates the location is not parsed at all, and a single
    explicit coordinate is ignored. *)
Theorem location_labels_not_interpreted (a b : string) (coord_x coord_y : option string) :
  Py.plain a = true -> Py.plain b = true ->
  Py.truthy_opt coord_x && Py.truthy_opt coord_y = false ->
  let numbers := (x ← float_of_str a; y ← float_of_str b; Val (x, y)) in
  resolve_coords coord_x coord_y (a +:+ ", " +:+ b) = numbers
  /\ resolve_coords coord_x coord_y ("Lon: " +:+ a +:+ ", Lat: " +:+ b) = numbers
  /\ resolve_coords coord_x coord_y ("Lat: " +:+ a +:+ ", Lon: " +:+ b) = numbers
  /\ (forall location, resolve_coords coord_x coord_y location
                       = resolve_coords None None location)
  /\ (forall sx sy location location',
        Py.truthy sx = true -> Py.truthy sy = true ->
        resolve_coords (Some sx) (Some sy) location
        = resolve_coords (Some sx) (Some sy) location').
Proof.
  intros Ha Hb Hnot numbers.
  assert (Py.split (Py.replace (Py.replace (a +:+ ", " +:+ b) "Lat: " "") "Lon: " "") ", "
          = [a; b]) as Hbare.
  { unfold Py.plain in Ha, Hb.
    apply andb_true_iff in Ha as [HaL Hac]. apply andb_true_iff in Hb as [HbL Hbc].
    assert (forall old, Py.replace (a +:+ ", " +:+ b) (String "L" old) ""
                        = a +:+ ", " +:+ b) as Hsame.
    { intros old. unfold Py.replace. rewrite (replace_from_lacks "L" old "" a _ HaL).
      rewrite ?append_cons, ?append_empty_l. cbn [Py.replace_from].
      rewrite !prefix_other_head by reflexivity.
      rewrite (replace_from_lacks_all "L" old "" b HbL). reflexivity. }
    rewrite !Hsame. unfold Py.split.
    rewrite (split_from_lacks "," " " a _ "" Hac).
    rewrite ?append_cons, ?append_empty_l. cbn.
    rewrite prefix_empty, ?append_empty_l.
    rewrite (split_from_lacks_all "," " " b "" Hbc). reflexivity. }
  assert (Py.split (Py.replace (Py.replace ("Lon: " +:+ a +:+ ", Lat: " +:+ b) "Lat: " "")
                               "Lon: " "") ", "
          = [a; b]) as Hswapped.
  { unfold Py.plain in Ha, Hb.
    apply andb_true_iff in Ha as [HaL Hac]. apply andb_true_iff in Hb as [HbL Hbc].
    assert (Py.replace ("Lon: " +:+ a +:+ ", Lat: " +:+ b) "Lat: " ""
            = "Lon: " +:+ a +:+ ", " +:+ b) as ->.
    { unfold Py.replace. rewrite ?append_cons, ?append_empty_l. cbn.
      rewrite (replace_from_lacks "L" "at: " "" a _ HaL). cbn.
      rewrite prefix_empty, ?append_empty_l.
      rewrite (replace_from_lacks_all "L" "at: " "" b HbL). reflexivity. }
    assert (Py.replace ("Lon: " +:+ a +:+ ", " +:+ b) "Lon: " "" = a +:+ ", " +:+ b) as ->.
    { unfold Py.replace. rewrite ?append_cons, ?append_empty_l. cbn.
      rewrite prefix_empty, ?append_empty_l.
      rewrite (replace_from_lacks "L" "on: " "" a _ HaL). cbn.
      rewrite (replace_from_lacks_all "L" "on: " "" b HbL). reflexivity. }
    unfold Py.split. rewrite (split_from_lacks "," " " a _ "" Hac).
    rewrite ?append_cons, ?append_empty_l. cbn.
    rewrite prefix_empty, ?append_empty_l.
    rewrite (split_from_lacks_all "," " " b "" Hbc). reflexivity. }
  unfold resolve_coords. rewrite Hnot.
  split; [rewrite Hbare; reflexivity|].
  split; [rewrite Hswapped; reflexivity|].
  split; [rewrite (split_lat_lon a b Ha Hb); reflexivity|].
  split; [reflexivity|].
  intros sx sy location location' Hsx Hsy. cbn [Py.truthy_opt]. rewrite Hsx, Hsy.
  reflexivity.
Qed.

(** X10: a location without a comma never yields coordinates: unless both
    explicit coordinates are given, such a submission is answered 400
    with the unpacking error in the message, and no file changes. *)
Theorem location_without_comma_rejected (e : env) (req : request) (w : world)
    (t l d : string) :
  field_type req = Some t -> Py.truthy t = true ->
  field_location req = Some l -> Py.truthy l = true ->
  field_description req = Some d -> Py.truthy d = true ->
  (String.length d <= 1000)%nat ->
  Py.truthy_opt (field_coord_x req) && Py.truthy_opt (field_coord_y req) = false ->
  Py.lacks "," l = true ->
  exists w',
    submit_report e req w
    = (error_body
         "Invalid location format: not enough values to unpack (expected 2, got 1)",
       400%Z, w')
    /\ same_files w w'.
Proof.
  intros Et Ht El Hl Ed Hd Hlen Hnot Hcomma.
  destruct (split_without_comma l Hcomma) as (piece & Hsplit).
  assert (resolve_coords (field_coord_x req) (field_coord_y req) l = Exc (unpack_error 1))
    as Hres by (unfold resolve_coords; rewrite Hnot, Hsplit; reflexivity).
  apply (submit_report_bad_location e req w t l d (unpack_error 1)); assumption.
Qed.

End Location.

(** ** Export, start-up, uploads and translation *)

Section OtherRoutes.

Context {RT : Runtime} {BI : Builtins}.
Abbreviation value := (pyval pyfloat).


Lemma union_rotate (A B C D : gset string) : A ∪ (B ∪ (C ∪ D)) = C ∪ (B ∪ (A ∪ D)).
Proof. set_solver. Qed.

Lemma union_twice (A B C D : gset string) :
  A ∪ (B ∪ (C ∪ (A ∪ (B ∪ (C ∪ D))))) = A ∪ (B ∪ (C ∪ D)).
Proof. set_solver. Qed.

Lemma union_third (A B C D : gset string) : C ⊆ A ∪ (B ∪ (C ∪ D)).
Proof. set_solver. Qed.

Lemma startup_run (w : world) :
  exists w',
    startup w = (Val tt, w')
    /\ reports_file w'
       = match reports_file w with Absent => Document (PList []) | present => present end
    /\ dirs w' = {[ "static" ]} ∪ ({[ "templates" ]} ∪ (image_folders ∪ dirs w))
    /\ images w' = images w /\ excel_file w' = excel_file w
    /\ export_file w' = export_file w.
Proof.
  unfold startup, makedirs, write_reports_file. run.
  cbn [reports_file excel_file export_file dirs images stdout].
  destruct (reports_file w) eqn:Hfile;
    cbn [reports_file excel_file export_file dirs images stdout];
    match goal with |- context [ensure_image_folders ?W] =>
      destruct (ensure_image_folders_run W)
        as (w1 & Hens & Hr1 & Hx1 & Hp1 & Hi1 & Ho1 & Hd1)
    end;
    rewrite Hens; cbv beta iota; eexists; (split; [reflexivity|]);
    cbn [reports_file excel_file export_file dirs images stdout] in *;
    rewrite Hr1, Hd1, Hi1, Hx1, Hp1; repeat split; apply union_rotate.
Qed.

Lemma startup_loaded (w w' : world) :
  reports_file w'
  = match reports_file w with Absent => Document (PList []) | present => present end ->
  loaded w' = loaded w /\ (store_ok w -> store_ok w').
Proof.
  intros Hr. unfold loaded, store_ok. rewrite Hr.
  destruct (reports_file w); split; auto.
Qed.

(** X12: the start-up code prepares the disk and keeps what is there.  It
    always returns; afterwards the reports file exists (the empty list
    when there was none, the old content otherwise), [load_reports]
    returns what it returned before, the static, template and image
    folders exist, and no image, workbook or export file has changed.
    Run a second time it changes neither a file nor a directory. *)
Theorem startup_prepares (w : world) :
  exists w' w'',
    startup w = (Val tt, w')
    /\ reports_file w'
       = match reports_file w with Absent => Document (PList []) | present => present end
    /\ loaded w' = loaded w
    /\ (store_ok w -> store_ok w')
    /\ dirs w' = {[ "static" ]} ∪ ({[ "templates" ]} ∪ (image_folders ∪ dirs w))
    /\ images w' = images w /\ excel_file w' = excel_file w
    /\ export_file w' = export_file w
    /\ startup w' = (Val tt, w'') /\ same_files w' w''.
Proof.
  destruct (startup_run w) as (w' & Hs & Hr & Hd & Hi & Hx & Hp).
  destruct (startup_run w') as (w'' & Hs' & Hr' & Hd' & Hi' & Hx' & Hp').
  destruct (startup_loaded w w' Hr) as [Hloaded Hok].
  exists w', w''. do 8 (split; [assumption|]). split; [exact Hs'|].
  unfold same_files. rewrite Hr', Hx', Hp', Hd', Hi', Hr, Hd.
  repeat split; [destruct (reports_file w); reflexivity|apply union_twice].
Qed.

(** X13: once the start-up code has run, a submission without a named
    file is turned away with a 400 and without any change on disk: no
    directory, no image, no report, no workbook. *)
Theorem started_rejection_writes_nothing (e : env) (req : request) (w0 w : world) :
  startup w0 = (Val tt, w) ->
  any_named (image_files_of req) = false ->
  snd (fst (submit_report e req w)) = 400%Z
  /\ same_files w (snd (submit_report e req w)).
Proof.
  intros Hstart Hany.
  assert (image_folders ⊆ dirs w) as Hsub.
  { destruct (startup_run w0) as (w1 & Hs & _ & Hd & _). rewrite Hs in Hstart.
    injection Hstart as <-. rewrite Hd. apply union_third. }
  pose proof (submit_report_submitted e req w) as H.
  destruct (submit_report e req w) as [[b status] w']. cbn [fst snd] in *.
  inversion H; subst; try congruence; try (split; [reflexivity|assumption]).
  split; [reflexivity|]. unfold same_files.
  repeat split; try assumption.
  match goal with Hd : dirs w' = _ |- _ => rewrite Hd end.
  apply union_absorb_subset, Hsub.
Qed.

End OtherRoutes.

(** ** Serving what was stored *)

Section Serving.

Context {RT : Runtime} {BI : Builtins}.
Abbreviation value := (pyval pyfloat).

(** X14: what a 201 promises can be fetched.  Every name in the [images]
    list of the record a successful submission answers with is served by
    [/uploads/<folder>/<name>], the folder being the one the type is
    filed under, and what is served is the content of one of the files
    uploaded with the submission (provided [safe_join] lets the name
    through, as it does for one path component). *)
Theorem stored_image_is_served (e : env) (req : request) (w w' : world) (b : body) :
  submit_report e req w = (b, 201%Z, w') ->
  exists (t l d : string) (x y : pyfloat),
    field_type req = Some t
    /\ b = success_body (new_report_of e t l d x y (saved_names e req t))
    /\ saved_names e req t <> []
    /\ forall name,
         name ∈ saved_names e req t ->
         safe_join (folder_path_of t) name = Some (Py.path_join (folder_path_of t) name) ->
         exists img, img ∈ image_files_of req
           /\ uploaded_file (folder_name_of t) name w' = FileSent (stream img).
Proof.
  intros Hrun. pose proof (submit_report_submitted e req w) as H.
  rewrite Hrun in H. cbn [fst snd] in H.
  inversion H; subst.
  match goal with Hup : after_upload _ _ _ w w' |- _ => destruct Hup as (_ & _ & Hi) end.
  match goal with Hp : passes_checks _ _ _ _ _ _ |- _ => destruct Hp as (Ht & _) end.
  exists t, l, d, x, y. do 3 (split; [assumption || reflexivity|]).
  intros name Hname Hjoin.
  destruct (write_all_lookup
              (spec_writes e (folder_path_of t) 0 (image_files_of req)) (images w)
              (Py.path_join (folder_path_of t) name)) as (bytes & Hb & Hl).
  { rewrite spec_writes_paths. apply list_elem_of_fmap. exists name. auto. }
  destruct (spec_writes_bytes _ _ _ _ _ _ Hb) as (img & Himg & ->).
  exists img. split; [exact Himg|].
  unfold uploaded_file, send_from_directory.
  change (Py.path_join IMAGE_ROOT (folder_name_of t)) with (folder_path_of t).
  rewrite Hjoin, Hi, Hl. reflexivity.
Qed.

(** X15: a failure of the translation service never fails the request.
    For a JSON object as payload [translate] answers 200 whatever the
    service does: with the service's [translatedText] when the reply has
    one, and with the text "Translation service error." in its place when
    the request or its decoding raises or the reply lacks
    [responseData] or [translatedText].  A payload that is not an object
    raises out of the handler, which has no [try]. *)
Theorem translate_service_failure_contained (reply : value -> outcome value)
    (payload : value) :
  (forall kv, payload = PDict kv ->
     let text_input := default PNone (dict_get kv "text") in
     exists translated,
       translate reply payload
       = Val (Json (PDict [("translated_text", translated)]), 200%Z)
       /\ (forall data_kv reply_kv t,
             reply text_input = Val (PDict data_kv) ->
             dict_get data_kv "responseData" = Some (PDict reply_kv) ->
             dict_get reply_kv "translatedText" = Some t ->
             translated = t)
       /\ (forall err, reply text_input = Exc err ->
             translated = PStr "Translation service error.")
       /\ (forall data, reply text_input = Val data ->
             py_getitem data "responseData" = Val PNone
             \/ (exists err, py_getitem data "responseData" = Exc err)
             \/ (exists rd err, py_getitem data "responseData" = Val rd
                   /\ py_getitem rd "translatedText" = Exc err) ->
             translated = PStr "Translation service error."))
  /\ (is_dict payload = false ->
      translate reply payload = Exc (AttributeError payload "get")).
Proof.
  split.
  - intros kv -> text_input. unfold translate, py_get. run_outcome.
    fold text_input. eexists. split; [reflexivity|].
    unfold english_to_urdu. run_outcome. split; [|split].
    + intros data_kv reply_kv t -> Hrd Ht. cbn. rewrite Hrd. cbn. rewrite Ht. reflexivity.
    + intros err ->. reflexivity.
    + intros data -> [Hnone|[(err & Herr)|(rd & err & Hrd & Herr)]].
      * rewrite Hnone. reflexivity.
      * rewrite Herr. reflexivity.
      * rewrite Hrd, Herr. reflexivity.
  - intros Hnot. destruct payload; try discriminate; reflexivity.
Qed.

End Serving.

(** ** A deployment *)

Section Deployment.

Context {RT : Runtime}.
Abbreviation value := (pyval pyfloat).

Lemma mirror_ok_same (w w' : world) :
  reports_file w' = reports_file w -> excel_file w' = excel_file w ->
  mirror_ok w -> mirror_ok w'.
Proof. unfold mirror_ok, loaded. intros -> ->. auto. Qed.

Lemma records_shaped_snoc (e : env) (t l d : string) (x y : pyfloat) (names : list string)
    (old : list value) :
  Forall (fun r => record_shaped r = true) old ->
  Forall (fun r => record_shaped r = true) (old ++ [new_report_of e t l d x y names]).
Proof.
  intros Hall. apply Forall_app. split; [exact Hall|].
  apply Forall_cons. split; [apply new_report_shaped|constructor].
Qed.

(** What every request keeps: the file holds records of the right shape,
    the workbook mirrors the first of them, the image folders exist. *)
Lemma handled_keeps (w w' : world) :
  handled w w' ->
  store_shaped w /\ mirror_ok w /\ image_folders ⊆ dirs w ->
  store_shaped w' /\ mirror_ok w' /\ image_folders ⊆ dirs w'.
Proof.
  intros Hstep (Hok & Hmirror & Hdirs).
  destruct (store_shaped_loaded w Hok) as (old & Hold & Hall).
  pose proof (loaded_list_readable w old Hold) as Hread.
  destruct Hstep as [e req| |].
  - pose proof (submit_report_submitted e req w) as H.
    destruct (submit_report e req w) as [r w']. cbn [fst snd] in *.
    inversion H; subst;
      try (match goal with Hs : same_files w w' |- _ =>
             destruct Hs as (Hr & Hx & Hp & Hd & Hi) end;
           split; [eapply store_shaped_same; eassumption|];
           split; [eapply mirror_ok_same; eassumption|]; rewrite Hd; exact Hdirs);
      try (match goal with Hd : dirs w' = _ ∪ _ |- _ =>
             split; [eapply store_shaped_same; eassumption|];
             split; [eapply mirror_ok_same; eassumption|];
             rewrite Hd; apply union_subseteq_l end);
      match goal with Hup : after_upload _ _ _ w w' |- _ =>
        destruct Hup as (Hp & Hd & Hi) end.
    + exfalso. match goal with Hlocked : reports_file w = Unreadable _ |- _ =>
        exact (Hread _ Hlocked) end.
    + split; [eapply store_shaped_same; eassumption|].
      split; [eapply mirror_ok_same; eassumption|].
      rewrite Hd; apply union_subseteq_l.
    + assert (old0 = old) by congruence. subst.
      match goal with Hfile : reports_file w' = Document _ |- _ =>
        unfold store_shaped, mirror_ok, loaded; rewrite Hfile end.
      split; [apply records_shaped_snoc, Hall|].
      split; [|rewrite Hd; apply union_subseteq_l].
      match goal with Hx : excel_file w' = excel_file w |- _ => rewrite Hx end.
      unfold mirror_ok in Hmirror. destruct (excel_file w) as [wb|]; [|exact I].
      destruct Hmirror as (records & earlier & Hrecords & Hprefix & Hbook).
      assert (records = old) by congruence. subst.
      eexists _, earlier. split; [reflexivity|]. split; [|exact Hbook].
      apply prefix_app_r, Hprefix.
    + assert (old0 = old) by congruence. subst.
      match goal with Hfile : reports_file w' = Document _ |- _ =>
        unfold store_shaped, mirror_ok, loaded; rewrite Hfile end.
      split; [apply records_shaped_snoc, Hall|].
      split; [|rewrite Hd; apply union_subseteq_l].
      match goal with Hx : excel_file w' = Some _ |- _ => rewrite Hx end.
      eexists _, _. split; [reflexivity|]. split; [reflexivity|assumption].
  - unfold get_reports.
    destruct (load_reports_loaded w Hread) as (w' & -> & Hr & Hx & Hp & Hd & Hi).
    cbn [snd]. split; [eapply store_shaped_same; eassumption|].
    split; [eapply mirror_ok_same; eassumption|]. rewrite Hd. exact Hdirs.
  - destruct old as [|r old].
    + destruct (export_empty w Hold) as (w' & -> & Hr & Hx & Hp & Hd & Hi).
      cbn [snd]. split; [eapply store_shaped_same; eassumption|].
      split; [eapply mirror_ok_same; eassumption|]. rewrite Hd. exact Hdirs.
    + destruct (export_records w (r :: old) Hold) as (w' & Hrun & _ & Hr & Hx & Hi & Hd);
        [discriminate| |].
      * apply forallb_forall. intros v Hv. apply list_elem_of_In in Hv.
        rewrite Forall_forall in Hall. specialize (Hall v Hv).
        destruct v; try discriminate. reflexivity.
      * cbv zeta in Hrun. rewrite Hrun. cbn [snd].
        split; [eapply store_shaped_same; eassumption|].
        split; [eapply mirror_ok_same; eassumption|]. rewrite Hd. exact Hdirs.
Qed.

(** What the start-up code establishes. *)
Lemma startup_keeps (w0 w : world) :
  startup w0 = (Val tt, w) -> store_shaped w0 -> mirror_ok w0 ->
  store_shaped w /\ mirror_ok w /\ image_folders ⊆ dirs w.
Proof.
  intros Hstart Hok0 Hmirror0.
  unfold startup, makedirs, write_reports_file in Hstart. run.
  cbn [reports_file excel_file export_file dirs images stdout] in Hstart.
  unfold store_shaped, mirror_ok, loaded in *.
  destruct (reports_file w0) eqn:Hfile;
    cbn [reports_file excel_file export_file dirs images stdout] in Hstart;
    match type of Hstart with context [ensure_image_folders ?W] =>
      destruct (ensure_image_folders_run W)
        as (w2 & Hens & Hr & Hx & Hp & Hi & Ho & Hd)
    end;
    rewrite Hens in Hstart; cbv beta iota in Hstart;
    injection Hstart as <-;
    cbn [reports_file excel_file export_file dirs images stdout] in *;
    rewrite Hr, Hx, Hd;
    (split; [first [exact Hok0 | constructor]|]);
    (split; [exact Hmirror0|apply union_subseteq_l]).
Qed.

(** X16: the invariant of a deployment.  Started by [__main__] on a disk
    whose reports file, if any, holds records of the right shape and
    whose workbook, if any, mirrors them, and after any number of
    requests to [submit_report], [get_reports] and
    [export_reports_excel]: the reports file still holds a sequence of
    such records, the image folders exist, and the workbook is never
    ahead of the file nor at odds with it: when it exists it is the
    workbook of the specification for the first of the reports now
    stored, namely those stored when [save_reports] last returned.  It
    can be behind: a 500 of [submit_report] is either the one for images
    that could not be written, which changes nothing on disk, or the one
    after [save_reports] raised on the workbook, which has appended the
    report and left the workbook as it was.  The handler never fails on
    reading the file or on [append]. *)
Theorem deployment_invariant (w0 w : world) :
  store_shaped w0 -> mirror_ok w0 -> deployed w0 w ->
  store_shaped w /\ mirror_ok w /\ image_folders ⊆ dirs w
  /\ (exists records,
        listReports w = PList records
        /\ Forall (fun r => record_shaped r = true) records
        /\ (forall wb, excel_file w = Some wb ->
             exists earlier,
               earlier `prefix_of` records /\ earlier <> []
               /\ wb = spec_workbook earlier
               /\ Forall (fun r => forallb cell_ok (spec_row r) = true) earlier)
        /\ forall e req,
             snd (fst (submit_report e req w)) = 500%Z ->
             (fst (fst (submit_report e req w)) = error_body "Failed to save images."
              /\ same_files w (snd (submit_report e req w)))
             \/ (exists r err,
                   workbook_of (records ++ [r]) = Exc err
                   /\ fst (fst (submit_report e req w))
                      = error_body ("Server error: " +:+ exn_msg err)
                   /\ listReports (snd (submit_report e req w)) = PList (records ++ [r])
                   /\ excel_file (snd (submit_report e req w)) = excel_file w)).
Proof.
  intros Hok0 Hmirror0 (w1 & Hstart & Hsteps).
  assert (store_shaped w /\ mirror_ok w /\ image_folders ⊆ dirs w)
    as (Hok & Hmirror & Hdirs).
  { revert w Hsteps. apply rtc_ind_r.
    - eapply startup_keeps; eassumption.
    - intros w2 w3 _ Hstep IH. eapply handled_keeps; eassumption. }
  do 3 (split; [assumption|]).
  destruct (store_shaped_loaded w Hok) as (old & Hold & Hall).
  exists old. rewrite listReports_loaded. do 2 (split; [assumption|]). split.
  - intros wb Hwb. unfold mirror_ok in Hmirror. rewrite Hwb in Hmirror.
    destruct Hmirror as (records & earlier & Hrecords & Hprefix & Hbook).
    assert (records = old) by congruence. subst.
    assert (Forall (fun r => record_shaped r = true) earlier) as Hearlier.
    { destruct Hprefix as [later ->]. apply Forall_app in Hall as [Hall _]. exact Hall. }
    exists earlier. split; [exact Hprefix|].
    destruct (workbook_of_cases earlier Hearlier) as [[Hspec Hne]|[err Herr]];
      [|congruence].
    split; [exact Hne|]. split; [congruence|].
    eapply workbook_of_cells; eassumption.
  - intros e req. pose proof (submit_report_submitted e req w) as H.
    destruct (submit_report e req w) as [[b status] w']. cbn [fst snd] in *.
    intros ->. inversion H; subst.
    + left. split; [reflexivity|]. unfold same_files. repeat split; try assumption.
      match goal with Hd : dirs w' = _ |- _ => rewrite Hd end.
      apply union_absorb_subset, Hdirs.
    + exfalso. match goal with Hlocked : reports_file w = Unreadable _ |- _ =>
        exact (loaded_list_readable w old Hold _ Hlocked) end.
    + exfalso. match goal with Hnot : forall old, loaded w <> PList old |- _ =>
        apply (Hnot old Hold) end.
    + right. assert (old0 = old) by congruence. subst.
      eexists _, err. split; [eassumption|]. split; [reflexivity|].
      split; [|assumption]. rewrite listReports_loaded. unfold loaded.
      match goal with Hfile : reports_file w' = Document _ |- _ => rewrite Hfile end.
      reflexivity.
Qed.

(** On a store from whose records the workbook cannot be derived, a
    submission is never answered 201 and never touches the workbook; it
    leaves the reports file as it was or with one record more. *)
Lemma refused_submit (e : env) (req : request) (w : world) (old : list value) (err : exn) :
  loaded w = PList old ->
  Forall (fun r => record_shaped r = true) old -> old <> [] ->
  workbook_of old = Exc err ->
  snd (fst (submit_report e req w)) <> 201%Z
  /\ excel_file (snd (submit_report e req w)) = excel_file w
  /\ (reports_file (snd (submit_report e req w)) = reports_file w
      \/ exists r, record_shaped r = true
           /\ reports_file (snd (submit_report e req w)) = Document (PList (old ++ [r]))
           /\ snd (fst (submit_report e req w)) = 500%Z).
Proof.
  intros Hold Hall Hne Hrefused.
  pose proof (submit_report_submitted e req w) as H.
  destruct (submit_report e req w) as [[b status] w']. cbn [fst snd] in *.
  inversion H; subst;
    try (match goal with Hs : same_files w w' |- _ =>
           destruct Hs as (Hr & Hx & Hp & Hd & Hi) end);
    try (split; [discriminate|]; split; [assumption|]; left; assumption).
  - split; [discriminate|]. split; [assumption|]. right.
    assert (old0 = old) by congruence. subst.
    eexists. split; [apply new_report_shaped|]. split; [eassumption|reflexivity].
  - exfalso. assert (old0 = old) by congruence. subst.
    destruct (workbook_of_stays_refused old
                [new_report_of e t l d x y (saved_names e req t)] err) as [err' Herr'];
      try assumption; [|congruence].
    apply Forall_app. split; [exact Hall|].
    apply Forall_cons. split; [apply new_report_shaped|constructor].
Qed.

(** X18: one report the workbook cannot take stops the mirror for good.
    When the workbook cannot be derived from the records a store holds,
    then whatever requests follow, the records stay where they are with
    the later ones behind them, the workbook stays as it was, and no
    submission is answered 201 any more: one that gets as far as
    [save_reports] is appended to the reports file and answered 500. *)
Theorem stale_workbook_stays_stale (w w' : world) (old : list value) (err : exn) :
  loaded w = PList old ->
  Forall (fun r => record_shaped r = true) old -> old <> [] ->
  workbook_of old = Exc err ->
  rtc handled w w' ->
  excel_file w' = excel_file w
  /\ exists later,
       listReports w' = PList (old ++ later)
       /\ (exists err', workbook_of (old ++ later) = Exc err')
       /\ forall e req,
            snd (fst (submit_report e req w')) <> 201%Z
            /\ excel_file (snd (submit_report e req w')) = excel_file w
            /\ (listReports (snd (submit_report e req w')) = PList (old ++ later)
                \/ exists r,
                     listReports (snd (submit_report e req w'))
                     = PList ((old ++ later) ++ [r])
                     /\ snd (fst (submit_report e req w')) = 500%Z).
Proof.
  intros Hold Hall Hne Hrefused Hsteps.
  assert (excel_file w' = excel_file w
          /\ exists later, loaded w' = PList (old ++ later)
               /\ Forall (fun r => record_shaped r = true) (old ++ later))
    as (Hx & later & Hloaded & Hshape).
  { revert w' Hsteps. apply rtc_ind_r.
    - split; [reflexivity|]. exists []. rewrite app_nil_r. auto.
    - intros v v' _ Hstep (Hx & later & Hloaded & Hshape).
      destruct (workbook_of_stays_refused old later err Hshape Hne Hrefused)
        as [err' Herr'].
      assert (old ++ later <> [])%list as Hne'
          by (intros Hnil; apply app_eq_nil in Hnil as [Hnil _]; auto).
      pose proof (loaded_list_readable v _ Hloaded) as Hread.
      destruct Hstep as [e req| |].
      + destruct (refused_submit e req v _ err' Hloaded Hshape Hne' Herr')
          as (_ & Hx' & [Hsame|(r & Hr & Hfile & _)]).
        * split; [congruence|]. exists later. unfold loaded in *. rewrite Hsame. auto.
        * split; [congruence|]. exists (later ++ [r])%list. rewrite app_assoc.
          split; [unfold loaded; rewrite Hfile; reflexivity|].
          apply Forall_app. split; [exact Hshape|]. apply Forall_cons. auto.
      + unfold get_reports.
        destruct (load_reports_loaded v Hread) as (v' & -> & Hr & Hx' & _). cbn [snd].
        split; [congruence|]. exists later. unfold loaded in *. rewrite Hr. auto.
      + assert (excel_file (snd (export_reports_excel v)) = excel_file v
                /\ reports_file (snd (export_reports_excel v)) = reports_file v)
          as [Hx' Hr].
        { unfold export_reports_excel, export_reports_excel_try, write_export_file.
          destruct (load_reports_loaded v Hread) as (v' & Hload & Hr & Hx' & _).
          run. rewrite Hload. cbv beta iota.
          destruct (negb (truthy_val (loaded v))); [cbn; auto|].
          destruct (to_excel_rows (loaded v)); cbn; auto. }
        split; [congruence|]. exists later. unfold loaded in *. rewrite Hr. auto. }
  split; [exact Hx|]. exists later. rewrite listReports_loaded.
  split; [exact Hloaded|].
  destruct (workbook_of_stays_refused old later err Hshape Hne Hrefused) as [err' Herr'].
  split; [eauto|]. intros e req.
  assert (old ++ later <> [])%list as Hne'
      by (intros Hnil; apply app_eq_nil in Hnil as [Hnil _]; auto).
  destruct (refused_submit e req w' _ err' Hloaded Hshape Hne' Herr')
    as (Hnot & Hx' & Hfile).
  split; [exact Hnot|]. split; [congruence|]. rewrite listReports_loaded.
  destruct Hfile as [Hsame|(r & _ & Hfile & Hstatus)].
  - left. unfold loaded in *. rewrite Hsame. exact Hloaded.
  - right. exists r. split; [|exact Hstatus]. unfold loaded. rewrite Hfile. reflexivity.
Qed.

End Deployment.

(** ** A server error after the report was stored *)

Section Partial.

Context {RT : Runtime}.
Abbreviation value := (pyval pyfloat).

(** X17: a 500 does not mean that nothing was stored.  When the
    submission passes the checks and an image is written, but the
    workbook cannot be derived from the stored reports with the new one
    (a record in the file whose [type] is not a string, say), the answer
    is 500 "Server error: ..." although the new report is by then in the
    reports file, where [get_reports] returns it, and its images are on
    disk; only the workbook is as before.  Sending the form again stores
    the report a second time. *)
Theorem server_error_after_store (e : env) (req : request) (w : world)
    (t l d : string) (x y : pyfloat) (old : list value) (err : exn) :
  let r := new_report_of e t l d x y (saved_names e req t) in
  passes_checks req t l d x y ->
  saved_names e req t <> [] ->
  loaded w = PList old ->
  workbook_of (old ++ [r]) = Exc err ->
  exists w',
    submit_report e req w = (error_body ("Server error: " +:+ exn_msg err), 500%Z, w')
    /\ listReports w' = PList (old ++ [r])
    /\ excel_file w' = excel_file w
    /\ (forall name, name ∈ saved_names e req t ->
          is_Some (images w' !! Py.path_join (folder_path_of t) name))
    /\ forall e',
         saved_names e' req t <> [] ->
         listReports (snd (submit_report e' req w'))
         = PList (old ++ [r; new_report_of e' t l d x y (saved_names e' req t)]).
Proof.
  intros r Hpass Hne Hold Hbook.
  pose proof (submit_report_submitted e req w) as H.
  destruct (submit_report e req w) as [answer w']. cbn [fst snd] in H.
  destruct (submitted_stored e req w w' answer t l d x y old Hpass Hne Hold H)
    as (Hfile & (_ & _ & Hi) & Hanswer).
  fold r in Hfile, Hanswer.
  assert (loaded w' = PList (old ++ [r])) as Hloaded
      by (unfold loaded; rewrite Hfile; reflexivity).
  exists w'.
  destruct Hanswer as [(err' & Hbook' & -> & Hx)|(wb & Hbook' & _)]; [|congruence].
  assert (err' = err) by congruence. subst.
  split; [reflexivity|]. split; [rewrite listReports_loaded; exact Hloaded|].
  split; [exact Hx|]. split.
  - intros name Hname.
    destruct (write_all_lookup
                (spec_writes e (folder_path_of t) 0 (image_files_of req)) (images w)
                (Py.path_join (folder_path_of t) name)) as (bytes & _ & Hl).
    { rewrite spec_writes_paths. apply list_elem_of_fmap. exists name. auto. }
    rewrite Hi, Hl. eauto.
  - intros e' Hne'. pose proof (submit_report_submitted e' req w') as H'.
    destruct (submit_report e' req w') as [answer' w'']. cbn [fst snd] in *.
    destruct (submitted_stored e' req w' w'' answer' t l d x y _ Hpass Hne' Hloaded H')
      as (Hfile' & _).
    rewrite listReports_loaded. unfold loaded. rewrite Hfile'.
    rewrite <- app_assoc. reflexivity.
Qed.

End Partial.

(** ** The further theorems on the concrete scenario *)

Section FurtherWitnesses.

#[local] Existing Instance reference_runtime.
#[local] Existing Instance reference_builtins.
Import Scenario.

Lemma workbook_keeps_every_report_witness :
  Forall (fun r => record_ok r = true) [smoke_record]
  /\ exists wb,
       workbook_of [smoke_record] = Val wb
       /\ list_sum (map (fun s => length (rows s) - 1) wb) = length [smoke_record]
       /\ Forall (fun s => 2 <= length (rows s)) wb
       /\ map title wb `sublist_of` ["Pollution"; "Deforestation"; "Improvement"; "Other"]
       /\ wb <> [].
Proof.
  assert (Forall (fun r : pyval decimal => record_ok r = true) [smoke_record]) as Hok
      by (repeat constructor).
  split; [exact Hok|].
  destruct (workbook_keeps_every_report (RT := reference_runtime) [smoke_record] Hok)
    as [Hsome _].
  apply Hsome. discriminate.
Defined.

Lemma submitted_report_sheet_witness :
  store_shaped fresh
  /\ exists (t l d : string) (x y : decimal) (wb : list sheet)
            (header : list (pyval decimal)) (earlier : list (list (pyval decimal))),
       passes_checks smoke t l d x y
       /\ excel_file reported = Some wb
       /\ {| title := Py.capitalize (folder_name_of t);
             rows := header
                       :: earlier
                       ++ [[PStr t; PStr l; PStr d; PFloat x; PFloat y;
                            PStr (datetime_now noon);
                            PStr (Py.join ", " (saved_names noon smoke t))]] |} ∈ wb
       /\ folder_name_of t ∈ REPORT_TYPES
       /\ (forall name,
             name ∈ saved_names noon smoke t ->
             is_Some (images reported
                        !! Py.path_join (Py.path_join IMAGE_ROOT (folder_name_of t)) name)).
Proof.
  split; [exact I|].
  apply (submitted_report_sheet (RT := reference_runtime) noon smoke fresh reported
           (success_body (RT := reference_runtime) smoke_record) I).
  assert (fst (submit_report noon smoke fresh)
          = (success_body (RT := reference_runtime) smoke_record, 201%Z)) as Hanswer
      by reflexivity.
  rewrite <- Hanswer. unfold reported.
  destruct (submit_report noon smoke fresh) as [r w']. reflexivity.
Defined.

Lemma location_labels_not_interpreted_witness :
  Py.plain "35.92" = true /\ Py.plain "74.30" = true
  /\ resolve_coords None (Some "74.30") "35.92, 74.30" = Val (lat, lon)
  /\ resolve_coords None (Some "74.30") "Lon: 35.92, Lat: 74.30" = Val (lat, lon).
Proof.
  do 2 (split; [reflexivity|]).
  destruct (location_labels_not_interpreted (RT := reference_runtime)
              "35.92" "74.30" None (Some "74.30") eq_refl eq_refl eq_refl)
    as (Hbare & Hswapped & _).
  split; [exact Hbare|exact Hswapped].
Defined.

Lemma location_without_comma_rejected_witness :
  Py.lacks "," gilgit = true
  /\ exists w',
       submit_report noon smoke_nowhere fresh
       = (error_body
            "Invalid location format: not enough values to unpack (expected 2, got 1)",
          400%Z, w')
       /\ same_files fresh w'.
Proof.
  split; [reflexivity|].
  apply (location_without_comma_rejected (RT := reference_runtime) noon smoke_nowhere fresh
           "Pollution" gilgit "smoke"); try reflexivity.
  cbn. lia.
Defined.

Lemma started_rejection_writes_nothing_witness :
  any_named (image_files_of smoke_no_image) = false
  /\ snd (fst (submit_report noon smoke_no_image started)) = 400%Z
  /\ same_files started (snd (submit_report noon smoke_no_image started)).
Proof.
  split; [reflexivity|].
  apply (started_rejection_writes_nothing (RT := reference_runtime) noon smoke_no_image
           fresh started); [|reflexivity].
  assert (fst (startup fresh) = Val tt) as Hstarted by reflexivity.
  rewrite <- Hstarted. unfold started.
  destruct (startup fresh) as [o w']. reflexivity.
Defined.

Lemma stored_image_is_served_witness :
  exists (t l d : string) (x y : decimal),
    field_type smoke = Some t
    /\ success_body (RT := reference_runtime) smoke_record
       = success_body (new_report_of noon t l d x y (saved_names noon smoke t))
    /\ saved_names noon smoke t <> []
    /\ forall name,
         name ∈ saved_names noon smoke t ->
         safe_join (folder_path_of t) name = Some (Py.path_join (folder_path_of t) name) ->
         exists img, img ∈ image_files_of smoke
           /\ uploaded_file (folder_name_of t) name reported = FileSent (stream img).
Proof.
  apply (stored_image_is_served (RT := reference_runtime) (BI := reference_builtins)
           noon smoke fresh reported (success_body (RT := reference_runtime) smoke_record)).
  assert (fst (submit_report noon smoke fresh)
          = (success_body (RT := reference_runtime) smoke_record, 201%Z)) as Hanswer
      by reflexivity.
  rewrite <- Hanswer. unfold reported.
  destruct (submit_report noon smoke fresh) as [r w']. reflexivity.
Defined.

Lemma deployment_invariant_witness :
  deployed fresh started_reported
  /\ store_shaped started_reported /\ mirror_ok started_reported
  /\ image_folders ⊆ dirs started_reported
  /\ exists records,
       listReports started_reported = PList records
       /\ Forall (fun r => record_shaped r = true) records
       /\ (forall wb, excel_file started_reported = Some wb ->
             exists earlier,
               earlier `prefix_of` records /\ earlier <> []
               /\ wb = spec_workbook earlier
               /\ Forall (fun r => forallb cell_ok (spec_row r) = true) earlier)
       /\ forall e req,
            snd (fst (submit_report e req started_reported)) = 500%Z ->
            (fst (fst (submit_report e req started_reported))
             = error_body "Failed to save images."
             /\ same_files started_reported (snd (submit_report e req started_reported)))
            \/ (exists r err,
                  workbook_of (records ++ [r]) = Exc err
                  /\ fst (fst (submit_report e req started_reported))
                     = error_body ("Server error: " +:+ exn_msg err)
                  /\ listReports (snd (submit_report e req started_reported))
                     = PList (records ++ [r])
                  /\ excel_file (snd (submit_report e req started_reported))
                     = excel_file started_reported).
Proof.
  assert (deployed fresh started_reported) as Hdeployed.
  { exists started. split; [|apply rtc_once; constructor].
    assert (fst (startup fresh) = Val tt) as Hstarted by reflexivity.
    rewrite <- Hstarted. unfold started.
    destruct (startup fresh) as [o w']. reflexivity. }
  split; [exact Hdeployed|].
  apply (deployment_invariant (RT := reference_runtime) fresh started_reported I I Hdeployed).
Defined.

Lemma stale_workbook_stays_stale_witness :
  loaded belled = PList [bell_record]
  /\ workbook_of [bell_record]
     = Exc (Exn "IllegalCharacterError"
                ("smoke" +:+ bell +:+ " cannot be used in worksheets."))
  /\ excel_file belled_reported = excel_file belled
  /\ exists later,
       listReports belled_reported = PList ([bell_record] ++ later)
       /\ (exists err', workbook_of ([bell_record] ++ later) = Exc err')
       /\ forall e req,
            snd (fst (submit_report e req belled_reported)) <> 201%Z
            /\ excel_file (snd (submit_report e req belled_reported)) = excel_file belled
            /\ (listReports (snd (submit_report e req belled_reported))
                = PList ([bell_record] ++ later)
                \/ exists r,
                     listReports (snd (submit_report e req belled_reported))
                     = PList (([bell_record] ++ later) ++ [r])
                     /\ snd (fst (submit_report e req belled_reported)) = 500%Z).
Proof.
  assert (loaded belled = PList [bell_record]) as Hloaded by reflexivity.
  assert (workbook_of [bell_record]
          = Exc (Exn "IllegalCharacterError"
                     ("smoke" +:+ bell +:+ " cannot be used in worksheets.")))
    as Hrefused by reflexivity.
  do 2 (split; [assumption|]).
  apply (stale_workbook_stays_stale (RT := reference_runtime) belled belled_reported
           [bell_record]
           (Exn "IllegalCharacterError"
                ("smoke" +:+ bell +:+ " cannot be used in worksheets."))
           Hloaded); [repeat constructor|discriminate|exact Hrefused|].
  apply rtc_once. constructor.
Defined.

(** After the report with the bell a report without fault is refused
    with the same message, and stored. *)
Example smoke_after_bell :
  fst (submit_report noon smoke belled)
  = (error_body ("Server error: smoke" +:+ bell +:+ " cannot be used in worksheets."),
     500%Z)
  /\ listReports belled_reported = PList [bell_record; smoke_record].
Proof. split; reflexivity. Qed.

(** A deployment can fall behind: after the report with the bell the
    file holds it and there is still no workbook. *)
Example bell_report_no_workbook :
  listReports (snd (submit_report noon smoke_bell started)) = PList [bell_record]
  /\ excel_file (snd (submit_report noon smoke_bell started)) = None.
Proof. split; reflexivity. Qed.

Lemma server_error_after_store_witness :
  let r := new_report_of noon "Pollution" "Lat: 35.92, Lon: 74.30" "smoke" lat lon
             (saved_names noon smoke "Pollution") in
  workbook_of (edited_reports ++ [r])
  = Exc (AttributeError (RT := reference_runtime) (PInt 5) "lower")
  /\ exists w',
       submit_report noon smoke edited
       = (error_body "Server error: 'int' object has no attribute 'lower'", 500%Z, w')
       /\ listReports w' = PList (edited_reports ++ [r])
       /\ excel_file w' = excel_file edited
       /\ (forall name, name ∈ saved_names noon smoke "Pollution" ->
             is_Some (images w' !! Py.path_join (folder_path_of "Pollution") name))
       /\ forall e',
            saved_names e' smoke "Pollution" <> [] ->
            listReports (snd (submit_report e' smoke w'))
            = PList (edited_reports
                       ++ [r; new_report_of e' "Pollution" "Lat: 35.92, Lon: 74.30" "smoke"
                                lat lon (saved_names e' smoke "Pollution")]).
Proof.
  intros r. split; [reflexivity|].
  apply (server_error_after_store (RT := reference_runtime) noon smoke edited
           "Pollution" "Lat: 35.92, Lon: 74.30" "smoke" lat lon edited_reports
           (AttributeError (RT := reference_runtime) (PInt 5) "lower")).
  - repeat split; try reflexivity. cbn. lia.
  - vm_compute. discriminate.
  - reflexivity.
  - reflexivity.
Defined.

(** The image of the scenario is served from the lower-case folder, and
    from no folder spelled as the form spells the type. *)
Example smoke_image_served :
  uploaded_file "pollution" "20240101_120000_1.JPG" reported = FileSent "bytes"
  /\ uploaded_file "Pollution" "20240101_120000_1.JPG" reported = NotFound
  /\ uploaded_file "pollution" "../reports.json" reported = NotFound.
Proof. repeat split. Qed.

(** Reports edited by hand into a record whose type is a number: the
    JSON file is written, the workbook derivation raises, and no workbook
    is written. *)
Example edited_reports_stale_workbook :
  fst (save_reports edited_reports fresh)
  = Exc (AttributeError (RT := reference_runtime) (PInt 5) "lower")
  /\ reports_file (snd (save_reports edited_reports fresh))
     = Document (PList edited_reports)
  /\ excel_file (snd (save_reports edited_reports fresh)) = None.
Proof. repeat split. Qed.

(** The map of the scenario: one marker, blue although the report is
    filed under pollution. *)
Example smoke_marker :
  index_markers (PList [smoke_record])
  = Val [ {| marker_location := (lat, lon);
             marker_popup := "<b>Type:</b> Pollution<br><b>Description:</b> smoke";
             marker_color_of := "blue" |} ].
Proof. reflexivity. Qed.

End FurtherWitnesses.
